(** * Gesture-Fireworks: a shallow embedding of the simulation core

    The development follows [src/components/FireworkScene.tsx] (the
    per-frame loop, the particle pool and the entity actions) and
    [src/App.tsx] (the session state machine).

    Conventions of the embedding.
    - A JavaScript [number] that holds a measurement (time, position,
      velocity, life, size) is a real number: rounding of binary64 and of
      the [Float32Array] buffers is not modelled.  Counters are integers.
    - [Math.random()] reads the next value of an oracle [random : nat -> R];
      the scene records how many values were drawn.
    - The refs of the component ([useRef]) are the fields of one record,
      threaded through a state monad whose failure stands for an uncaught
      [TypeError] (reading a property of [undefined]).
    - Calls that leave the core (audio cues, the stats callback) and the
      requests made to the particle pool are appended to a trace. *)

From Stdlib Require Import ZArith List Reals Lra Lia Bool.
From stdpp Require Import base list.
Import ListNotations.

(** ** Numbers and vectors *)

Record Vector3 := mkVector3 { vx : R; vy : R; vz : R }.

Definition Vector3_add (a b : Vector3) : Vector3 :=
  mkVector3 (vx a + vx b) (vy a + vy b) (vz a + vz b).

Definition Rgtb (x y : R) : bool := if Rlt_dec y x then true else false.
Definition Rltb (x y : R) : bool := if Rlt_dec x y then true else false.
Definition Rleb (x y : R) : bool := if Rle_dec x y then true else false.
Definition Rgeb (x y : R) : bool := if Rle_dec y x then true else false.

(** [Math.floor] of a real, as an integer. *)
Definition Math_floor (x : R) : Z := Zfloor x.

(** ** src/types.ts *)

Module Gesture.
Inductive t : Set :=
| None | Closed_Fist | Open_Palm | Victory
| Pointing_Up | Thumb_Up | Thumb_Down | Shaka.

#[global] Instance eq_dec : EqDecision t.
Proof. solve_decision. Defined.

(** The [===] of the source on two gesture labels. *)
Definition eqb (a b : t) : bool := bool_decide (a = b).
End Gesture.

Module HandData.
Record t := mk { gesture : Gesture.t; velocity : R; position : Vector3 }.
End HandData.

(** ** src/constants.ts *)

Definition COLOR_PALETTE : list Z :=
  [0xff0040; 0x00ff40; 0x0040ff; 0xffff00; 0xff00ff; 0x00ffff; 0xffaa00]%Z.
Definition GOLD_COLOR : Z := 0xffd700%Z.
Definition ENVELOPE_RED : Z := 0xd90429%Z.

(** ** src/components/FireworkScene.tsx: data *)

Module GameStats.
Record t := mk { exploded : Z; consumed : Z; coins : Z }.
End GameStats.

Module ParticleData.
Record t := mk {
  active : bool; life : R; velocity : Vector3; decay : R; initialSize : R }.
End ParticleData.

Module Projectile.
Record t := mk { id : R; position : Vector3; velocity : Vector3; color : Z }.
End Projectile.

Module Envelope.
(** [position] and [scale] are those of the envelope's mesh. *)
Record t := mk { id : R; position : Vector3; scale : R; isGolden : bool }.
End Envelope.

Module Coin.
(** [position] and [rotation] are those of the coin's mesh. *)
Record t := mk {
  position : Vector3; rotation : Vector3; velocity : Vector3;
  rotSpeed : R * R }.
End Coin.

(** The cues of the audio service ([audioService.playLaunch ()], ...). *)
Inductive Cue : Set :=
| playLaunch | playExplosion | playCoin | playSpawnEnvelopes.

(** The arguments of one call of [spawnParticle]. *)
Record ParticleRequest := mkRequest {
  req_pos : Vector3; req_color : Z; req_vel : Vector3;
  req_life : R; req_decay : R; req_size : R }.

Inductive Event :=
| Audio (c : Cue)
| SpawnParticle (r : ParticleRequest)
| StatsUpdate (st : GameStats.t).

Definition MAX_PARTICLES : Z := 4000.
#[global] Arguments MAX_PARTICLES : simpl never.
Definition SILVER_COLOR : Z := 0xC0C0C0.

(** The particle system refs: three flat buffers and the slot data. *)
Record Pool := mkPool {
  particlePositions : list R;
  particleColors : list R;
  particleSizes : list R;
  particlesData : list ParticleData.t }.

(** The refs of the component.  [sceneRef] stands for the three refs
    [sceneRef], [cameraRef] and [rendererRef], which the mount effect sets
    together and nothing clears. *)
Record Scene := mkScene {
  sceneRef : bool;
  projectiles : list Projectile.t;
  envelopes : list Envelope.t;
  coins : list Coin.t;
  pool : Pool;
  nextSpawnTime : R;
  gameState : GameStats.t;
  statsDirty : bool;
  pendingGesture : Gesture.t;
  stableGesture : Gesture.t;
  gestureFrameCount : nat;
  handDataRef : option HandData.t;
  isGameActiveRef : bool;
  randomCalls : nat;
  trace : list Event }.

Definition set_sceneRef v (s : Scene) : Scene :=
  mkScene v (projectiles s) (envelopes s) (coins s) (pool s) (nextSpawnTime
    s) (gameState s) (statsDirty s) (pendingGesture s) (stableGesture s)
    (gestureFrameCount s) (handDataRef s) (isGameActiveRef s) (randomCalls
    s) (trace s).
Definition set_projectiles v (s : Scene) : Scene :=
  mkScene (sceneRef s) v (envelopes s) (coins s) (pool s) (nextSpawnTime s)
    (gameState s) (statsDirty s) (pendingGesture s) (stableGesture s)
    (gestureFrameCount s) (handDataRef s) (isGameActiveRef s) (randomCalls
    s) (trace s).
Definition set_envelopes v (s : Scene) : Scene :=
  mkScene (sceneRef s) (projectiles s) v (coins s) (pool s) (nextSpawnTime
    s) (gameState s) (statsDirty s) (pendingGesture s) (stableGesture s)
    (gestureFrameCount s) (handDataRef s) (isGameActiveRef s) (randomCalls
    s) (trace s).
Definition set_coins v (s : Scene) : Scene :=
  mkScene (sceneRef s) (projectiles s) (envelopes s) v (pool s)
    (nextSpawnTime s) (gameState s) (statsDirty s) (pendingGesture s)
    (stableGesture s) (gestureFrameCount s) (handDataRef s) (isGameActiveRef
    s) (randomCalls s) (trace s).
Definition set_pool v (s : Scene) : Scene :=
  mkScene (sceneRef s) (projectiles s) (envelopes s) (coins s) v
    (nextSpawnTime s) (gameState s) (statsDirty s) (pendingGesture s)
    (stableGesture s) (gestureFrameCount s) (handDataRef s) (isGameActiveRef
    s) (randomCalls s) (trace s).
Definition set_nextSpawnTime v (s : Scene) : Scene :=
  mkScene (sceneRef s) (projectiles s) (envelopes s) (coins s) (pool s) v
    (gameState s) (statsDirty s) (pendingGesture s) (stableGesture s)
    (gestureFrameCount s) (handDataRef s) (isGameActiveRef s) (randomCalls
    s) (trace s).
Definition set_gameState v (s : Scene) : Scene :=
  mkScene (sceneRef s) (projectiles s) (envelopes s) (coins s) (pool s)
    (nextSpawnTime s) v (statsDirty s) (pendingGesture s) (stableGesture s)
    (gestureFrameCount s) (handDataRef s) (isGameActiveRef s) (randomCalls
    s) (trace s).
Definition set_statsDirty v (s : Scene) : Scene :=
  mkScene (sceneRef s) (projectiles s) (envelopes s) (coins s) (pool s)
    (nextSpawnTime s) (gameState s) v (pendingGesture s) (stableGesture s)
    (gestureFrameCount s) (handDataRef s) (isGameActiveRef s) (randomCalls
    s) (trace s).
Definition set_pendingGesture v (s : Scene) : Scene :=
  mkScene (sceneRef s) (projectiles s) (envelopes s) (coins s) (pool s)
    (nextSpawnTime s) (gameState s) (statsDirty s) v (stableGesture s)
    (gestureFrameCount s) (handDataRef s) (isGameActiveRef s) (randomCalls
    s) (trace s).
Definition set_stableGesture v (s : Scene) : Scene :=
  mkScene (sceneRef s) (projectiles s) (envelopes s) (coins s) (pool s)
    (nextSpawnTime s) (gameState s) (statsDirty s) (pendingGesture s) v
    (gestureFrameCount s) (handDataRef s) (isGameActiveRef s) (randomCalls
    s) (trace s).
Definition set_gestureFrameCount v (s : Scene) : Scene :=
  mkScene (sceneRef s) (projectiles s) (envelopes s) (coins s) (pool s)
    (nextSpawnTime s) (gameState s) (statsDirty s) (pendingGesture s)
    (stableGesture s) v (handDataRef s) (isGameActiveRef s) (randomCalls s)
    (trace s).
Definition set_handDataRef v (s : Scene) : Scene :=
  mkScene (sceneRef s) (projectiles s) (envelopes s) (coins s) (pool s)
    (nextSpawnTime s) (gameState s) (statsDirty s) (pendingGesture s)
    (stableGesture s) (gestureFrameCount s) v (isGameActiveRef s)
    (randomCalls s) (trace s).
Definition set_isGameActiveRef v (s : Scene) : Scene :=
  mkScene (sceneRef s) (projectiles s) (envelopes s) (coins s) (pool s)
    (nextSpawnTime s) (gameState s) (statsDirty s) (pendingGesture s)
    (stableGesture s) (gestureFrameCount s) (handDataRef s) v (randomCalls
    s) (trace s).
Definition set_randomCalls v (s : Scene) : Scene :=
  mkScene (sceneRef s) (projectiles s) (envelopes s) (coins s) (pool s)
    (nextSpawnTime s) (gameState s) (statsDirty s) (pendingGesture s)
    (stableGesture s) (gestureFrameCount s) (handDataRef s) (isGameActiveRef
    s) v (trace s).
Definition set_trace v (s : Scene) : Scene :=
  mkScene (sceneRef s) (projectiles s) (envelopes s) (coins s) (pool s)
    (nextSpawnTime s) (gameState s) (statsDirty s) (pendingGesture s)
    (stableGesture s) (gestureFrameCount s) (handDataRef s) (isGameActiveRef
    s) (randomCalls s) v.
Definition set_particlePositions v (p : Pool) : Pool :=
  mkPool v (particleColors p) (particleSizes p) (particlesData p).
Definition set_particleColors v (p : Pool) : Pool :=
  mkPool (particlePositions p) v (particleSizes p) (particlesData p).
Definition set_particleSizes v (p : Pool) : Pool :=
  mkPool (particlePositions p) (particleColors p) v (particlesData p).
Definition set_particlesData v (p : Pool) : Pool :=
  mkPool (particlePositions p) (particleColors p) (particleSizes p) v.

(** ** The monad of the component's code

    A computation reads and writes the refs; [None] is an uncaught
    exception, after which the frame loop is not scheduled again. *)

Definition M (A : Type) : Type := Scene -> option (A * Scene).

#[global] Instance M_ret : MRet M := fun A a s => Some (a, s).
#[global] Instance M_bind : MBind M := fun A B k m s =>
  match m s with
  | Some (a, s') => k a s'
  | None => None
  end.

Definition gets {A} (f : Scene -> A) : M A := fun s => Some (f s, s).
Definition modify (f : Scene -> Scene) : M unit := fun s => Some (tt, f s).
Definition throw {A} : M A := fun _ => None.
Definition when (b : bool) (m : M unit) : M unit :=
  if b then m else mret tt.

(** [for (x of l) body(x)] *)
Fixpoint for_each {A} (l : list A) (body : A -> M unit) : M unit :=
  match l with
  | [] => mret tt
  | x :: l' => body x ;; for_each l' body
  end.

(** The indices of [for (let i = 0; i < n; i++)] and of
    [for (let i = n - 1; i >= 0; i--)]. *)
Definition upto (n : nat) : list nat := seq 0 n.
Definition downfrom (n : nat) : list nat := rev (seq 0 n).

Definition log (e : Event) : M unit :=
  modify (fun s => set_trace (trace s ++ [e]) s).

(** Total correctness: [m] returns from [s], and its result satisfies [Q]. *)
Definition wp {A} (m : M A) (Q : A -> Scene -> Prop) (s : Scene) : Prop :=
  match m s with
  | Some (a, s') => Q a s'
  | None => False
  end.

(** Reading [a[i]] for a JavaScript number [i] that holds an integer. *)
Definition lookupZ {A} (l : list A) (i : Z) : option A :=
  if (i <? 0)%Z then None else l !! Z.to_nat i.

(** The search loop of [spawnParticle]: at most [n] more probes from probe
    number [i]; the result is [foundIndex] ([-1] when no slot is free), or
    [None] when [particlesData.current[idx]] is [undefined]. *)
Fixpoint findInactive (data : list ParticleData.t) (start i : Z) (n : nat)
  : option Z :=
  match n with
  | O => Some (-1)%Z
  | S n' =>
      let idx := Z.rem (start + i) MAX_PARTICLES in
      match lookupZ data idx with
      | None => None
      | Some p =>
          if ParticleData.active p
          then findInactive data start (i + 1) n'
          else Some idx
      end
  end.

(** The writes of [spawnParticle] once [foundIndex] is known. *)
Definition activate (rgb : R * R * R) (foundIndex : Z) (r : ParticleRequest)
  (p : Pool) : Pool :=
  let i3 := Z.to_nat (foundIndex * 3) in
  let i := Z.to_nat foundIndex in
  let '(cr, cg, cb) := rgb in
  mkPool
    (<[S (S i3) := vz (req_pos r)]>
       (<[S i3 := vy (req_pos r)]>
          (<[i3 := vx (req_pos r)]> (particlePositions p))))
    (<[S (S i3) := cb]> (<[S i3 := cg]> (<[i3 := cr]> (particleColors p))))
    (<[i := req_size r]> (particleSizes p))
    (<[i := ParticleData.mk true (req_life r) (req_vel r) (req_decay r)
             (req_size r)]>
       (particlesData p)).

Definition wf_pool (p : Pool) : Prop :=
  length (particlesData p) = Z.to_nat MAX_PARTICLES /\
  length (particlePositions p) = Z.to_nat (MAX_PARTICLES * 3) /\
  length (particleColors p) = Z.to_nat (MAX_PARTICLES * 3) /\
  length (particleSizes p) = Z.to_nat MAX_PARTICLES.

(** The number of slots whose [active] flag is set. *)
Definition active_count (p : Pool) : nat :=
  length (List.filter ParticleData.active (particlesData p)).

Definition all_active (p : Pool) : Prop :=
  Forall (fun d => ParticleData.active d = true) (particlesData p).

(** ** The effects that copy props into refs *)

(** [useEffect (..., [handData, onStatsUpdate])] *)
Definition syncHandData (handData : option HandData.t) (s : Scene) : Scene :=
  set_handDataRef handData s.

(** [useEffect (..., [isGameActive])] *)
Definition syncIsGameActive (isGameActive : bool) (s : Scene) : Scene :=
  let s1 := set_isGameActiveRef isGameActive s in
  if isGameActive then set_gameState (GameStats.mk 0 0 0) s1 else s1.

(** A render of [FireworkScene] with the given props: an effect runs when
    one of its dependencies changed ([isGameActiveRef] always holds the
    value of the previous render). *)
Definition renderProps (handData : option HandData.t) (isGameActive : bool)
  (s : Scene) : Scene :=
  let s1 := syncHandData handData s in
  if Bool.eqb (isGameActiveRef s1) isGameActive then s1
  else syncIsGameActive isGameActive s1.

(** ** src/services/visionService.ts *)

Module VisionService.

(** A landmark of the hand landmarker. *)
Record Landmark := mkLandmark { x : R; y : R; z : R }.

(** What [handLandmarker.detectForVideo] gives back: one list of
    landmarks per detected hand, in image and in world coordinates. *)
Record Result := mkResult {
  landmarks : list (list Landmark);
  worldLandmarks : list (list Landmark) }.

Record WristPos := mkWristPos { wrist_x : R; wrist_y : R; wrist_time : R }.

(** The fields of the service: whether [initialize] has set
    [handLandmarker], and [lastWristPos]. *)
Record t := mk {
  handLandmarker : bool;
  lastWristPos : option WristPos }.

(** The distance in the image plane, [Math.sqrt (Math.pow (..) + ..)]. *)
Definition dist (a b : Landmark) : R :=
  sqrt ((x a - x b) * (x a - x b) + (y a - y b) * (y a - y b)).

Definition isFingerOpen (wrist : Landmark) (handSize : R)
  (tip base : Landmark) : bool :=
  let distTip := dist tip wrist in
  let distBase := dist base wrist in
  Rgtb distTip (distBase + handSize * 0.5).

(** "Classify" *)
Definition classify (isIndexOpen isMiddleOpen isRingOpen isPinkyOpen : bool)
  : Gesture.t :=
  if negb isIndexOpen && negb isMiddleOpen && negb isRingOpen
     && negb isPinkyOpen
  then Gesture.Closed_Fist
  else if isIndexOpen && isMiddleOpen && negb isRingOpen && negb isPinkyOpen
  then Gesture.Victory
  else if isIndexOpen && isMiddleOpen && isRingOpen && isPinkyOpen
  then Gesture.Open_Palm
  else Gesture.None.

(** "Simple velocity calc based on wrist 2D movement" *)
Definition wristVelocity (last : option WristPos) (wrist : Landmark)
  (now : R) : R :=
  match last with
  | Some l =>
      let dx := x wrist - wrist_x l in
      let dy := y wrist - wrist_y l in
      let dt := now - wrist_time l in
      if Rgtb dt 0 then sqrt (dx * dx + dy * dy) / dt * 1000 else 0
  | None => 0
  end%R.

(** The nine landmarks that [detect] dereferences, in the order
    wrist (0), 5, 8, 9, 12, 13, 16, 17, 20; [None] when one of them is
    [undefined]. *)
Definition usedLandmarks (hand : list Landmark)
  : option (Landmark * Landmark * Landmark * Landmark * Landmark
            * Landmark * Landmark * Landmark * Landmark) :=
  match hand !! 0%nat, hand !! 5%nat, hand !! 8%nat, hand !! 9%nat,
        hand !! 12%nat, hand !! 13%nat, hand !! 16%nat, hand !! 17%nat,
        hand !! 20%nat with
  | Some l0, Some l5, Some l8, Some l9, Some l12, Some l13, Some l16,
    Some l17, Some l20 =>
      Some (l0, l5, l8, l9, l12, l13, l16, l17, l20)
  | _, _, _, _, _, _, _, _, _ => None
  end.

(** [worldLandmarks ? worldLandmarks[0].z : 0]; [None] when
    [worldLandmarks[0]] is [undefined]. *)
Definition wristDepth (world : option (list Landmark)) : option R :=
  match world with
  | Some w =>
      match w !! 0%nat with
      | Some l => Some (z l)
      | None => None
      end
  | None => Some 0%R
  end.

(** [detect (video, timestamp)], given the result of the landmarker for
    that frame and the value of [performance.now ()].  The outer [None] is
    an uncaught [TypeError]; the inner option is the [HandData | null]
    that the method returns. *)
Definition detect (svc : t) (result : Result) (now : R)
  : option (option HandData.t * t) :=
  if negb (handLandmarker svc) then Some (None, svc)
  else
    match landmarks result with
    | hand :: _ =>
        let worldHand := worldLandmarks result !! 0%nat in
        match usedLandmarks hand with
        | None => None
        | Some (wrist, indexBase, indexTip, l9, middleTip, l13, ringTip,
                pinkyBase, pinkyTip) =>
            let handSize := dist l9 wrist in
            let isIndexOpen := isFingerOpen wrist handSize indexTip indexBase in
            let isMiddleOpen := isFingerOpen wrist handSize middleTip l9 in
            let isRingOpen := isFingerOpen wrist handSize ringTip l13 in
            let isPinkyOpen :=
              isFingerOpen wrist handSize pinkyTip pinkyBase in
            let velocity := wristVelocity (lastWristPos svc) wrist now in
            let svc' :=
              mk (handLandmarker svc)
                (Some (mkWristPos (x wrist) (y wrist) now)) in
            let gesture :=
              classify isIndexOpen isMiddleOpen isRingOpen isPinkyOpen in
            match wristDepth worldHand with
            | None => None
            | Some depth =>
                Some (Some (HandData.mk gesture (Rmin velocity 5.0)
                              (mkVector3 (x wrist) (y wrist) depth)),
                      svc')
            end
        end
    | [] => Some (None, mk (handLandmarker svc) None)
    end.

End VisionService.

(** ** src/App.tsx: the session *)

Module App.

Inductive GameState : Set := MENU | PLAYING | RESULT.

#[global] Instance GameState_eq_dec : EqDecision GameState.
Proof. solve_decision. Defined.

(** The state of the component ([useState]) that the session uses, and
    whether the interval of the timer effect and the interval of the
    cooldown effect are set. *)
Record t := mk {
  handData : option HandData.t;
  stats : GameStats.t;
  gameState : GameState;
  timeLeft : Z;
  restartCooldown : Z;
  timerInterval : bool;
  cooldownInterval : bool }.

Definition set_handData v (a : t) : t :=
  mk v (stats a) (gameState a) (timeLeft a) (restartCooldown a)
    (timerInterval a) (cooldownInterval a).
Definition set_stats v (a : t) : t :=
  mk (handData a) v (gameState a) (timeLeft a) (restartCooldown a)
    (timerInterval a) (cooldownInterval a).
Definition set_gameState v (a : t) : t :=
  mk (handData a) (stats a) v (timeLeft a) (restartCooldown a)
    (timerInterval a) (cooldownInterval a).
Definition set_timeLeft v (a : t) : t :=
  mk (handData a) (stats a) (gameState a) v (restartCooldown a)
    (timerInterval a) (cooldownInterval a).
Definition set_restartCooldown v (a : t) : t :=
  mk (handData a) (stats a) (gameState a) (timeLeft a) v
    (timerInterval a) (cooldownInterval a).
Definition set_timerInterval v (a : t) : t :=
  mk (handData a) (stats a) (gameState a) (timeLeft a) (restartCooldown a)
    v (cooldownInterval a).
Definition set_cooldownInterval v (a : t) : t :=
  mk (handData a) (stats a) (gameState a) (timeLeft a) (restartCooldown a)
    (timerInterval a) v.

(** The first render: [useState] initial values, no interval. *)
Definition initial : t :=
  mk None (GameStats.mk 0 0 0) MENU 30 0 false false.

Definition startGame (a : t) : t :=
  set_gameState PLAYING
    (set_timeLeft 30 (set_stats (GameStats.mk 0 0 0) a)).

(** [handData?.gesture] *)
Definition gestureOf (a : t) : option Gesture.t :=
  HandData.gesture <$> handData a.

(** The prop [isGameActive] of [FireworkScene]. *)
Definition isGameActive (a : t) : bool :=
  bool_decide (gameState a = PLAYING).

(** The effects that run after the render of [cur] which follows the
    render of [prev], with the state updates they queue applied.

    - Timer effect and cooldown effect (dependency [gameState]): the
      old interval is cleared and a new one is set in [PLAYING],
      respectively in [RESULT], where [setRestartCooldown (3)] is
      queued as well.
    - Gesture controls (dependencies [handData?.gesture], [gameState],
      [restartCooldown]): it reads the values of this render. *)
Definition effects (prev cur : t) : t :=
  let gameStateChanged :=
    negb (bool_decide (gameState prev = gameState cur)) in
  let a1 :=
    if gameStateChanged
    then set_timerInterval (bool_decide (gameState cur = PLAYING)) cur
    else cur in
  let a2 :=
    if gameStateChanged
    then
      let a := set_cooldownInterval
                 (bool_decide (gameState cur = RESULT)) a1 in
      if bool_decide (gameState cur = RESULT)
      then set_restartCooldown 3 a else a
    else a1 in
  let gestureDepsChanged :=
    negb (bool_decide (gestureOf prev = gestureOf cur))
    || gameStateChanged
    || negb (restartCooldown prev =? restartCooldown cur)%Z in
  if gestureDepsChanged
     && bool_decide (gestureOf cur = Some Gesture.Victory)
  then
    match gameState cur with
    | MENU => startGame a2
    | RESULT => if (restartCooldown cur =? 0)%Z then startGame a2 else a2
    | PLAYING => a2
    end
  else a2.

(** Renders and effects alternate until the effects queue no update
    (three rounds are enough, see [commit_settled]). *)
Fixpoint settle (rounds : nat) (prev cur : t) : t :=
  match rounds with
  | O => cur
  | S n => settle n cur (effects prev cur)
  end.

Definition commit (prev cur : t) : t := settle 3 prev cur.

Inductive Event :=
| Detect (result : option HandData.t)   (* predictLoop: setHandData *)
| TimerTick                             (* interval of the timer effect *)
| CooldownTick                          (* interval of the cooldown effect *)
| ClickStart                            (* START GAME *)
| ClickReplay                           (* PLAY AGAIN *)
| StatsUpdate (newStats : GameStats.t). (* handleStatsUpdate *)

(** The state update of an event; [None] when the event cannot happen
    (its interval is not set, its button is not on the page). *)
Definition handle (e : Event) (a : t) : option t :=
  match e with
  | Detect result => Some (set_handData result a)
  | TimerTick =>
      if timerInterval a then
        Some (if (timeLeft a <=? 1)%Z
              then set_gameState RESULT (set_timeLeft 0 a)
              else set_timeLeft (timeLeft a - 1) a)
      else None
  | CooldownTick =>
      if cooldownInterval a then
        Some (if (restartCooldown a <=? 1)%Z
              then set_cooldownInterval false (set_restartCooldown 0 a)
              else set_restartCooldown (restartCooldown a - 1) a)
      else None
  | ClickStart =>
      if bool_decide (gameState a = MENU) then Some (startGame a) else None
  | ClickReplay =>
      if bool_decide (gameState a = RESULT)
      then Some (if (restartCooldown a =? 0)%Z then startGame a else a)
      else None
  | StatsUpdate newStats => Some (set_stats newStats a)
  end.

Definition step (e : Event) (a : t) : option t :=
  commit a <$> handle e a.

End App.

(** ** The page: the session and the scene together *)

Record Page := mkPage { app : App.t; scene : Scene }.

(** The renders of an event, seen from [FireworkScene]: each render of
    [App] passes its [handData] and [isGameActive] down, and the effects
    of the scene run before those of [App]. *)
Fixpoint settlePage (rounds : nat) (prev cur : App.t) (sc : Scene)
  : Page :=
  let sc' := renderProps (App.handData cur) (App.isGameActive cur) sc in
  match rounds with
  | O => mkPage cur sc'
  | S n => settlePage n cur (App.effects prev cur) sc'
  end.

Definition pageStep (e : App.Event) (p : Page) : option Page :=
  (fun cur => settlePage 3 (app p) cur (scene p)) <$> App.handle e (app p).

(** ** src/components/FireworkScene.tsx: actions *)

(** What the component takes from outside: the random source, the
    camera's projection to normalised device coordinates
    ([Vector3.project]) and the colour conversions of [THREE.Color]
    (from a hex colour to its RGB and to its HSL components, and from HSL
    components to a hex colour). *)
Record Collaborators := mkCollaborators {
  env_random : nat -> R;
  env_project : Vector3 -> Vector3;
  env_hexToRGB : Z -> R * R * R;
  env_hexToHSL : Z -> R * R * R;
  env_hslToHex : R -> R -> R -> Z }.

Section Core.

Local Open Scope R_scope.

Variable env : Collaborators.

Local Abbreviation random := (env_random env).
Local Abbreviation project := (env_project env).
Local Abbreviation hexToRGB := (env_hexToRGB env).
Local Abbreviation hexToHSL := (env_hexToHSL env).
Local Abbreviation hslToHex := (env_hslToHex env).

(** [Math.random()] returns a number in [0, 1). *)
Hypothesis random_range : forall n, (0 <= random n < 1)%R.

Definition Math_random : M R := fun s =>
  Some (random (randomCalls s), set_randomCalls (S (randomCalls s)) s).

Definition spawnParticle (pos : Vector3) (colorHex : Z) (vel : Vector3)
  (life decay size : R) : M unit :=
  let r := mkRequest pos colorHex vel life decay size in
  log (SpawnParticle r) ;;
  u ← Math_random ;
  let start := Math_floor (u * IZR MAX_PARTICLES) in
  data ← gets (fun s => particlesData (pool s)) ;
  match findInactive data start 0 (Z.to_nat MAX_PARTICLES) with
  | None => throw
  | Some foundIndex =>
      when (negb (foundIndex =? -1)%Z)
        (modify (fun s =>
           set_pool (activate (hexToRGB colorHex) foundIndex r (pool s)) s))
  end.

(** [COLOR_PALETTE[i]]; the index computed by [spawnProjectile] is always
    in range, and a material without a colour is white. *)
Definition paletteColor (i : Z) : Z :=
  default 0xffffff%Z (lookupZ COLOR_PALETTE i).

Definition spawnProjectile : M unit :=
  ready ← gets sceneRef ;
  when ready (
    r1 ← Math_random ;
    let color :=
      paletteColor (Math_floor (r1 * INR (length COLOR_PALETTE))) in
    r2 ← Math_random ;
    let position := mkVector3 ((r2 - 0.5) * 20) (-10) 0 in
    r3 ← Math_random ;
    r4 ← Math_random ;
    let p := Projectile.mk r3 position
               (mkVector3 0 ((0.8 + r4 * 0.4) * 0.7) 0) color in
    modify (fun s => set_projectiles (projectiles s ++ [p]) s) ;;
    log (Audio playLaunch)).

(** One particle of the burst of [createExplosion], from its seven
    draws (in the order the source makes them). *)
Definition burstColor (baseColor : Z) (r1 : R) : Z :=
  let '(h, s, _) := hexToHSL baseColor in
  hslToHex (h + (r1 - 0.5) * 0.15) s 0.6.

Definition burstVelocity (u v r4 : R) : Vector3 :=
  let theta := 2 * PI * u in
  let phi := acos (2 * v - 1) in
  let speed := 0.2 + r4 * 0.3 in
  mkVector3 (speed * sin phi * cos theta)
            (speed * sin phi * sin theta)
            (speed * cos phi).

Definition burstRequest (position : Vector3) (baseColor : Z)
  (r1 u v r4 r5 r6 r7 : R) : ParticleRequest :=
  mkRequest position (burstColor baseColor r1) (burstVelocity u v r4)
    (1.0 + r6 * 0.5) (0.01 + r7 * 0.01) ((0.8 + r5 * 0.8) * 3.0).

Definition createExplosion (position : Vector3) (baseColor : Z) : M unit :=
  log (Audio playExplosion) ;;
  modify (fun s =>
    let g := gameState s in
    set_gameState (GameStats.mk (GameStats.exploded g + 1)
                     (GameStats.consumed g) (GameStats.coins g)) s) ;;
  modify (set_statsDirty true) ;;
  let count := 60%nat in
  for_each (upto count) (fun _ =>
    r1 ← Math_random ;
    u ← Math_random ;
    v ← Math_random ;
    r4 ← Math_random ;
    r5 ← Math_random ;
    r6 ← Math_random ;
    r7 ← Math_random ;
    let r := burstRequest position baseColor r1 u v r4 r5 r6 r7 in
    spawnParticle (req_pos r) (req_color r) (req_vel r)
      (req_life r) (req_decay r) (req_size r)).

(** The frustum test of [explodeVisibleProjectiles] on a projected point. *)
Definition inFrustum (v : Vector3) : bool :=
  Rleb (Rabs (vx v)) 1.05 && Rleb (Rabs (vy v)) 1.05
  && Rgeb (vz v) (-1) && Rleb (vz v) 1.

Definition visible (p : Projectile.t) : bool :=
  inFrustum (project (Projectile.position p)).

Definition explodeVisibleProjectiles : M unit :=
  ready ← gets sceneRef ;
  when ready (
    n ← gets (fun s => length (projectiles s)) ;
    for_each (downfrom n) (fun i =>
      ps ← gets projectiles ;
      match ps !! i with
      | None => throw
      | Some p =>
          when (visible p) (
            createExplosion (Projectile.position p) (Projectile.color p) ;;
            modify (fun s => set_projectiles (delete i (projectiles s)) s))
      end)).

(** One envelope's burst particle, from its three draws. *)
Definition envelopeBurst (x y : R) (isGolden : bool) : M unit :=
  r1 ← Math_random ;
  let burstSpeed := 0.1 + r1 * 0.2 in
  r2 ← Math_random ;
  let angle := r2 * PI * 2 in
  r3 ← Math_random ;
  spawnParticle (mkVector3 x y 12)
    (if isGolden then GOLD_COLOR else ENVELOPE_RED)
    (mkVector3 (cos angle * burstSpeed) (sin angle * burstSpeed)
       ((r3 - 0.5) * 0.2))
    1.5 0.03 (if isGolden then 4.5 else 3.0).

(** One iteration of the batch loop of [spawnEnvelopes3D]. *)
Definition spawnEnvelopeAt (startX spacing : R) (goldenIndex : Z) (i : nat)
  : M unit :=
  let isGolden := (Z.of_nat i =? goldenIndex)%Z in
  let x := startX + INR i * spacing in
  let y := 10 in
  r4 ← Math_random ;
  modify (fun s =>
    set_envelopes
      (envelopes s ++ [Envelope.mk r4 (mkVector3 x y 12) 1 isGolden]) s) ;;
  let particleCount := if isGolden then 40%nat else 20%nat in
  for_each (upto particleCount) (fun _ => envelopeBurst x y isGolden).

Definition spawnEnvelopes3D : M unit :=
  ready ← gets sceneRef ;
  when ready (
    es ← gets envelopes ;
    when (negb (0 <? length es)%nat) (
      log (Audio playSpawnEnvelopes) ;;
      r1 ← Math_random ;
      let count := (Math_floor (r1 * 4) + 1)%Z in
      let spacing := 3.5 in
      let totalWidth := IZR (count - 1) * spacing in
      let startX := - totalWidth / 2 in
      r2 ← Math_random ;
      goldenIndex ← (if Rltb r2 0.3
                     then r3 ← Math_random ;
                          mret (Math_floor (r3 * IZR count))
                     else mret (-1)%Z) ;
      for_each (upto (Z.to_nat count))
        (spawnEnvelopeAt startX spacing goldenIndex))).

Definition trySpawnEnvelopes : M unit :=
  g ← gets gameState ;
  let available := ((GameStats.exploded g - GameStats.consumed g) / 5)%Z in
  when (negb (available <? 1)%Z) (
    modify (fun s =>
      let g := gameState s in
      set_gameState (GameStats.mk (GameStats.exploded g)
                       (GameStats.consumed g + 5) (GameStats.coins g)) s) ;;
    modify (set_statsDirty true) ;;
    spawnEnvelopes3D).

(** One coin of [spawnCoins], from its ten draws. *)
Definition newCoin (position : Vector3) : M Coin.t :=
  r1 ← Math_random ;
  r2 ← Math_random ;
  let pos := mkVector3 (vx position + (r1 - 0.5) * 2)
               (vy position + (r2 - 0.5) * 2) (vz position) in
  r3 ← Math_random ;
  r4 ← Math_random ;
  r5 ← Math_random ;
  let rot := mkVector3 (r3 * PI) (r4 * PI) (r5 * PI) in
  r6 ← Math_random ;
  r7 ← Math_random ;
  r8 ← Math_random ;
  let vel := mkVector3 ((r6 - 0.5) * 0.4) (r7 * 0.4) ((r8 - 0.5) * 0.4) in
  r9 ← Math_random ;
  r10 ← Math_random ;
  mret (Coin.mk pos rot vel ((r9 - 0.5) * 0.2, (r10 - 0.5) * 0.2)).

(** The number of coins of a batch, from the draw of [spawnCoins]. *)
Definition coinCount (r : R) (isGolden : bool) : Z :=
  let count := (Math_floor (r * 8) + 3)%Z in
  if isGolden then (count * 2)%Z else count.

Definition coinValue (isGolden : bool) : Z := if isGolden then 2%Z else 1%Z.

Definition spawnCoins (position : Vector3) (isGolden : bool) : M unit :=
  ready ← gets sceneRef ;
  when ready (
    log (Audio playCoin) ;;
    r ← Math_random ;
    let count := coinCount r isGolden in
    modify (fun s =>
      let g := gameState s in
      set_gameState (GameStats.mk (GameStats.exploded g)
                       (GameStats.consumed g)
                       (GameStats.coins g + count * coinValue isGolden)) s) ;;
    modify (set_statsDirty true) ;;
    for_each (upto (Z.to_nat count)) (fun _ =>
      c ← newCoin position ;
      modify (fun s => set_coins (coins s ++ [c]) s))).

Definition explodeEnvelopes : M unit :=
  ready ← gets sceneRef ;
  when ready (
    es ← gets envelopes ;
    when (negb (length es =? 0)%nat) (
      for_each es (fun e =>
        spawnCoins (Envelope.position e) (Envelope.isGolden e)) ;;
      modify (set_envelopes []))).

(** *** The frame loop, block by block *)

(** "Report Stats if dirty" *)
Definition reportStats : M unit :=
  dirty ← gets statsDirty ;
  when dirty (
    g ← gets gameState ;
    log (StatsUpdate g) ;;
    modify (set_statsDirty false)).

Definition rawGestureOf (hand : option HandData.t) : Gesture.t :=
  match hand with
  | Some h => HandData.gesture h
  | None => Gesture.None
  end.

(** "Gesture Debounce"; the result is [activeGesture]. *)
Definition gestureDebounce (hand : option HandData.t) : M Gesture.t :=
  let rawGesture := rawGestureOf hand in
  pending ← gets pendingGesture ;
  (if Gesture.eqb rawGesture pending
   then modify (fun s => set_gestureFrameCount (S (gestureFrameCount s)) s)
   else modify (set_pendingGesture rawGesture) ;;
        modify (set_gestureFrameCount 0%nat)) ;;
  stable ← gets stableGesture ;
  count ← gets gestureFrameCount ;
  if (5 <? count)%nat then gets pendingGesture else mret stable.

(** The delay chosen by the spawn logic, from its draw. *)
Definition baseDelayOf (r : R) : R := r * (2000 - 666) + 666.

Definition finalDelayOf (hand : option HandData.t) (baseDelay : R) : R :=
  match hand with
  | Some h =>
      if Gesture.eqb (HandData.gesture h) Gesture.Closed_Fist
      then
        let t := Rmin (Rmax (HandData.velocity h) 0 / 4.0) 1.0 in
        baseDelay * (1.0 - 0.5 * t)
      else baseDelay
  | None => baseDelay
  end.

(** "Spawn Logic" *)
Definition spawnLogic (time : R) (hand : option HandData.t) (active : bool)
  : M unit :=
  next ← gets nextSpawnTime ;
  when (active && Rgtb time next) (
    spawnProjectile ;;
    r ← Math_random ;
    let baseDelay := baseDelayOf r in
    let finalDelay := finalDelayOf hand baseDelay in
    modify (set_nextSpawnTime (time + finalDelay))).

(** "Gesture Triggers" *)
Definition gestureTriggers (active : bool) (activeGesture : Gesture.t)
  : M unit :=
  stable ← gets stableGesture ;
  if active && negb (Gesture.eqb activeGesture stable) then
    let prev := stable in
    let curr := activeGesture in
    when (Gesture.eqb curr Gesture.Open_Palm
          && negb (Gesture.eqb prev Gesture.Open_Palm))
      explodeVisibleProjectiles ;;
    when (Gesture.eqb curr Gesture.Victory
          && negb (Gesture.eqb prev Gesture.Victory))
      trySpawnEnvelopes ;;
    when (Gesture.eqb prev Gesture.Victory
          && Gesture.eqb curr Gesture.Open_Palm)
      explodeEnvelopes ;;
    modify (set_stableGesture activeGesture)
  else if negb active then modify (set_stableGesture activeGesture)
  else mret tt.

(** "1. Particles System Update": the body for an active slot [i]. *)
Definition stepParticle (sec : R) (i : nat) (p : ParticleData.t)
  (pl : Pool) : Pool :=
  let v := ParticleData.velocity p in
  let v' := mkVector3 (vx v * 0.98) (vy v - 0.005) (vz v * 0.98) in
  let pos :=
    alter (fun z => z + vz v') (i * 3 + 2)%nat
      (alter (fun y => y + vy v') (i * 3 + 1)%nat
         (alter (fun x => x + vx v') (i * 3)%nat (particlePositions pl))) in
  let life' := ParticleData.life p - ParticleData.decay p in
  let blink := life' * (0.6 + 0.4 * sin (sec * 15 + INR i * 0.1)) in
  let sizes :=
    <[i := Rmax 0 (blink * ParticleData.initialSize p)]> (particleSizes pl) in
  let offscreen :=
    match pos !! (i * 3 + 1)%nat with
    | Some y => Rltb y (-20)
    | None => false
    end in
  let dead := Rleb life' 0 || offscreen in
  mkPool
    (if dead then <[(i * 3 + 1)%nat := -1000]> pos else pos)
    (particleColors pl)
    (if dead then <[i := 0]> sizes else sizes)
    (<[i := ParticleData.mk (negb dead) life' v' (ParticleData.decay p)
              (ParticleData.initialSize p)]> (particlesData pl)).

Definition updateParticles (sec : R) : M unit :=
  for_each (upto (Z.to_nat MAX_PARTICLES)) (fun i =>
    data ← gets (fun s => particlesData (pool s)) ;
    match data !! i with
    | None => throw
    | Some p =>
        when (ParticleData.active p)
          (modify (fun s => set_pool (stepParticle sec i p (pool s)) s))
    end).

(** "2. Projectiles": the motion of one projectile. *)
Definition moveProjectile (sec : R) (p : Projectile.t) : Projectile.t :=
  let pos := Vector3_add (Projectile.position p) (Projectile.velocity p) in
  let v := Projectile.velocity p in
  Projectile.mk (Projectile.id p)
    (mkVector3 (vx pos + sin (sec * 5 + Projectile.id p) * 0.02)
       (vy pos) (vz pos))
    (mkVector3 (vx v) (vy v * 0.998) (vz v))
    (Projectile.color p).

Definition updateProjectiles (sec : R) : M unit :=
  n ← gets (fun s => length (projectiles s)) ;
  for_each (downfrom n) (fun i =>
    ps ← gets projectiles ;
    match ps !! i with
    | None => throw
    | Some p0 =>
        let p := moveProjectile sec p0 in
        modify (fun s => set_projectiles (<[i := p]> (projectiles s)) s) ;;
        r1 ← Math_random ;
        when (Rgtb r1 0.4) (
          r2 ← Math_random ;
          let size := (0.8 + r2 * 0.5) * 4.0 in
          r3 ← Math_random ;
          r4 ← Math_random ;
          spawnParticle (Projectile.position p) (Projectile.color p)
            (mkVector3 ((r3 - 0.5) * 0.1) (-0.1) ((r4 - 0.5) * 0.1))
            0.8 0.03 size) ;;
        when (Rgtb (vy (Projectile.position p)) 40)
          (modify (fun s => set_projectiles (delete i (projectiles s)) s))
    end).

(** "3. Envelopes" *)
Definition updateEnvelopes (sec : R) : M unit :=
  n ← gets (fun s => length (envelopes s)) ;
  for_each (downfrom n) (fun i =>
    es ← gets envelopes ;
    match es !! i with
    | None => throw
    | Some e =>
        let scale := 1 + sin (sec * 3 + Envelope.id e) * 0.05 in
        let e' := Envelope.mk (Envelope.id e) (Envelope.position e) scale
                    (Envelope.isGolden e) in
        modify (fun s => set_envelopes (<[i := e']> (envelopes s)) s)
    end).

(** "4. Coins": the motion of one coin. *)
Definition moveCoin (c : Coin.t) : Coin.t :=
  let v := Coin.velocity c in
  let r := Coin.rotation c in
  Coin.mk (Vector3_add (Coin.position c) v)
    (mkVector3 (vx r + fst (Coin.rotSpeed c)) (vy r + snd (Coin.rotSpeed c))
       (vz r))
    (mkVector3 (vx v) (vy v - 0.04) (vz v))
    (Coin.rotSpeed c).

Definition updateCoins : M unit :=
  n ← gets (fun s => length (coins s)) ;
  for_each (downfrom n) (fun i =>
    cs ← gets coins ;
    match cs !! i with
    | None => throw
    | Some c0 =>
        let c := moveCoin c0 in
        modify (fun s => set_coins (<[i := c]> (coins s)) s) ;;
        when (Rltb (vy (Coin.position c)) (-20))
          (modify (fun s => set_coins (delete i (coins s)) s))
    end).

(** The blocks after the gesture triggers. *)
Definition updates (sec : R) : M unit :=
  updateParticles sec ;;
  updateProjectiles sec ;;
  updateEnvelopes sec ;;
  updateCoins.

(** The blocks before the gesture triggers; the result is
    [activeGesture]. *)
Definition beforeTriggers (time : R) (hand : option HandData.t)
  (active : bool) : M Gesture.t :=
  reportStats ;;
  activeGesture ← gestureDebounce hand ;
  spawnLogic time hand active ;;
  mret activeGesture.

(** One call of [loop] by the animation frame. *)
Definition loop (time : R) : M unit :=
  let sec := time * 0.001 in
  ready ← gets sceneRef ;
  when ready (
    hand ← gets handDataRef ;
    active ← gets isGameActiveRef ;
    activeGesture ← beforeTriggers time hand active ;
    gestureTriggers active activeGesture ;;
    updates sec).

(** The refs once the mount effect has run: a pool of [MAX_PARTICLES]
    inactive slots parked at height [-1000].  [draws] is the number of
    random values the effect used for the skyline and the beams, [hand]
    and [active] are the props of the first render. *)
Definition mounted (draws : nat) (hand : option HandData.t) (active : bool)
  : Scene :=
  let n := Z.to_nat MAX_PARTICLES in
  mkScene true [] [] []
    (mkPool (concat (replicate n [0; -1000; 0]))
       (replicate (n * 3) 0)
       (replicate n 0)
       (replicate n (ParticleData.mk false 0 (mkVector3 0 0 0) 0 0)))
    0 (GameStats.mk 0 0 0) false
    Gesture.None Gesture.None 0%nat hand active draws [].

(** A frame as the rest of the page sees it: the props of the last
    render reach the refs, then the animation frame calls [loop]. *)
Record Frame := mkFrame {
  frame_hand : option HandData.t;
  frame_active : bool;
  frame_time : R }.

Definition runFrame (f : Frame) : M unit := fun s =>
  loop (frame_time f) (renderProps (frame_hand f) (frame_active f) s).

Fixpoint runFrames (fs : list Frame) : M unit :=
  match fs with
  | [] => mret tt
  | f :: fs' => runFrame f ;; runFrames fs'
  end.


(** ** Reasoning rules for [wp] *)

Lemma wp_ret {A} (a : A) Q s : wp (mret a) Q s <-> Q a s.
Proof. reflexivity. Qed.

Lemma wp_bind {A B} (m : M A) (k : A -> M B) Q s :
  wp (m ≫= k) Q s <-> wp m (fun a s' => wp (k a) Q s') s.
Proof.
  unfold wp, mbind, M_bind. destruct (m s) as [[a s']|]; reflexivity.
Qed.

Lemma wp_gets {A} (f : Scene -> A) Q s : wp (gets f) Q s <-> Q (f s) s.
Proof. reflexivity. Qed.

Lemma wp_modify f Q s : wp (modify f) Q s <-> Q tt (f s).
Proof. reflexivity. Qed.

Lemma wp_log e Q s :
  wp (log e) Q s <-> Q tt (set_trace (trace s ++ [e]) s).
Proof. reflexivity. Qed.

Lemma wp_random Q s :
  wp Math_random Q s <->
  Q (random (randomCalls s)) (set_randomCalls (S (randomCalls s)) s).
Proof. reflexivity. Qed.

Lemma wp_mono {A} (m : M A) (Q Q' : A -> Scene -> Prop) s :
  wp m Q s -> (forall a s', Q a s' -> Q' a s') -> wp m Q' s.
Proof.
  unfold wp. destruct (m s) as [[a s']|]; [auto | tauto].
Qed.

Lemma wp_conj {A} (m : M A) (Q Q' : A -> Scene -> Prop) s :
  wp m Q s -> wp m Q' s -> wp m (fun a s' => Q a s' /\ Q' a s') s.
Proof.
  unfold wp. destruct (m s) as [[a s']|]; tauto.
Qed.

Lemma wp_when_true (m : M unit) Q s : wp (when true m) Q s <-> wp m Q s.
Proof. reflexivity. Qed.

Lemma wp_when_false (m : M unit) Q s : wp (when false m) Q s <-> Q tt s.
Proof. reflexivity. Qed.

Lemma wp_returns {A} (m : M A) Q s :
  wp m Q s <-> exists a s', m s = Some (a, s') /\ Q a s'.
Proof.
  unfold wp. split.
  - destruct (m s) as [[a s']|]; [eauto | tauto].
  - intros (a & s' & -> & H). exact H.
Qed.

(** A loop keeps an invariant that each of its iterations keeps. *)
Lemma wp_for_each {A} (J : Scene -> Prop) (l : list A) body s :
  (forall x s1, In x l -> J s1 -> wp (body x) (fun _ => J) s1) ->
  J s -> wp (for_each l body) (fun _ => J) s.
Proof.
  revert s. induction l as [|x l IH]; intros s Hbody HJ; simpl.
  - exact HJ.
  - apply wp_bind. eapply wp_mono.
    + apply Hbody; [left; reflexivity | exact HJ].
    + intros [] s1 H1. apply IH; [|exact H1].
      intros y s2 Hy. apply Hbody. right; exact Hy.
Qed.

(** The same with an invariant that counts the iterations done. *)
Lemma wp_for_each_count {A} (J : nat -> Scene -> Prop) (l : list A) body s :
  (forall k x s1, l !! k = Some x -> J k s1 ->
                  wp (body x) (fun _ => J (S k)) s1) ->
  J 0%nat s -> wp (for_each l body) (fun _ => J (length l)) s.
Proof.
  revert J s. induction l as [|x l IH]; intros J s Hbody HJ; simpl.
  - exact HJ.
  - apply wp_bind. eapply wp_mono.
    + apply (Hbody 0%nat x s); [reflexivity | exact HJ].
    + intros [] s1 H1.
      apply (IH (fun k => J (S k))); [|exact H1].
      intros k y s2 Hy. apply (Hbody (S k)). exact Hy.
Qed.

Ltac wp_step :=
  lazymatch goal with
  | |- wp (mbind _ _) _ _ => apply (proj2 (wp_bind _ _ _ _))
  | |- wp (gets _) _ _ => apply (proj2 (wp_gets _ _ _))
  | |- wp (modify _) _ _ => apply (proj2 (wp_modify _ _ _))
  | |- wp (log _) _ _ => apply (proj2 (wp_log _ _ _))
  | |- wp Math_random _ _ => apply (proj2 (wp_random _ _))
  | |- wp (mret _) _ _ => apply (proj2 (wp_ret _ _ _))
  | |- wp (when true _) _ _ => apply (proj2 (wp_when_true _ _ _))
  | |- wp (when false _) _ _ => apply (proj2 (wp_when_false _ _ _))
  end; cbn beta iota delta [negb andb orb].

Ltac wp_start := cbn beta iota delta [negb andb orb].

Ltac wp_simpl := wp_start; repeat wp_step.

(** Projections of updated records. *)
Ltac scene_simpl :=
  cbn beta iota delta
    [sceneRef projectiles envelopes coins pool nextSpawnTime gameState
     statsDirty pendingGesture stableGesture gestureFrameCount handDataRef
     isGameActiveRef randomCalls trace
     set_sceneRef set_projectiles set_envelopes set_coins set_pool
     set_nextSpawnTime set_gameState set_statsDirty set_pendingGesture
     set_stableGesture set_gestureFrameCount set_handDataRef
     set_isGameActiveRef set_randomCalls set_trace
     particlePositions particleColors particleSizes particlesData
     GameStats.exploded GameStats.consumed GameStats.coins
     req_pos req_color req_vel req_life req_decay req_size] in *.

(** ** The particle pool *)

(** What a call of [spawnParticle] leaves alone: every ref but the
    pool, the count of draws and the trace. *)
Definition frame_of (s : Scene) :=
  (sceneRef s, projectiles s, envelopes s, coins s, nextSpawnTime s,
   gameState s, statsDirty s, pendingGesture s, stableGesture s,
   gestureFrameCount s, handDataRef s, isGameActiveRef s).

Lemma lookupZ_in_range {A} (l : list A) (i : Z) :
  (0 <= i)%Z -> (Z.to_nat i < length l)%nat ->
  exists x, lookupZ l i = Some x /\ l !! Z.to_nat i = Some x.
Proof.
  intros Hi Hlt. unfold lookupZ.
  destruct (Z.ltb_spec i 0); [lia|].
  destruct (lookup_lt_is_Some_2 l (Z.to_nat i) Hlt) as [x Hx].
  exists x. split; exact Hx.
Qed.

Lemma probe_in_range (start i : Z) :
  (0 <= start)%Z -> (0 <= i)%Z ->
  (0 <= Z.rem (start + i) MAX_PARTICLES < MAX_PARTICLES)%Z.
Proof.
  intros. apply Z.rem_bound_pos; unfold MAX_PARTICLES; lia.
Qed.

Lemma findInactive_returns data start n : forall i,
  length data = Z.to_nat MAX_PARTICLES ->
  (0 <= start)%Z -> (0 <= i)%Z ->
  exists r, findInactive data start i n = Some r /\
            (r = (-1)%Z \/ (0 <= r < MAX_PARTICLES)%Z).
Proof.
  induction n as [|n IH]; intros i Hlen Hs Hi; simpl.
  - exists (-1)%Z. auto.
  - pose proof (probe_in_range start i Hs Hi) as Hr.
    destruct (lookupZ_in_range data (Z.rem (start + i) MAX_PARTICLES))
      as (p & -> & _); [lia | lia |].
    destruct (ParticleData.active p).
    + apply IH; [assumption | assumption | lia].
    + eexists. split; [reflexivity | right; exact Hr].
Qed.

Lemma findInactive_saturated data start n : forall i,
  length data = Z.to_nat MAX_PARTICLES ->
  Forall (fun d => ParticleData.active d = true) data ->
  (0 <= start)%Z -> (0 <= i)%Z ->
  findInactive data start i n = Some (-1)%Z.
Proof.
  induction n as [|n IH]; intros i Hlen Hall Hs Hi; simpl.
  - reflexivity.
  - pose proof (probe_in_range start i Hs Hi) as Hr.
    destruct (lookupZ_in_range data (Z.rem (start + i) MAX_PARTICLES))
      as (p & -> & Hp); [lia | lia |].
    rewrite (proj1 (Forall_lookup _ data) Hall _ _ Hp).
    apply IH; [assumption | assumption | assumption | lia].
Qed.

Lemma activate_wf rgb foundIndex r p :
  wf_pool p -> wf_pool (activate rgb foundIndex r p).
Proof.
  unfold wf_pool, activate. destruct rgb as [[cr cg] cb]. simpl.
  rewrite !length_insert. tauto.
Qed.

Lemma start_in_range (u : R) :
  0 <= u < 1 -> (0 <= Math_floor (u * IZR MAX_PARTICLES))%Z.
Proof.
  intros Hu. apply Zfloor_lub. unfold MAX_PARTICLES. simpl. lra.
Qed.

(** [spawnParticle] returns; it keeps the pool well formed, touches
    nothing outside the pool, draws once and is recorded once. *)
Lemma spawnParticle_spec pos colorHex vel life decay size s :
  wf_pool (pool s) ->
  wp (spawnParticle pos colorHex vel life decay size)
     (fun _ s' =>
        wf_pool (pool s') /\ frame_of s' = frame_of s /\
        randomCalls s' = S (randomCalls s) /\
        trace s' =
          trace s ++ [SpawnParticle
                        (mkRequest pos colorHex vel life decay size)]) s.
Proof.
  intros Hwf. unfold spawnParticle. wp_simpl.
  cbn [pool randomCalls set_randomCalls set_trace].
  destruct (findInactive_returns (particlesData (pool s))
              (Math_floor (random (randomCalls s) * IZR MAX_PARTICLES))
              (Z.to_nat MAX_PARTICLES) 0%Z) as (r & -> & Hr).
  - apply Hwf.
  - apply start_in_range, random_range.
  - lia.
  - destruct (Z.eqb_spec r (-1)); simpl.
    + apply wp_ret. simpl. auto.
    + apply wp_modify. simpl. split; [|auto].
      apply activate_wf, Hwf.
Qed.

(** With every slot active the request is dropped: the pool is the
    same afterwards. *)
Lemma spawnParticle_saturated pos colorHex vel life decay size s :
  wf_pool (pool s) -> all_active (pool s) ->
  wp (spawnParticle pos colorHex vel life decay size)
     (fun _ s' => pool s' = pool s) s.
Proof.
  intros Hwf Hall. unfold spawnParticle. wp_simpl.
  cbn [pool randomCalls set_randomCalls set_trace].
  rewrite findInactive_saturated.
  - apply wp_ret. reflexivity.
  - apply Hwf.
  - exact Hall.
  - apply start_in_range, random_range.
  - lia.
Qed.

Lemma active_count_le p : (active_count p <= length (particlesData p))%nat.
Proof. unfold active_count. apply List.filter_length_le. Qed.

(** ** Counting loops *)

Lemma downfrom_S n : downfrom (S n) = n :: downfrom n.
Proof.
  unfold downfrom. rewrite seq_S, rev_app_distr. reflexivity.
Qed.

(** [for (i = n - 1; i >= 0; i--)]: [J k] holds once the indices from
    [k] on are done. *)
Lemma wp_downfrom (J : nat -> Scene -> Prop) n body s :
  (forall i s1, (i < n)%nat -> J (S i) s1 ->
                wp (body i) (fun _ => J i) s1) ->
  J n s -> wp (for_each (downfrom n) body) (fun _ => J 0%nat) s.
Proof.
  revert s. induction n as [|n IH]; intros s Hbody HJ.
  - exact HJ.
  - rewrite downfrom_S. cbn [for_each]. apply wp_bind.
    eapply wp_mono; [apply (Hbody n s); [lia | exact HJ] |].
    intros [] s1 H1. apply IH; [|exact H1].
    intros i s2 Hi. apply Hbody. lia.
Qed.

(** [for (i = 0; i < n; i++)]: [J k] holds once [k] iterations are done. *)
Lemma wp_upto (J : nat -> Scene -> Prop) n body s :
  (forall i s1, (i < n)%nat -> J i s1 ->
                wp (body i) (fun _ => J (S i)) s1) ->
  J 0%nat s -> wp (for_each (upto n) body) (fun _ => J n) s.
Proof.
  intros Hbody HJ. unfold upto.
  pose proof (wp_for_each_count J (seq 0 n) body s) as H.
  rewrite length_seq in H. apply H; [|exact HJ].
  intros k x s1 Hk. apply lookup_seq in Hk as [-> Hlt].
  apply Hbody. exact Hlt.
Qed.

(** ** Detonations *)

(** The request of the burst that starts at draw number [c]. *)
Definition burstAt (position : Vector3) (baseColor : Z) (c : nat)
  : ParticleRequest :=
  burstRequest position baseColor
    (random c) (random (1 + c)) (random (2 + c)) (random (3 + c))
    (random (4 + c)) (random (5 + c)) (random (6 + c)).

(** The two writes of [createExplosion] to the stats refs. *)
Definition bumpExploded (s : Scene) : Scene :=
  let g := gameState s in
  set_statsDirty true
    (set_gameState (GameStats.mk (GameStats.exploded g + 1)
                      (GameStats.consumed g) (GameStats.coins g)) s).

Lemma createExplosion_spec position baseColor s :
  wf_pool (pool s) ->
  wp (createExplosion position baseColor)
     (fun _ s' =>
        wf_pool (pool s') /\
        frame_of s' = frame_of (bumpExploded s) /\
        randomCalls s' = (8 * 60 + randomCalls s)%nat /\
        trace s' =
          trace s ++ Audio playExplosion ::
            map (fun k => SpawnParticle
                            (burstAt position baseColor
                               (8 * k + randomCalls s)))
                (seq 0 60)) s.
Proof.
  intros Hwf. unfold createExplosion. wp_simpl.
  apply (wp_upto (fun k s1 =>
    wf_pool (pool s1) /\
    frame_of s1 = frame_of (bumpExploded s) /\
    randomCalls s1 = (8 * k + randomCalls s)%nat /\
    trace s1 =
      trace s ++ Audio playExplosion ::
        map (fun k => SpawnParticle
                        (burstAt position baseColor (8 * k + randomCalls s)))
            (seq 0 k))).
  - intros i s1 _ (Hwf1 & Hfr & Hrc & Htr). wp_simpl.
    eapply wp_mono; [apply spawnParticle_spec; exact Hwf1 |].
    intros [] s2 (Hwf2 & Hfr2 & Hrc2 & Htr2). scene_simpl.
    split; [exact Hwf2|]. split; [rewrite Hfr2; exact Hfr|]. split; [lia|].
    rewrite Htr2, Htr, seq_S, map_app. cbn [map Nat.add].
    rewrite <- app_assoc. cbn [app]. rewrite Hrc.
    unfold burstAt. cbn [Nat.add]. reflexivity.
  - split; [exact Hwf|]. split; [reflexivity|]. split; [reflexivity|].
    cbn [seq map]. reflexivity.
Qed.

(** The refs that no entity action writes. *)
Definition control_of (s : Scene) :=
  (sceneRef s, nextSpawnTime s, pendingGesture s, stableGesture s,
   gestureFrameCount s, handDataRef s, isGameActiveRef s).

Lemma frame_control s s' :
  frame_of s' = frame_of s -> control_of s' = control_of s.
Proof. unfold frame_of, control_of. intros H. simplify_eq. congruence. Qed.

(** Goals and hypotheses that equate tuples of refs, field by field. *)
Ltac fields :=
  unfold control_of, frame_of in *; scene_simpl; simplify_eq;
  repeat match goal with |- _ /\ _ => split end;
  try assumption; try congruence.

Definition addExploded (k : nat) (g : GameStats.t) : GameStats.t :=
  GameStats.mk (GameStats.exploded g + Z.of_nat k)
    (GameStats.consumed g) (GameStats.coins g).

(** [explodeVisibleProjectiles] removes exactly the projectiles that pass
    the frustum test, and detonates each of them. *)
Lemma explodeVisibleProjectiles_spec s :
  wf_pool (pool s) -> sceneRef s = true ->
  wp explodeVisibleProjectiles
     (fun _ s' =>
        wf_pool (pool s') /\ control_of s' = control_of s /\
        envelopes s' = envelopes s /\ coins s' = coins s /\
        projectiles s' =
          List.filter (fun p => negb (visible p)) (projectiles s) /\
        gameState s' =
          addExploded (length (List.filter visible (projectiles s)))
            (gameState s)) s.
Proof.
  intros Hwf Hready. unfold explodeVisibleProjectiles. wp_simpl.
  rewrite Hready. wp_simpl.
  set (ps := projectiles s).
  eapply wp_mono.
  - apply (wp_downfrom (fun k s1 =>
      wf_pool (pool s1) /\ control_of s1 = control_of s /\
      envelopes s1 = envelopes s /\ coins s1 = coins s /\
      projectiles s1 =
        take k ps ++ List.filter (fun p => negb (visible p)) (drop k ps) /\
      gameState s1 =
        addExploded (length (List.filter visible (drop k ps)))
          (gameState s))).
    + intros i s1 Hi (Hwf1 & Hc & He & Hco & Hps & Hg). wp_simpl.
      destruct (lookup_lt_is_Some_2 ps i Hi) as [p Hp].
      assert (Hlook : projectiles s1 !! i = Some p).
      { rewrite Hps, lookup_app_l by (rewrite length_take; lia).
        rewrite lookup_take_lt by lia. exact Hp. }
      rewrite Hlook.
      rewrite (drop_S ps p i Hp). cbn [List.filter].
      destruct (visible p) eqn:Hv; cbn [negb].
      * wp_simpl. eapply wp_mono;
          [apply createExplosion_spec; exact Hwf1|].
        intros [] s2 (Hwf2 & Hfr & _ & _). wp_simpl.
        unfold bumpExploded in Hfr. fields.
        -- replace (projectiles s2) with (projectiles s1) by congruence.
           rewrite Hps, (take_S_r ps i p Hp), <- app_assoc. cbn [app].
           assert (Hlen : length (take i ps) = i)
             by (rewrite length_take; lia).
           rewrite <- Hlen at 1. apply delete_middle.
        -- replace (gameState s2) with
             (GameStats.mk (GameStats.exploded (gameState s1) + 1)
                (GameStats.consumed (gameState s1))
                (GameStats.coins (gameState s1))) by congruence.
           rewrite Hg. unfold addExploded. scene_simpl. cbn [length].
           f_equal. lia.
      * wp_simpl. split; [exact Hwf1|]. split; [exact Hc|].
        split; [exact He|]. split; [exact Hco|]. split; [|exact Hg].
        rewrite Hps, (take_S_r ps i p Hp), <- app_assoc. reflexivity.
    + rewrite take_ge, drop_ge by (unfold ps; lia). cbn [List.filter length].
      rewrite app_nil_r. split; [exact Hwf|].
      repeat split; try reflexivity.
      unfold addExploded. destruct (gameState s). cbn.
      f_equal. lia.
  - intros [] s' H. rewrite take_0, drop_0 in H. exact H.
Qed.

(** ** Envelopes *)

(** A burst particle of an envelope keeps the pool well formed and
    touches nothing outside the pool. *)
Lemma envelopeBurst_spec x y isGolden s :
  wf_pool (pool s) ->
  wp (envelopeBurst x y isGolden)
     (fun _ s' => wf_pool (pool s') /\ frame_of s' = frame_of s) s.
Proof.
  intros Hwf. unfold envelopeBurst. wp_simpl.
  eapply wp_mono; [apply spawnParticle_spec; exact Hwf|].
  intros [] s' (Hwf' & Hfr & _). split; [exact Hwf'|].
  rewrite Hfr. reflexivity.
Qed.

(** What spawning envelopes leaves alone besides the control refs. *)
Definition keep_of (s : Scene) :=
  (control_of s, projectiles s, coins s, gameState s, statsDirty s).

Lemma spawnEnvelopeAt_spec startX spacing goldenIndex i (K : Scene) s :
  wf_pool (pool s) /\ keep_of s = keep_of K ->
  wp (spawnEnvelopeAt startX spacing goldenIndex i)
     (fun _ s' => wf_pool (pool s') /\ keep_of s' = keep_of K) s.
Proof.
  intros [Hwf Hk]. unfold spawnEnvelopeAt. cbn zeta. wp_simpl.
  apply wp_for_each; [|split; [exact Hwf | rewrite <- Hk; reflexivity]].
  intros j s3 _ [Hwf3 Hk3].
  eapply wp_mono; [apply envelopeBurst_spec; exact Hwf3|].
  intros [] s4 [Hwf4 Hfr]. split; [exact Hwf4|].
  rewrite <- Hk3. unfold keep_of. fields.
Qed.

Lemma spawnEnvelopes3D_spec s :
  wf_pool (pool s) ->
  wp spawnEnvelopes3D
     (fun _ s' => wf_pool (pool s') /\ keep_of s' = keep_of s) s.
Proof.
  intros Hwf. unfold spawnEnvelopes3D. wp_simpl.
  destruct (sceneRef s); wp_simpl; [|auto].
  destruct (negb (0 <? length (envelopes s))%nat); wp_simpl; [|auto].
  cbn zeta.
  match goal with |- context [Rltb ?a ?b] => destruct (Rltb a b) end;
    wp_simpl;
    (eapply wp_mono;
     [apply (wp_for_each
               (fun s1 => wf_pool (pool s1) /\ keep_of s1 = keep_of s));
      [intros i s1 _ H1; apply spawnEnvelopeAt_spec; exact H1
      |split; [exact Hwf | reflexivity]]|]);
    intros [] s' H; exact H.
Qed.

Definition charges (g : GameStats.t) : Z :=
  ((GameStats.exploded g - GameStats.consumed g) / 5)%Z.

(** The two writes of [trySpawnEnvelopes] to the stats refs. *)
Definition debit (s : Scene) : Scene :=
  let g := gameState s in
  set_statsDirty true
    (set_gameState (GameStats.mk (GameStats.exploded g)
                      (GameStats.consumed g + 5) (GameStats.coins g)) s).

Lemma trySpawnEnvelopes_spec s :
  wf_pool (pool s) ->
  wp trySpawnEnvelopes
     (fun _ s' =>
        wf_pool (pool s') /\
        keep_of s' =
          keep_of (if (charges (gameState s) <? 1)%Z then s else debit s)) s.
Proof.
  intros Hwf. unfold trySpawnEnvelopes. wp_simpl. fold (charges (gameState s)).
  destruct (charges (gameState s) <? 1)%Z; wp_simpl; [auto|].
  eapply wp_mono; [apply spawnEnvelopes3D_spec; exact Hwf|].
  intros [] s' [Hwf' Hk]. split; [exact Hwf'|]. exact Hk.
Qed.

(** With an envelope alive the call spends a charge when there is one
    and does nothing else. *)
Lemma trySpawnEnvelopes_alive s :
  envelopes s <> [] ->
  trySpawnEnvelopes s =
    Some (tt, if (charges (gameState s) <? 1)%Z then s else debit s).
Proof.
  intros Hne. unfold trySpawnEnvelopes, charges, debit, spawnEnvelopes3D.
  unfold mbind, M_bind, gets, modify, when, mret, M_ret.
  destruct ((GameStats.exploded (gameState s)
             - GameStats.consumed (gameState s)) / 5 <? 1)%Z;
    cbn [negb]; [reflexivity|].
  cbn beta. scene_simpl. destruct (sceneRef s); [|reflexivity].
  scene_simpl. destruct (envelopes s) as [|e es]; [congruence|].
  reflexivity.
Qed.

(** ** Coins *)

(** The coin made from the ten draws that start at draw number [c]. *)
Definition coinAt (position : Vector3) (c : nat) : Coin.t :=
  Coin.mk
    (mkVector3 (vx position + (random c - 0.5) * 2)
       (vy position + (random (1 + c) - 0.5) * 2) (vz position))
    (mkVector3 (random (2 + c) * PI) (random (3 + c) * PI)
       (random (4 + c) * PI))
    (mkVector3 ((random (5 + c) - 0.5) * 0.4) (random (6 + c) * 0.4)
       ((random (7 + c) - 0.5) * 0.4))
    ((random (8 + c) - 0.5) * 0.2, (random (9 + c) - 0.5) * 0.2).

Lemma newCoin_spec position Q s :
  Q (coinAt position (randomCalls s))
    (set_randomCalls (10 + randomCalls s) s) ->
  wp (newCoin position) Q s.
Proof.
  intros HQ. unfold newCoin. wp_simpl. exact HQ.
Qed.

Definition addCoins (v : Z) (g : GameStats.t) : GameStats.t :=
  GameStats.mk (GameStats.exploded g) (GameStats.consumed g)
    (GameStats.coins g + v).

Lemma coinCount_base (r : R) :
  0 <= r < 1 -> (3 <= Math_floor (r * 8) + 3 <= 10)%Z.
Proof.
  intros Hr. unfold Math_floor.
  assert (0 <= Zfloor (r * 8))%Z by (apply Zfloor_lub; simpl; lra).
  assert (Zfloor (r * 8) < 8)%Z.
  { apply lt_IZR. pose proof (Zfloor_bound (r * 8)). lra. }
  lia.
Qed.

Lemma coinCount_nonneg r isGolden :
  0 <= r < 1 -> (0 <= coinCount r isGolden)%Z.
Proof.
  intros Hr. pose proof (coinCount_base r Hr). unfold coinCount.
  destruct isGolden; lia.
Qed.

(** The coins of the batch whose draws start at draw number [c]. *)
Definition coinBatch (position : Vector3) (c n : nat) : list Coin.t :=
  map (fun k => coinAt position (10 * k + c)%nat) (seq 0 n).

Lemma spawnCoins_spec position isGolden s :
  sceneRef s = true ->
  wp (spawnCoins position isGolden)
     (fun _ s' =>
        let n := coinCount (random (randomCalls s)) isGolden in
        pool s' = pool s /\ control_of s' = control_of s /\
        projectiles s' = projectiles s /\ envelopes s' = envelopes s /\
        coins s' =
          coins s ++ coinBatch position (1 + randomCalls s) (Z.to_nat n) /\
        gameState s' = addCoins (n * coinValue isGolden) (gameState s) /\
        statsDirty s' = true /\
        randomCalls s' = (1 + 10 * Z.to_nat n + randomCalls s)%nat /\
        trace s' = trace s ++ [Audio playCoin]) s.
Proof.
  intros Hready. unfold spawnCoins. wp_simpl. rewrite Hready. wp_simpl.
  scene_simpl.
  set (n := coinCount (random (randomCalls s)) isGolden).
  eapply wp_mono.
  - apply (wp_upto (fun k s1 =>
      pool s1 = pool s /\ control_of s1 = control_of s /\
      projectiles s1 = projectiles s /\ envelopes s1 = envelopes s /\
      coins s1 = coins s ++ coinBatch position (1 + randomCalls s) k /\
      gameState s1 = addCoins (n * coinValue isGolden) (gameState s) /\
      statsDirty s1 = true /\
      randomCalls s1 = (1 + 10 * k + randomCalls s)%nat /\
      trace s1 = trace s ++ [Audio playCoin])).
    + intros i s1 _ (Hp & Hc & Hpr & He & Hco & Hg & Hd & Hrc & Htr).
      wp_simpl. apply newCoin_spec. wp_simpl. scene_simpl.
      split; [exact Hp|]. split; [exact Hc|]. split; [exact Hpr|].
      split; [exact He|]. split.
      { rewrite Hco. unfold coinBatch. rewrite seq_S, map_app, app_assoc.
        cbn [map Nat.add]. rewrite Hrc. do 3 f_equal. lia. }
      split; [exact Hg|]. split; [exact Hd|]. split; [lia | exact Htr].
    + unfold coinBatch. cbn [seq map]. rewrite app_nil_r.
      repeat split; reflexivity.
  - intros [] s' H. exact H.
Qed.

(** The value and the number of the coins that converting the envelopes
    [es] yields when the draws start at draw number [c]. *)
Fixpoint convertedValue (c : nat) (es : list Envelope.t) : Z :=
  match es with
  | [] => 0%Z
  | e :: es' =>
      let n := coinCount (random c) (Envelope.isGolden e) in
      (n * coinValue (Envelope.isGolden e)
       + convertedValue (1 + 10 * Z.to_nat n + c) es')%Z
  end.

Fixpoint convertedCoins (c : nat) (es : list Envelope.t) : nat :=
  match es with
  | [] => 0%nat
  | e :: es' =>
      let n := coinCount (random c) (Envelope.isGolden e) in
      (Z.to_nat n + convertedCoins (1 + 10 * Z.to_nat n + c) es')%nat
  end.

Lemma convert_all_spec es : forall s,
  sceneRef s = true ->
  wp (for_each es (fun e =>
        spawnCoins (Envelope.position e) (Envelope.isGolden e)))
     (fun _ s' =>
        pool s' = pool s /\ control_of s' = control_of s /\
        projectiles s' = projectiles s /\ envelopes s' = envelopes s /\
        length (coins s') =
          (length (coins s) + convertedCoins (randomCalls s) es)%nat /\
        gameState s' =
          addCoins (convertedValue (randomCalls s) es) (gameState s)) s.
Proof.
  induction es as [|e es IH]; intros s Hready; cbn [for_each].
  - apply wp_ret. cbn [convertedCoins convertedValue].
    repeat split; try reflexivity; [lia|].
    unfold addCoins. destruct (gameState s). cbn. f_equal. lia.
  - apply wp_bind. eapply wp_mono; [apply spawnCoins_spec; exact Hready|].
    intros [] s1 (Hp & Hc & Hpr & He & Hco & Hg & Hd & Hrc & Htr).
    assert (Hready1 : sceneRef s1 = true) by (fields).
    eapply wp_mono; [apply IH; exact Hready1|].
    intros [] s2 (Hp2 & Hc2 & Hpr2 & He2 & Hco2 & Hg2).
    split; [congruence|]. split; [congruence|]. split; [congruence|].
    split; [congruence|]. cbn [convertedCoins convertedValue]. split.
    + rewrite Hco2, Hco, length_app. unfold coinBatch.
      rewrite length_map, length_seq, Hrc. lia.
    + rewrite Hg2, Hg, Hrc. unfold addCoins. scene_simpl. f_equal. lia.
Qed.

(** [explodeEnvelopes] converts every live envelope and empties the
    collection. *)
Lemma explodeEnvelopes_spec s :
  sceneRef s = true ->
  wp explodeEnvelopes
     (fun _ s' =>
        pool s' = pool s /\ control_of s' = control_of s /\
        projectiles s' = projectiles s /\ envelopes s' = [] /\
        length (coins s') =
          (length (coins s)
           + convertedCoins (randomCalls s) (envelopes s))%nat /\
        gameState s' =
          addCoins (convertedValue (randomCalls s) (envelopes s))
            (gameState s)) s.
Proof.
  intros Hready. unfold explodeEnvelopes. wp_simpl. rewrite Hready.
  wp_simpl. destruct (envelopes s) as [|e es] eqn:Hes.
  - cbn [length Nat.eqb]. wp_simpl.
    cbn [convertedCoins convertedValue]. rewrite Hes.
    repeat split; try reflexivity; [lia|].
    unfold addCoins. destruct (gameState s). cbn. f_equal. lia.
  - cbn [length Nat.eqb]. wp_simpl. rewrite <- Hes.
    eapply wp_mono; [apply convert_all_spec; exact Hready|].
    intros [] s1 (Hp & Hc & Hpr & He & Hco & Hg). wp_simpl. fields.
Qed.

(** ** The update blocks of the loop *)

(** The refs that the update blocks leave alone. *)
Definition stats_of (s : Scene) :=
  (control_of s, gameState s, statsDirty s).

Lemma stepParticle_wf sec i p pl :
  wf_pool pl -> wf_pool (stepParticle sec i p pl).
Proof.
  unfold wf_pool, stepParticle. cbn zeta.
  intros (H1 & H2 & H3 & H4).
  match goal with |- context [if ?b then _ else _] => destruct b end;
    scene_simpl; rewrite ?length_insert, ?length_alter; auto.
Qed.

Lemma updateParticles_spec sec s :
  wf_pool (pool s) ->
  wp (updateParticles sec)
     (fun _ s' => wf_pool (pool s') /\ frame_of s' = frame_of s) s.
Proof.
  intros Hwf. unfold updateParticles.
  apply (wp_upto (fun _ s1 => wf_pool (pool s1) /\ frame_of s1 = frame_of s));
    [|split; [exact Hwf | reflexivity]].
  intros i s1 Hi [Hwf1 Hfr]. wp_simpl.
  destruct (lookup_lt_is_Some_2 (particlesData (pool s1)) i) as [p ->].
  { destruct Hwf1 as [-> _]. exact Hi. }
  destruct (ParticleData.active p); wp_simpl; [|auto].
  split; [apply stepParticle_wf; exact Hwf1 | exact Hfr].
Qed.

Lemma updateProjectiles_spec sec s :
  wf_pool (pool s) ->
  wp (updateProjectiles sec)
     (fun _ s' =>
        wf_pool (pool s') /\ stats_of s' = stats_of s /\
        envelopes s' = envelopes s /\ coins s' = coins s) s.
Proof.
  intros Hwf. unfold updateProjectiles. wp_simpl.
  eapply wp_mono.
  - apply (wp_downfrom (fun k s1 =>
      (wf_pool (pool s1) /\ stats_of s1 = stats_of s /\
       envelopes s1 = envelopes s /\ coins s1 = coins s) /\
      (k <= length (projectiles s1))%nat)).
    + intros i s1 _ [(Hwf1 & Hst & He & Hco) Hlen]. wp_simpl.
      destruct (lookup_lt_is_Some_2 (projectiles s1) i) as [p0 ->]; [lia|].
      wp_simpl. scene_simpl.
      set (p := moveProjectile sec p0).
      assert (Hdel : forall (ps : list Projectile.t),
                       (S i <= length ps)%nat ->
                       (i <= length (delete i ps))%nat).
      { intros ps Hps. rewrite length_delete; [lia|].
        apply lookup_lt_is_Some_2. lia. }
      destruct (Rgtb (random (randomCalls s1)) 0.4); wp_simpl.
      * eapply wp_mono; [apply spawnParticle_spec; exact Hwf1|].
        intros [] s2 (Hwf2 & Hfr & _ & _).
        assert (Hps2 : projectiles s2 = <[i := p]> (projectiles s1))
          by (unfold frame_of in Hfr; scene_simpl; congruence).
        assert (Hkeep : stats_of s2 = stats_of s /\
                        envelopes s2 = envelopes s /\ coins s2 = coins s).
        { rewrite <- Hst, <- He, <- Hco. unfold stats_of. fields. }
        destruct (Rgtb (vy (Projectile.position p)) 40); wp_simpl;
          scene_simpl.
        -- split; [tauto|]. rewrite Hps2. apply Hdel.
           rewrite length_insert. exact Hlen.
        -- split; [tauto|]. rewrite Hps2, length_insert. lia.
      * destruct (Rgtb (vy (Projectile.position p)) 40); wp_simpl;
          scene_simpl.
        -- split; [tauto|]. apply Hdel. rewrite length_insert. exact Hlen.
        -- split; [tauto|]. rewrite length_insert. lia.
    + split; [|reflexivity]. split; [exact Hwf|]. auto.
  - intros [] s' [H _]. exact H.
Qed.

Lemma updateEnvelopes_spec sec s :
  wp (updateEnvelopes sec)
     (fun _ s' =>
        pool s' = pool s /\ stats_of s' = stats_of s /\
        projectiles s' = projectiles s /\ coins s' = coins s /\
        length (envelopes s') = length (envelopes s)) s.
Proof.
  unfold updateEnvelopes. wp_simpl.
  apply (wp_downfrom (fun _ s1 =>
    pool s1 = pool s /\ stats_of s1 = stats_of s /\
    projectiles s1 = projectiles s /\ coins s1 = coins s /\
    length (envelopes s1) = length (envelopes s)));
    [|repeat split; reflexivity].
  intros i s1 Hi (Hp & Hst & Hpr & Hco & Hlen). wp_simpl.
  destruct (lookup_lt_is_Some_2 (envelopes s1) i) as [e ->]; [lia|].
  wp_simpl. scene_simpl. rewrite length_insert. tauto.
Qed.

Lemma updateCoins_spec s :
  wp updateCoins
     (fun _ s' =>
        pool s' = pool s /\ stats_of s' = stats_of s /\
        projectiles s' = projectiles s /\ envelopes s' = envelopes s) s.
Proof.
  unfold updateCoins. wp_simpl.
  eapply wp_mono.
  - apply (wp_downfrom (fun k s1 =>
      (pool s1 = pool s /\ stats_of s1 = stats_of s /\
       projectiles s1 = projectiles s /\ envelopes s1 = envelopes s) /\
      (k <= length (coins s1))%nat));
      [|split; [repeat split; reflexivity | reflexivity]].
    intros i s1 _ [Hk Hlen]. wp_simpl.
    destruct (lookup_lt_is_Some_2 (coins s1) i) as [c0 ->]; [lia|].
    wp_simpl. scene_simpl.
    destruct (Rltb (vy (Coin.position (moveCoin c0))) (-20)); wp_simpl;
      scene_simpl; (split; [exact Hk|]).
    + rewrite length_delete; [rewrite length_insert; lia|].
      apply lookup_lt_is_Some_2. rewrite length_insert. lia.
    + rewrite length_insert. lia.
  - intros [] s' [H _]. exact H.
Qed.

Lemma updates_spec sec s :
  wf_pool (pool s) ->
  wp (updates sec)
     (fun _ s' =>
        wf_pool (pool s') /\ stats_of s' = stats_of s /\
        length (envelopes s') = length (envelopes s)) s.
Proof.
  intros Hwf. unfold updates. wp_simpl.
  eapply wp_mono; [apply updateParticles_spec; exact Hwf|].
  intros [] s1 [Hwf1 Hfr1]. wp_simpl.
  eapply wp_mono; [apply updateProjectiles_spec; exact Hwf1|].
  intros [] s2 (Hwf2 & Hst2 & He2 & Hco2). wp_simpl.
  eapply wp_mono; [apply updateEnvelopes_spec|].
  intros [] s3 (Hp3 & Hst3 & Hpr3 & Hco3 & Hlen3). wp_simpl.
  eapply wp_mono; [apply updateCoins_spec|].
  intros [] s4 (Hp4 & Hst4 & Hpr4 & He4).
  split; [congruence|]. split.
  - rewrite Hst4, Hst3, Hst2. unfold stats_of. fields.
  - rewrite He4, Hlen3, He2. fields.
Qed.

(** ** The blocks before the updates *)

Lemma reportStats_spec s :
  wp reportStats
     (fun _ s' =>
        pool s' = pool s /\ control_of s' = control_of s /\
        gameState s' = gameState s /\ projectiles s' = projectiles s /\
        envelopes s' = envelopes s /\ coins s' = coins s /\
        randomCalls s' = randomCalls s) s.
Proof.
  unfold reportStats. wp_simpl. destruct (statsDirty s); wp_simpl;
    repeat split; reflexivity.
Qed.

(** The gesture refs after the debounce block, and the gesture it
    hands to the triggers. *)
Definition debounced (hand : option HandData.t) (s : Scene) : Scene :=
  let rawGesture := rawGestureOf hand in
  if Gesture.eqb rawGesture (pendingGesture s)
  then set_gestureFrameCount (S (gestureFrameCount s)) s
  else set_gestureFrameCount 0%nat (set_pendingGesture rawGesture s).

Definition activeGestureOf (hand : option HandData.t) (s : Scene)
  : Gesture.t :=
  let s1 := debounced hand s in
  if (5 <? gestureFrameCount s1)%nat then pendingGesture s1
  else stableGesture s1.

Lemma gestureDebounce_eq hand s :
  gestureDebounce hand s = Some (activeGestureOf hand s, debounced hand s).
Proof.
  unfold gestureDebounce, activeGestureOf, debounced.
  unfold mbind, M_bind, gets, modify, mret, M_ret. cbn beta zeta.
  destruct (Gesture.eqb (rawGestureOf hand) (pendingGesture s));
    scene_simpl;
    match goal with |- context [(5 <? ?n)%nat] =>
      destruct (5 <? n)%nat end; reflexivity.
Qed.

Lemma debounced_pending hand s :
  pendingGesture (debounced hand s) = rawGestureOf hand.
Proof.
  unfold debounced. cbn zeta.
  destruct (Gesture.eqb (rawGestureOf hand) (pendingGesture s)) eqn:E.
  - apply bool_decide_eq_true in E. scene_simpl. congruence.
  - reflexivity.
Qed.

Lemma spawnProjectile_spec s :
  sceneRef s = true ->
  wp spawnProjectile
     (fun _ s' =>
        pool s' = pool s /\ stats_of s' = stats_of s /\
        envelopes s' = envelopes s /\ coins s' = coins s /\
        length (projectiles s') = S (length (projectiles s)) /\
        randomCalls s' = (4 + randomCalls s)%nat) s.
Proof.
  intros Hready. unfold spawnProjectile. wp_simpl. rewrite Hready.
  wp_simpl. scene_simpl. rewrite length_app. cbn [length].
  repeat split; try reflexivity. lia.
Qed.

(** The value of [nextSpawnTime] after the spawn logic. *)
Definition nextSpawnAfter (time : R) (hand : option HandData.t)
  (active : bool) (s : Scene) : R :=
  if active && Rgtb time (nextSpawnTime s)
  then time
       + finalDelayOf hand (baseDelayOf (random (4 + randomCalls s)))
  else nextSpawnTime s.

Lemma spawnLogic_spec time hand active s :
  sceneRef s = true ->
  wp (spawnLogic time hand active)
     (fun _ s' =>
        pool s' = pool s /\
        stats_of s' =
          stats_of (set_nextSpawnTime (nextSpawnAfter time hand active s) s) /\
        envelopes s' = envelopes s /\ coins s' = coins s) s.
Proof.
  intros Hready. unfold spawnLogic, nextSpawnAfter. wp_simpl.
  destruct (active && Rgtb time (nextSpawnTime s)); wp_simpl.
  - eapply wp_mono; [apply spawnProjectile_spec; exact Hready|].
    intros [] s1 (Hp & Hst & He & Hco & _ & Hrc). wp_simpl. scene_simpl.
    rewrite Hrc. unfold stats_of in *. fields.
  - unfold stats_of. fields; destruct s; reflexivity.
Qed.

(** A mounted scene with a well-formed pool: what the mount effect
    establishes and every frame keeps. *)
Definition running (s : Scene) : Prop :=
  sceneRef s = true /\ wf_pool (pool s).

(** The triggers return, keep the scene running and leave
    [activeGesture] in [stableGesture]. *)
Lemma gestureTriggers_spec active activeGesture s :
  running s ->
  wp (gestureTriggers active activeGesture)
     (fun _ s' =>
        running s' /\
        control_of s' = control_of (set_stableGesture activeGesture s)) s.
Proof.
  intros [Hready Hwf]. unfold gestureTriggers. wp_simpl.
  destruct active; cbn [andb negb].
  - destruct (Gesture.eqb activeGesture (stableGesture s)) eqn:E;
      cbn [negb].
    + wp_simpl. apply bool_decide_eq_true in E.
      split; [split; assumption|]. fields.
    + wp_simpl.
      assert (H1 : wp (when (Gesture.eqb activeGesture Gesture.Open_Palm
                             && negb (Gesture.eqb (stableGesture s)
                                        Gesture.Open_Palm))
                         explodeVisibleProjectiles)
                     (fun _ s1 => running s1 /\ control_of s1 = control_of s)
                     s).
      { destruct (_ && _); wp_simpl; [|split; [split|]; auto].
        eapply wp_mono;
          [apply explodeVisibleProjectiles_spec; assumption|].
        intros [] s1 (Hwf1 & Hc1 & _). split; [split|]; [|exact Hwf1|exact Hc1].
        fields. }
      eapply wp_mono; [exact H1|]. clear H1.
      intros [] s1 [[Hready1 Hwf1] Hc1]. wp_simpl.
      assert (H2 : wp (when (Gesture.eqb activeGesture Gesture.Victory
                             && negb (Gesture.eqb (stableGesture s)
                                        Gesture.Victory))
                         trySpawnEnvelopes)
                     (fun _ s2 => running s2 /\ control_of s2 = control_of s)
                     s1).
      { destruct (_ && _); wp_simpl; [|split; [split|]; auto].
        eapply wp_mono; [apply trySpawnEnvelopes_spec; exact Hwf1|].
        intros [] s2 (Hwf2 & Hk2).
        assert (Hc2 : control_of s2 = control_of s1).
        { destruct (charges (gameState s1) <? 1)%Z;
            unfold keep_of, debit in Hk2; fields. }
        split; [split|]; [|exact Hwf2|congruence]. fields. }
      eapply wp_mono; [exact H2|]. clear H2.
      intros [] s2 [[Hready2 Hwf2] Hc2]. wp_simpl.
      assert (H3 : wp (when (Gesture.eqb (stableGesture s) Gesture.Victory
                             && Gesture.eqb activeGesture Gesture.Open_Palm)
                         explodeEnvelopes)
                     (fun _ s3 => running s3 /\ control_of s3 = control_of s)
                     s2).
      { destruct (_ && _); wp_simpl; [|split; [split|]; auto].
        eapply wp_mono; [apply explodeEnvelopes_spec; exact Hready2|].
        intros [] s3 (Hp3 & Hc3 & _).
        split; [split|]; [|congruence|congruence]. fields. }
      eapply wp_mono; [exact H3|]. clear H3.
      intros [] s3 [[Hready3 Hwf3] Hc3]. wp_simpl.
      split; [split; assumption|]. fields.
  - wp_simpl. split; [split; assumption|]. reflexivity.
Qed.

Lemma wp_gestureDebounce hand (Q : Gesture.t -> Scene -> Prop) s :
  Q (activeGestureOf hand s) (debounced hand s) ->
  wp (gestureDebounce hand) Q s.
Proof.
  intros HQ. unfold wp. rewrite gestureDebounce_eq. exact HQ.
Qed.

(** The debounce block writes [pendingGesture] and [gestureFrameCount]
    and nothing else. *)
Lemma debounced_frame hand s :
  debounced hand s =
    set_gestureFrameCount (gestureFrameCount (debounced hand s))
      (set_pendingGesture (pendingGesture (debounced hand s)) s).
Proof.
  unfold debounced. cbn zeta.
  destruct (Gesture.eqb (rawGestureOf hand) (pendingGesture s));
    destruct s; reflexivity.
Qed.

(** ** One frame *)

Lemma loop_spec time s :
  running s ->
  wp (loop time)
     (fun _ s' =>
        running s' /\
        pendingGesture s' = rawGestureOf (handDataRef s) /\
        gestureFrameCount s' =
          gestureFrameCount (debounced (handDataRef s) s) /\
        stableGesture s' = activeGestureOf (handDataRef s) s /\
        nextSpawnTime s' =
          nextSpawnAfter time (handDataRef s) (isGameActiveRef s) s /\
        handDataRef s' = handDataRef s /\
        isGameActiveRef s' = isGameActiveRef s) s.
Proof.
  intros [Hready Hwf]. unfold loop. cbn zeta. wp_simpl. rewrite Hready.
  wp_simpl. unfold beforeTriggers. wp_simpl.
  eapply wp_mono; [apply reportStats_spec|].
  intros [] s1 (Hp1 & Hc1 & Hg1 & _ & _ & _ & Hrc1). wp_simpl.
  apply wp_gestureDebounce. wp_simpl.
  set (hand := handDataRef s). set (active := isGameActiveRef s).
  set (s2 := debounced hand s1).
  assert (Hs2 : s2 = set_gestureFrameCount (gestureFrameCount s2)
                       (set_pendingGesture (pendingGesture s2) s1))
    by apply debounced_frame.
  assert (Hready2 : sceneRef s2 = true).
  { rewrite Hs2. scene_simpl. unfold control_of in Hc1. congruence. }
  eapply wp_mono; [apply spawnLogic_spec; exact Hready2|].
  intros [] s3 (Hp3 & Hst3 & _ & _). wp_simpl.
  assert (Hrun3 : running s3).
  { split.
    - unfold stats_of in Hst3. fields.
    - rewrite Hp3, Hs2. scene_simpl. rewrite Hp1. exact Hwf. }
  eapply wp_mono; [apply gestureTriggers_spec; exact Hrun3|].
  intros [] s4 [[Hready4 Hwf4] Hc4]. wp_simpl.
  eapply wp_mono; [apply updates_spec; exact Hwf4|].
  intros [] s5 (Hwf5 & Hst5 & _).
  assert (Hsame : pendingGesture s1 = pendingGesture s /\
                  gestureFrameCount s1 = gestureFrameCount s /\
                  stableGesture s1 = stableGesture s /\
                  nextSpawnTime s1 = nextSpawnTime s /\
                  handDataRef s1 = handDataRef s /\
                  isGameActiveRef s1 = isGameActiveRef s)
    by (unfold control_of in Hc1; simplify_eq; repeat split; congruence).
  destruct Hsame as (Hpe & Hfc & Hsg & Hnt & Hhd & Hga).
  assert (Hdeb : pendingGesture s2 = rawGestureOf hand /\
                 gestureFrameCount s2 =
                   gestureFrameCount (debounced hand s) /\
                 activeGestureOf hand s1 = activeGestureOf hand s).
  { split; [apply debounced_pending|].
    unfold activeGestureOf, s2, debounced. cbn zeta. rewrite Hpe.
    destruct (Gesture.eqb (rawGestureOf hand) (pendingGesture s));
      scene_simpl; rewrite ?Hfc, ?Hsg, ?Hpe; auto. }
  destruct Hdeb as (Hpe2 & Hfc2 & Hact).
  assert (Hnext : nextSpawnAfter time hand active s2 =
                  nextSpawnAfter time hand active s).
  { unfold nextSpawnAfter. rewrite Hs2. scene_simpl.
    rewrite Hnt, Hrc1. reflexivity. }
  rewrite Hnext in Hst3. rewrite Hact in Hc4.
  assert (H2f : stableGesture s2 = stableGesture s1 /\
                handDataRef s2 = handDataRef s1 /\
                isGameActiveRef s2 = isGameActiveRef s1)
    by (rewrite Hs2; repeat split; reflexivity).
  destruct H2f as (Hsg2 & Hhd2 & Hga2).
  clear Hs2 Hnext Hact. clearbody s2. subst hand active.
  unfold stats_of in Hst5, Hst3. unfold control_of in *.
  scene_simpl. simplify_eq.
  split; [split; congruence|].
  repeat match goal with |- _ /\ _ => split end; congruence.
Qed.

(** ** Frames *)

Lemma renderProps_running hand active s :
  running s -> running (renderProps hand active s).
Proof.
  intros [Hready Hwf]. unfold renderProps, syncIsGameActive, syncHandData.
  cbn zeta. scene_simpl.
  destruct (Bool.eqb (isGameActiveRef s) active); [split; assumption|].
  destruct active; split; assumption.
Qed.

Lemma renderProps_gesture hand active s :
  pendingGesture (renderProps hand active s) = pendingGesture s /\
  stableGesture (renderProps hand active s) = stableGesture s /\
  gestureFrameCount (renderProps hand active s) = gestureFrameCount s /\
  handDataRef (renderProps hand active s) = hand /\
  isGameActiveRef (renderProps hand active s) = active /\
  nextSpawnTime (renderProps hand active s) = nextSpawnTime s /\
  randomCalls (renderProps hand active s) = randomCalls s.
Proof.
  unfold renderProps, syncIsGameActive, syncHandData. cbn zeta. scene_simpl.
  destruct (Bool.eqb (isGameActiveRef s) active) eqn:E.
  - apply Bool.eqb_prop in E. scene_simpl. auto 10.
  - destruct active; scene_simpl; auto 10.
Qed.

(** The gesture refs after one frame, from those before it. *)
Lemma runFrame_spec f s :
  running s ->
  wp (runFrame f)
     (fun _ s' =>
        let raw := rawGestureOf (frame_hand f) in
        running s' /\
        pendingGesture s' = raw /\
        gestureFrameCount s' =
          (if Gesture.eqb raw (pendingGesture s)
           then S (gestureFrameCount s) else 0%nat) /\
        stableGesture s' =
          (if (5 <? gestureFrameCount s')%nat then raw
           else stableGesture s)) s.
Proof.
  intros Hrun. unfold runFrame, wp.
  pose proof (loop_spec (frame_time f)
                (renderProps (frame_hand f) (frame_active f) s)
                (renderProps_running _ _ _ Hrun)) as H.
  unfold wp in H.
  destruct (loop (frame_time f)
              (renderProps (frame_hand f) (frame_active f) s))
    as [[[] s']|]; [|exact H].
  destruct H as (Hrun' & Hpe & Hfc & Hsg & _).
  destruct (renderProps_gesture (frame_hand f) (frame_active f) s)
    as (Rpe & Rsg & Rfc & Rhd & _).
  rewrite Rhd in Hpe, Hfc, Hsg.
  unfold activeGestureOf in Hsg. cbn zeta in Hsg.
  rewrite <- Hfc in Hsg. rewrite debounced_pending in Hsg.
  assert (Hst : stableGesture
                  (debounced (frame_hand f)
                     (renderProps (frame_hand f) (frame_active f) s)) =
                stableGesture s).
  { rewrite debounced_frame. scene_simpl. exact Rsg. }
  rewrite Hst in Hsg. cbn zeta.
  split; [exact Hrun'|]. split; [exact Hpe|]. split; [|exact Hsg].
  rewrite Hfc. unfold debounced. cbn zeta. rewrite Rpe.
  destruct (Gesture.eqb (rawGestureOf (frame_hand f)) (pendingGesture s));
    scene_simpl; congruence.
Qed.

Lemma wp_runFrames_cons f fs Q s :
  wp (runFrames (f :: fs)) Q s <->
  wp (runFrame f) (fun _ s1 => wp (runFrames fs) Q s1) s.
Proof. cbn [runFrames]. apply wp_bind. Qed.

(** Every frame keeps a running scene running. *)
Lemma runFrames_running fs : forall s,
  running s -> wp (runFrames fs) (fun _ s' => running s') s.
Proof.
  induction fs as [|f fs IH]; intros s Hrun.
  - exact Hrun.
  - apply wp_runFrames_cons.
    eapply wp_mono; [apply runFrame_spec; exact Hrun|].
    intros [] s1 (Hrun1 & _). apply IH. exact Hrun1.
Qed.

(** A signal held at [g], seen by a stabilizer whose pending gesture is
    already [g]: the count grows by one per frame, and the stable
    gesture stays until the count passes five. *)
Lemma held_signal g fs : forall s,
  running s -> pendingGesture s = g ->
  Forall (fun f => rawGestureOf (frame_hand f) = g) fs ->
  wp (runFrames fs)
     (fun _ s' =>
        running s' /\ pendingGesture s' = g /\
        gestureFrameCount s' = (gestureFrameCount s + length fs)%nat /\
        ((gestureFrameCount s + length fs <= 5)%nat \/ fs = [] ->
         stableGesture s' = stableGesture s) /\
        ((5 < gestureFrameCount s + length fs)%nat ->
         (0 < length fs)%nat -> stableGesture s' = g)) s.
Proof.
  induction fs as [|f fs IH]; intros s Hrun Hpe Hall.
  - apply wp_ret. cbn [length].
    split; [exact Hrun|]. split; [exact Hpe|]. split; [lia|].
    split; [reflexivity | lia].
  - apply Forall_cons in Hall as [Hf Hall].
    apply wp_runFrames_cons.
    eapply wp_mono; [apply runFrame_spec; exact Hrun|].
    cbn zeta. intros [] s1 (Hrun1 & Hpe1 & Hfc1 & Hsg1).
    rewrite Hf in Hpe1, Hfc1, Hsg1.
    rewrite Hpe in Hfc1. unfold Gesture.eqb in Hfc1.
    rewrite bool_decide_eq_true_2 in Hfc1 by reflexivity.
    eapply wp_mono; [apply IH; [exact Hrun1 | exact Hpe1 | exact Hall]|].
    intros [] s2 (Hrun2 & Hpe2 & Hfc2 & Hle & Hgt). cbn [length].
    split; [exact Hrun2|]. split; [exact Hpe2|]. split; [lia|]. split.
    + intros [Hb|Hb]; [|discriminate]. rewrite Hle by (left; lia).
      rewrite Hsg1.
      destruct (Nat.ltb_spec 5 (gestureFrameCount s1)); [lia | reflexivity].
    + intros Hb _. destruct fs as [|f' fs'].
      * cbn [length] in *. rewrite Hle by (right; reflexivity).
        rewrite Hsg1.
        destruct (Nat.ltb_spec 5 (gestureFrameCount s1));
          [reflexivity | lia].
      * destruct (Nat.le_gt_cases
                    (gestureFrameCount s1 + length (f' :: fs')) 5).
        -- rewrite Hle by (left; assumption). rewrite Hsg1.
           cbn [length] in *.
           destruct (Nat.ltb_spec 5 (gestureFrameCount s1));
             [reflexivity | lia].
        -- apply Hgt; [lia | cbn [length]; lia].
Qed.

(** A signal that alternates between two gestures, frame by frame. *)
Fixpoint alternates (a b : Gesture.t) (fs : list Frame) : Prop :=
  match fs with
  | [] => True
  | f :: fs' => rawGestureOf (frame_hand f) = a /\ alternates b a fs'
  end.

Lemma alternating_signal fs : forall a b s,
  running s -> a <> b ->
  pendingGesture s <> a \/ (gestureFrameCount s < 5)%nat ->
  alternates a b fs ->
  wp (runFrames fs)
     (fun _ s' => stableGesture s' = stableGesture s) s.
Proof.
  induction fs as [|f fs IH]; intros a b s Hrun Hab Hstart Halt.
  - reflexivity.
  - destruct Halt as [Hf Halt]. apply wp_runFrames_cons.
    eapply wp_mono; [apply runFrame_spec; exact Hrun|].
    cbn zeta. intros [] s1 (Hrun1 & Hpe1 & Hfc1 & Hsg1).
    rewrite Hf in Hpe1, Hfc1, Hsg1.
    assert (Hle : (gestureFrameCount s1 <= 5)%nat).
    { rewrite Hfc1. unfold Gesture.eqb.
      destruct (bool_decide_reflect (a = pendingGesture s)) as [E|E];
        [|lia].
      destruct Hstart as [Hne|Hlt]; [congruence | lia]. }
    assert (Hsame : stableGesture s1 = stableGesture s).
    { rewrite Hsg1.
      destruct (Nat.ltb_spec 5 (gestureFrameCount s1)); [lia|reflexivity]. }
    eapply wp_mono.
    + apply (IH b a s1 Hrun1); [congruence | left; congruence | exact Halt].
    + intros [] s2 H2. congruence.
Qed.

(** ** The gesture stabilizer *)

(** C1.  Gesture stabilizer.  When the raw gesture of a frame differs
    from the pending gesture and the same raw gesture is then seen on
    the next six frames, the stable gesture is still the old one after
    the change frame and after each of the first five held frames, and
    it is the new gesture after the sixth held frame.  When the raw
    gesture alternates between two different gestures on every frame
    (the first one differing from the pending gesture, or the count
    being below five), the stable gesture never changes. *)
Theorem C1_gesture_stabilizer :
  (forall (s : Scene) (g : Gesture.t) (change : Frame) (held : list Frame),
      running s ->
      rawGestureOf (frame_hand change) = g ->
      g <> pendingGesture s ->
      length held = 6%nat ->
      Forall (fun f => rawGestureOf (frame_hand f) = g) held ->
      forall k, (k <= 6)%nat ->
        wp (runFrames (change :: take k held))
           (fun _ s' =>
              stableGesture s' =
                if (k <? 6)%nat then stableGesture s else g) s)
  /\
  (forall (s : Scene) (a b : Gesture.t) (fs : list Frame),
      running s -> a <> b ->
      pendingGesture s <> a \/ (gestureFrameCount s < 5)%nat ->
      alternates a b fs ->
      wp (runFrames fs)
         (fun _ s' => stableGesture s' = stableGesture s) s).
Proof.
  split.
  - intros s g change held Hrun Hraw Hne Hlen Hall k Hk.
    apply wp_runFrames_cons.
    eapply wp_mono; [apply runFrame_spec; exact Hrun|].
    cbn zeta. intros [] s1 (Hrun1 & Hpe1 & Hfc1 & Hsg1).
    rewrite Hraw in Hpe1, Hfc1, Hsg1.
    unfold Gesture.eqb in Hfc1.
    rewrite bool_decide_eq_false_2 in Hfc1 by exact Hne.
    rewrite Hfc1 in Hsg1. cbn in Hsg1.
    eapply wp_mono.
    + apply (held_signal g (take k held) s1 Hrun1 Hpe1).
      apply Forall_take. exact Hall.
    + intros [] s2 (_ & _ & _ & Hle & Hgt).
      rewrite Hfc1, length_take, Hlen in Hle, Hgt.
      destruct (Nat.ltb_spec k 6).
      * rewrite Hle by (left; lia). exact Hsg1.
      * apply Hgt; lia.
  - intros s a b fs Hrun Hab Hstart Halt.
    apply (alternating_signal fs a b s Hrun Hab Hstart Halt).
Qed.

(** ** The charge invariant *)

(** The actions of C2. *)
Inductive Action :=
| Detonate (position : Vector3) (baseColor : Z)
| TrySpawn.

Definition perform (a : Action) : M unit :=
  match a with
  | Detonate position baseColor => createExplosion position baseColor
  | TrySpawn => trySpawnEnvelopes
  end.

Lemma charges_nonneg g :
  (0 <= charges g)%Z <-> (GameStats.consumed g <= GameStats.exploded g)%Z.
Proof.
  unfold charges. split; intros H.
  - destruct (Z.le_gt_cases (GameStats.consumed g) (GameStats.exploded g));
      [assumption|].
    assert ((GameStats.exploded g - GameStats.consumed g) / 5 < 0)%Z
      by (apply Z.div_lt_upper_bound; lia).
    lia.
  - apply Z.div_pos; lia.
Qed.

Lemma perform_spec a s :
  wf_pool (pool s) ->
  (GameStats.consumed (gameState s) <= GameStats.exploded (gameState s))%Z ->
  wp (perform a)
     (fun _ s' =>
        wf_pool (pool s') /\
        (GameStats.consumed (gameState s')
         <= GameStats.exploded (gameState s'))%Z) s.
Proof.
  intros Hwf Hinv. destruct a as [position baseColor|]; cbn [perform].
  - eapply wp_mono; [apply createExplosion_spec; exact Hwf|].
    intros [] s' (Hwf' & Hfr & _). split; [exact Hwf'|].
    unfold bumpExploded in Hfr. fields.
    match goal with H : gameState s' = _ |- _ => rewrite H end.
    scene_simpl. lia.
  - eapply wp_mono; [apply trySpawnEnvelopes_spec; exact Hwf|].
    intros [] s' (Hwf' & Hk). split; [exact Hwf'|].
    destruct (Z.ltb_spec (charges (gameState s)) 1) as [Hlt|Hge].
    + unfold keep_of in Hk. fields.
    + unfold keep_of, debit in Hk. fields.
      match goal with H : gameState s' = _ |- _ => rewrite H end.
      scene_simpl. unfold charges in Hge.
      pose proof (Z.mul_div_le (GameStats.exploded (gameState s)
                                - GameStats.consumed (gameState s)) 5).
      lia.
Qed.

(** C2.  From a session-start reset (the effect on [isGameActive]
    becoming true), after any sequence of detonations and
    envelope-spawn attempts, the charges
    [floor ((exploded - consumed) / 5)] are at least zero, which is the
    same as [consumed <= exploded]. *)
Theorem C2_charges_nonneg (s0 : Scene) (actions : list Action) :
  wf_pool (pool s0) ->
  wp (for_each actions perform)
     (fun _ s' =>
        let g := gameState s' in
        charges g =
          ((GameStats.exploded g - GameStats.consumed g) / 5)%Z /\
        (0 <= charges g)%Z /\
        (GameStats.consumed g <= GameStats.exploded g)%Z /\
        ((0 <= charges g)%Z <->
         (GameStats.consumed g <= GameStats.exploded g)%Z))
     (syncIsGameActive true s0).
Proof.
  intros Hwf.
  eapply wp_mono.
  - apply (wp_for_each (fun s1 =>
      wf_pool (pool s1) /\
      (GameStats.consumed (gameState s1)
       <= GameStats.exploded (gameState s1))%Z)).
    + intros a s1 _ [Hwf1 Hinv]. apply perform_spec; assumption.
    + split; [exact Hwf | cbn; lia].
  - intros [] s' [_ Hinv]. cbn zeta.
    split; [reflexivity|]. split; [apply charges_nonneg; exact Hinv|].
    split; [exact Hinv | apply charges_nonneg].
Qed.

(** ** Spawning envelopes while a batch is alive *)

(** C3 (as amended).  With at least one envelope alive,
    [trySpawnEnvelopes] returns and leaves the envelope collection, the
    other entities, the particle pool, the draws and the trace as they
    were, and of the stats it leaves [exploded] and [coins] as they
    were; [consumed] grows by 5 (and the stats are marked dirty) when
    at least one charge is available, and is unchanged otherwise. *)
Theorem C3_spawn_while_alive (s : Scene) :
  envelopes s <> [] ->
  exists s',
    trySpawnEnvelopes s = Some (tt, s') /\
    envelopes s' = envelopes s /\
    projectiles s' = projectiles s /\ coins s' = coins s /\
    pool s' = pool s /\
    randomCalls s' = randomCalls s /\ trace s' = trace s /\
    GameStats.exploded (gameState s') = GameStats.exploded (gameState s) /\
    GameStats.coins (gameState s') = GameStats.coins (gameState s) /\
    GameStats.consumed (gameState s') =
      (if (charges (gameState s) <? 1)%Z
       then GameStats.consumed (gameState s)
       else GameStats.consumed (gameState s) + 5)%Z /\
    statsDirty s' =
      (if (charges (gameState s) <? 1)%Z then statsDirty s else true).
Proof.
  intros Hne. eexists. split; [apply trySpawnEnvelopes_alive; exact Hne|].
  destruct (charges (gameState s) <? 1)%Z; repeat split; reflexivity.
Qed.

(** ** The capacity of the pool *)

Lemma length_concat_replicate {A} (n : nat) (l : list A) :
  length (concat (replicate n l)) = (n * length l)%nat.
Proof.
  induction n as [|n IH]; cbn [replicate concat]; [reflexivity|].
  rewrite length_app, IH. cbn [Nat.mul]. reflexivity.
Qed.

Lemma mounted_running draws hand active :
  running (mounted draws hand active).
Proof.
  split; [reflexivity|]. unfold mounted, wf_pool. cbn zeta. scene_simpl.
  rewrite length_concat_replicate, !length_replicate. cbn [length].
  unfold MAX_PARTICLES. lia.
Qed.

(** C4.  After any number of frames from the mounted scene, the number
    of active slots is at most [MAX_PARTICLES] (4000); and a call of
    [spawnParticle] on a pool whose slots are all active returns and
    leaves the pool (the data of every slot and the position, colour
    and size buffers) as it was. *)
Theorem C4_pool_capacity :
  (forall draws hand active (fs : list Frame),
      wp (runFrames fs)
         (fun _ s' =>
            MAX_PARTICLES = 4000%Z /\
            (Z.of_nat (active_count (pool s')) <= MAX_PARTICLES)%Z)
         (mounted draws hand active))
  /\
  (forall (s : Scene) pos colorHex vel life decay size,
      wf_pool (pool s) -> all_active (pool s) ->
      wp (spawnParticle pos colorHex vel life decay size)
         (fun _ s' => pool s' = pool s) s).
Proof.
  split.
  - intros draws hand active fs.
    eapply wp_mono; [apply runFrames_running, mounted_running|].
    intros [] s' [_ Hwf]. split; [reflexivity|].
    pose proof (active_count_le (pool s')) as Hle.
    destruct Hwf as [Hlen _]. rewrite Hlen in Hle.
    unfold MAX_PARTICLES in *. lia.
  - intros s pos colorHex vel life decay size Hwf Hall.
    apply spawnParticle_saturated; assumption.
Qed.

(** ** Coins *)


(** ** The burst of a detonation *)

Lemma burst_speed_range (w : R) : 0 <= w < 1 -> 0.2 <= 0.2 + w * 0.3 <= 0.5.
Proof. intros. lra. Qed.

Lemma burst_polar_cosine (v : R) :
  0 <= v < 1 -> cos (acos (2 * v - 1)) = 2 * v - 1 /\ -1 <= 2 * v - 1 < 1.
Proof.
  intros Hv. split; [apply cos_acos; lra | lra].
Qed.

(** The length of a burst velocity is its speed. *)
Lemma burst_velocity_norm (u v w : R) :
  let vel := burstVelocity u v w in
  vx vel * vx vel + vy vel * vy vel + vz vel * vz vel
  = (0.2 + w * 0.3) * (0.2 + w * 0.3).
Proof.
  unfold burstVelocity. cbn [vx vy vz].
  set (theta := 2 * PI * u). set (phi := acos (2 * v - 1)).
  set (speed := 0.2 + w * 0.3).
  pose proof (sin2_cos2 theta) as Ht. pose proof (sin2_cos2 phi) as Hp.
  unfold Rsqr in Ht, Hp.
  replace (speed * sin phi * cos theta * (speed * sin phi * cos theta)
           + speed * sin phi * sin theta * (speed * sin phi * sin theta)
           + speed * cos phi * (speed * cos phi))
    with (speed * speed
          * (sin phi * sin phi
             * (sin theta * sin theta + cos theta * cos theta)
             + cos phi * cos phi)) by ring.
  rewrite Ht, Rmult_1_r, Hp. ring.
Qed.

(** C6.  [createExplosion] adds exactly 1 to [exploded] and makes exactly
    60 requests to the particle pool.  The velocity of each request is
    [speed * (sin phi * cos theta, sin phi * sin theta, cos phi)] with
    [theta = 2 * PI * u], [phi = acos (2 * v - 1)] and
    [speed = 0.2 + w * 0.3] for three draws [u], [v], [w] of its own, so
    [speed] lies in [0.2, 0.5] and is the length of the velocity, and
    the cosine of the polar angle is [2 * v - 1], the draw [v] mapped
    affinely onto [-1, 1). *)
Theorem C6_createExplosion (s : Scene) (position : Vector3) (baseColor : Z) :
  wf_pool (pool s) ->
  wp (createExplosion position baseColor)
     (fun _ s' =>
        GameStats.exploded (gameState s')
        = (GameStats.exploded (gameState s) + 1)%Z /\
        exists reqs : list ParticleRequest,
          length reqs = 60%nat /\
          trace s' =
            trace s ++ Audio playExplosion :: map SpawnParticle reqs /\
          forall (k : nat) (r : ParticleRequest),
            reqs !! k = Some r ->
            let c := (8 * k + randomCalls s)%nat in
            let u := random (1 + c) in
            let v := random (2 + c) in
            let w := random (3 + c) in
            let theta := 2 * PI * u in
            let phi := acos (2 * v - 1) in
            let speed := 0.2 + w * 0.3 in
            0 <= u < 1 /\ 0 <= v < 1 /\ 0 <= w < 1 /\
            0.2 <= speed <= 0.5 /\
            req_vel r =
              mkVector3 (speed * sin phi * cos theta)
                (speed * sin phi * sin theta) (speed * cos phi) /\
            cos phi = 2 * v - 1 /\ -1 <= cos phi < 1 /\
            vx (req_vel r) * vx (req_vel r)
            + vy (req_vel r) * vy (req_vel r)
            + vz (req_vel r) * vz (req_vel r) = speed * speed) s.
Proof.
  intros Hwf.
  eapply wp_mono; [apply createExplosion_spec; exact Hwf|].
  intros [] s' (_ & Hfr & _ & Htr). split.
  - unfold bumpExploded in Hfr. fields.
    match goal with H : gameState s' = _ |- _ => rewrite H end.
    reflexivity.
  - eexists. split; [|split; [rewrite Htr, <- map_map; reflexivity|]].
    + rewrite length_map, length_seq. reflexivity.
    + intros k r Hk. rewrite list_lookup_fmap in Hk.
      destruct (seq 0 60 !! k) as [k'|] eqn:Hseq; [|discriminate].
      apply lookup_seq in Hseq as [-> _]. cbn in Hk. simplify_eq.
      cbn zeta. cbn [Nat.add].
      pose proof (random_range (S (8 * k + randomCalls s))) as Hu.
      pose proof (random_range (S (S (8 * k + randomCalls s)))) as Hv.
      pose proof (random_range (S (S (S (8 * k + randomCalls s))))) as Hw.
      destruct (burst_polar_cosine _ Hv) as [Hcos Hrange].
      split; [exact Hu|]. split; [exact Hv|]. split; [exact Hw|].
      split; [apply burst_speed_range; exact Hw|].
      split; [reflexivity|]. split; [exact Hcos|].
      split; [rewrite Hcos; exact Hrange|].
      apply burst_velocity_norm.
Qed.

(** ** The triggers on a Victory to Open_Palm edge *)



(** ** The delay of the spawn scheduler *)

Definition clamp (x lo hi : R) : R := Rmax lo (Rmin x hi).

Lemma speed_parameter (v : R) :
  Rmin (Rmax v 0 / 4.0) 1.0 = clamp (v / 4.0) 0 1 /\
  0 <= clamp (v / 4.0) 0 1 <= 1.
Proof.
  unfold clamp. replace 1.0 with 1 by lra.
  destruct (Rle_dec v 0).
  - rewrite (Rmax_right v 0) by lra.
    rewrite (Rmin_left (0 / 4.0) 1) by lra.
    rewrite (Rmin_left (v / 4.0) 1) by lra.
    rewrite (Rmax_left 0 (v / 4.0)) by lra. lra.
  - rewrite (Rmax_left v 0) by lra.
    destruct (Rle_dec (v / 4.0) 1).
    + rewrite (Rmin_left (v / 4.0) 1) by lra.
      rewrite (Rmax_right 0 (v / 4.0)) by lra. lra.
    + rewrite (Rmin_right (v / 4.0) 1) by lra.
      rewrite (Rmax_right 0 1) by lra. lra.
Qed.

Lemma baseDelay_range (r : R) :
  0 <= r < 1 -> 666 <= baseDelayOf r < 2000.
Proof. unfold baseDelayOf. intros. lra. Qed.

(** C5 (as amended).  On a frame in which the spawn scheduler launches a
    projectile (the game is active and the time is past
    [nextSpawnTime]), the next delay is taken from a base value
    [666 + r * (2000 - 666)] for a draw [r], between 666 and 2000.  When
    a hand is present and the raw gesture of its snapshot is
    Closed_Fist, the delay is [base * (1 - 0.5 * t)] with
    [t = clamp (velocity / 4.0, 0, 1)]; otherwise it is the base value.
    The stable gesture plays no part. *)
Theorem C5_spawn_delay (s : Scene) (time : R) :
  running s ->
  isGameActiveRef s = true ->
  nextSpawnTime s < time ->
  wp (loop time)
     (fun _ s' =>
        let base := baseDelayOf (random (4 + randomCalls s)) in
        base = random (4 + randomCalls s) * (2000 - 666) + 666 /\
        666 <= base < 2000 /\
        exists delay : R,
          nextSpawnTime s' = time + delay /\
          match handDataRef s with
          | Some h =>
              if Gesture.eqb (HandData.gesture h) Gesture.Closed_Fist
              then
                let t := clamp (HandData.velocity h / 4.0) 0 1 in
                delay = base * (1 - 0.5 * t) /\
                base / 2 <= delay <= base
              else delay = base
          | None => delay = base
          end) s.
Proof.
  intros Hrun Hactive Hlate.
  eapply wp_mono; [apply loop_spec; exact Hrun|].
  intros [] s' (_ & _ & _ & _ & Hnext & _). cbn zeta.
  pose proof (baseDelay_range _ (random_range (4 + randomCalls s))) as Hb.
  split; [reflexivity|]. split; [exact Hb|].
  unfold nextSpawnAfter in Hnext. rewrite Hactive in Hnext.
  unfold Rgtb in Hnext. destruct (Rlt_dec (nextSpawnTime s) time); [|lra].
  cbn [andb] in Hnext. eexists. split; [exact Hnext|].
  unfold finalDelayOf. destruct (handDataRef s) as [h|]; [|reflexivity].
  destruct (Gesture.eqb (HandData.gesture h) Gesture.Closed_Fist);
    [|reflexivity].
  cbn zeta. destruct (speed_parameter (HandData.velocity h)) as [-> Ht].
  split; [lra|]. nra.
Qed.

End Core.

(** ** The session *)

Section Session.

Import App.

Ltac app_simpl :=
  cbn beta iota delta
    [handData stats gameState timeLeft restartCooldown timerInterval
     cooldownInterval set_handData set_stats set_gameState set_timeLeft
     set_restartCooldown set_timerInterval set_cooldownInterval startGame]
    in *.

(** The effects start a game or leave the session state and the
    countdown alone. *)
Lemma effects_cases (prev cur : t) :
  let next := effects prev cur in
  (gameState next = gameState cur /\ timeLeft next = timeLeft cur /\
   stats next = stats cur /\ handData next = handData cur /\
   (restartCooldown next = restartCooldown cur \/
    gameState cur = RESULT /\ gameState prev <> RESULT /\
    restartCooldown next = 3%Z))
  \/
  (gameState next = PLAYING /\ timeLeft next = 30%Z /\
   stats next = GameStats.mk 0 0 0 /\ handData next = handData cur /\
   gestureOf cur = Some Gesture.Victory /\
   (gameState cur = MENU \/
    gameState cur = RESULT /\ restartCooldown cur = 0%Z) /\
   (gestureOf prev <> gestureOf cur \/ gameState prev <> gameState cur \/
    restartCooldown prev <> restartCooldown cur)).
Proof.
  cbn zeta. unfold effects.
  destruct (bool_decide_reflect (gameState prev = gameState cur)) as [Eg|Eg];
    cbn [negb];
    destruct (bool_decide_reflect (gestureOf cur = Some Gesture.Victory))
      as [Ev|Ev];
    destruct (bool_decide_reflect (gestureOf prev = gestureOf cur));
    destruct (Z.eqb_spec (restartCooldown prev) (restartCooldown cur));
    cbn [negb orb andb];
    destruct (gameState cur) eqn:Ec;
    try destruct (Z.eqb_spec (restartCooldown cur) 0);
    repeat (rewrite bool_decide_eq_false_2 by discriminate);
    repeat (rewrite bool_decide_eq_true_2 by reflexivity);
    app_simpl;
    try (left; repeat split; auto; fail);
    try (right; repeat split; auto; fail);
    left; repeat split; auto; right; repeat split; auto; congruence.
Qed.

(** After three rounds the effects have nothing left to do. *)
Lemma commit_settled (prev cur : t) :
  let e1 := effects prev cur in
  let e2 := effects cur e1 in
  commit prev cur = effects e1 e2 /\
  effects e2 (commit prev cur) = commit prev cur.
Proof.
  cbn zeta. split; [reflexivity|].
  unfold commit. cbn [settle].
  set (e1 := effects prev cur). set (e2 := effects cur e1).
  set (e3 := effects e1 e2).
  destruct (effects_cases prev cur) as [H1|H1];
    destruct (effects_cases cur e1) as [H2|H2];
    destruct (effects_cases e1 e2) as [H3|H3];
    cbn zeta in H1, H2, H3; fold e1 in H1, H2, H3; fold e2 in H2, H3;
    fold e3 in H3.
  all: assert (Hg : gestureOf e2 = gestureOf e3 /\
                    gestureOf e1 = gestureOf e2 /\
                    gestureOf cur = gestureOf e1)
    by (unfold gestureOf; intuition congruence).
  all: destruct Hg as (Hg3 & Hg2 & Hg1).
  all: unfold effects at 1.
  all: rewrite (bool_decide_eq_true_2 _ Hg3); cbn [negb orb].
  all: try (assert (Hs : gameState e2 = gameState e3 /\
                         restartCooldown e2 = restartCooldown e3);
            [ intuition congruence
            | destruct Hs as [Hs1 Hs2];
              rewrite (bool_decide_eq_true_2 _ Hs1), Hs2, Z.eqb_refl;
              reflexivity ]).
Qed.

(** When the gesture effect runs on a Victory gesture in [MENU], or in
    [RESULT] with no cooldown left, it starts a game. *)
Lemma effects_start (prev cur : t) :
  gestureOf cur = Some Gesture.Victory ->
  gestureOf prev <> gestureOf cur \/ gameState prev <> gameState cur \/
    restartCooldown prev <> restartCooldown cur ->
  gameState cur = MENU \/
    gameState cur = RESULT /\ restartCooldown cur = 0%Z ->
  gameState (effects prev cur) = PLAYING /\
  timeLeft (effects prev cur) = 30%Z /\
  stats (effects prev cur) = GameStats.mk 0 0 0.
Proof.
  intros Hv Hdeps Hstate.
  destruct (effects_cases prev cur)
    as [(Hg & _ & _ & _ & Hc)|(Hg & Ht & Hs & _)]; [|auto].
  exfalso. revert Hg Hc. cbn zeta. unfold effects.
  rewrite (bool_decide_eq_true_2 _ Hv), andb_true_r.
  destruct (bool_decide_reflect (gameState prev = gameState cur)) as [Eg|Eg];
    destruct (bool_decide_reflect (gestureOf prev = gestureOf cur));
    destruct (Z.eqb_spec (restartCooldown prev) (restartCooldown cur));
    cbn [negb orb andb];
    try (exfalso; intuition congruence);
    destruct Hstate as [Hm|[Hr H0]];
    rewrite ?Hm, ?Hr, ?H0; cbn [Z.eqb];
    repeat (rewrite bool_decide_eq_false_2 by discriminate);
    repeat (rewrite bool_decide_eq_true_2 by reflexivity);
    app_simpl; intros Hg Hc; try congruence.
Qed.

Lemma effects_playing (prev cur : t) :
  gameState cur = PLAYING ->
  gameState (effects prev cur) = PLAYING /\
  timeLeft (effects prev cur) = timeLeft cur /\
  stats (effects prev cur) = stats cur.
Proof.
  intros Hp.
  destruct (effects_cases prev cur)
    as [(Hg & Ht & Hs & _)|(_ & _ & _ & _ & _ & Hstate & _)].
  - rewrite Hg, Ht, Hs. auto.
  - exfalso. intuition congruence.
Qed.

(** A game in play stays as it is through the rounds of a commit. *)
Lemma settle_playing rounds : forall prev cur,
  gameState cur = PLAYING ->
  gameState (settle rounds prev cur) = PLAYING /\
  timeLeft (settle rounds prev cur) = timeLeft cur /\
  stats (settle rounds prev cur) = stats cur.
Proof.
  induction rounds as [|n IH]; intros prev cur Hp; cbn [settle]; [auto|].
  destruct (effects_playing prev cur Hp) as (Hg & Ht & Hs).
  destruct (IH cur (effects prev cur) Hg) as (Hg' & Ht' & Hs').
  rewrite Hg', Ht', Hs'. auto.
Qed.

(** The result screen with cooldown left. *)
Definition cooling (a : t) : Prop :=
  gameState a = RESULT /\ (0 < restartCooldown a)%Z.

Lemma effects_cooling (prev cur : t) :
  cooling cur -> cooling (effects prev cur).
Proof.
  intros [Hr Hc]. unfold cooling.
  destruct (effects_cases prev cur)
    as [(Hg & _ & _ & _ & Hcd)|(_ & _ & _ & _ & _ & Hstate & _)].
  - rewrite Hg. split; [exact Hr|]. destruct Hcd as [->|(_ & _ & ->)]; lia.
  - exfalso. destruct Hstate as [Hm|[_ H0]]; [congruence | lia].
Qed.

Lemma settle_cooling rounds : forall prev cur,
  cooling cur -> cooling (settle rounds prev cur).
Proof.
  induction rounds as [|n IH]; intros prev cur Hc; cbn [settle];
    [exact Hc|].
  apply IH, effects_cooling, Hc.
Qed.

(** C8.  While the session shows the result with cooldown left, no
    event puts it back into play: it stays in [RESULT] with cooldown
    left after every event except the tick that brings the cooldown to
    zero, in particular after a Victory gesture is detected.  With the
    cooldown at zero, detecting a Victory gesture in [RESULT] starts a
    game, and so does the tick that brings the cooldown to zero while a
    Victory gesture is held. *)
Theorem C8_replay_cooldown :
  (forall (a a' : t) (e : Event),
      gameState a = RESULT -> (0 < restartCooldown a)%Z ->
      (e = CooldownTick -> (1 < restartCooldown a)%Z) ->
      step e a = Some a' ->
      gameState a' = RESULT /\ (0 < restartCooldown a')%Z)
  /\
  (forall (a : t) (h : HandData.t),
      gameState a = RESULT -> (0 < restartCooldown a)%Z ->
      HandData.gesture h = Gesture.Victory ->
      exists a', step (Detect (Some h)) a = Some a' /\
                 gameState a' = RESULT /\
                 restartCooldown a' = restartCooldown a)
  /\
  (forall (a : t) (h : HandData.t),
      gameState a = RESULT -> restartCooldown a = 0%Z ->
      HandData.gesture h = Gesture.Victory ->
      gestureOf a <> Some Gesture.Victory ->
      exists a', step (Detect (Some h)) a = Some a' /\
                 gameState a' = PLAYING /\ timeLeft a' = 30%Z /\
                 stats a' = GameStats.mk 0 0 0)
  /\
  (forall (a : t),
      gameState a = RESULT -> restartCooldown a = 1%Z ->
      cooldownInterval a = true ->
      gestureOf a = Some Gesture.Victory ->
      exists a', step CooldownTick a = Some a' /\
                 gameState a' = PLAYING /\ timeLeft a' = 30%Z /\
                 stats a' = GameStats.mk 0 0 0).
Proof.
  split; [|split; [|split]].
  - intros a a' e Hr Hc Htick Hstep. unfold step in Hstep.
    destruct (handle e a) as [cur|] eqn:Hh; [|discriminate].
    cbn in Hstep. simplify_eq. apply (settle_cooling 3 a cur).
    unfold cooling. destruct e; cbn [handle] in Hh.
    + simplify_eq. app_simpl. auto.
    + destruct (timerInterval a); [|discriminate]. simplify_eq.
      destruct (timeLeft a <=? 1)%Z; app_simpl; auto.
    + destruct (cooldownInterval a); [|discriminate]. simplify_eq.
      specialize (Htick eq_refl).
      destruct (Z.leb_spec (restartCooldown a) 1); [lia|].
      app_simpl. split; [exact Hr | lia].
    + rewrite Hr in Hh. discriminate.
    + rewrite Hr in Hh.
      rewrite bool_decide_eq_true_2 in Hh by reflexivity.
      destruct (Z.eqb_spec (restartCooldown a) 0); [lia|].
      simplify_eq. auto.
    + simplify_eq. app_simpl. auto.
  - intros a h Hr Hc Hv. eexists. split; [reflexivity|].
    cbn [handle fmap option_fmap option_map]. unfold commit.
    cbn [settle].
    set (cur := set_handData (Some h) a).
    assert (Hcur : gameState cur = RESULT /\
                   restartCooldown cur = restartCooldown a)
      by (split; [exact Hr | reflexivity]).
    destruct Hcur as [Hr0 Hc0].
    assert (Hkeep : forall prev x,
              gameState x = RESULT ->
              restartCooldown x = restartCooldown a ->
              gameState prev = RESULT ->
              gameState (effects prev x) = RESULT /\
              restartCooldown (effects prev x) = restartCooldown a).
    { intros prev x Hx Hxc Hprev.
      destruct (effects_cases prev x)
        as [(Hg & _ & _ & _ & Hcd)|(_ & _ & _ & _ & _ & Hstate & _)].
      - rewrite Hg. split; [exact Hx|].
        destruct Hcd as [->|(_ & Hne & _)]; [exact Hxc | congruence].
      - exfalso. destruct Hstate as [Hm|[_ H0]]; [congruence | lia]. }
    destruct (Hkeep a cur Hr0 Hc0 Hr) as [Hr1 Hc1].
    destruct (Hkeep cur _ Hr1 Hc1 Hr0) as [Hr2 Hc2].
    destruct (Hkeep _ _ Hr2 Hc2 Hr1) as [Hr3 Hc3].
    auto.
  - intros a h Hr Hc Hv Hnv. eexists. split; [reflexivity|].
    cbn [handle fmap option_fmap option_map]. unfold commit.
    cbn [settle].
    set (cur := set_handData (Some h) a).
    assert (Hgv : gestureOf cur = Some Gesture.Victory)
      by (unfold gestureOf, cur; cbn; congruence).
    destruct (effects_start a cur Hgv) as (Hg & Ht & Hs).
    { left. congruence. }
    { right. split; [exact Hr | exact Hc]. }
    destruct (settle_playing 2 cur (effects a cur) Hg) as (Hg' & Ht' & Hs').
    cbn [settle] in Hg', Ht', Hs'. rewrite Hg', Ht', Hs'. auto.
  - intros a Hr Hc Hon Hv. unfold step. cbn [handle]. rewrite Hon, Hc.
    cbn [Z.leb Z.compare Pos.compare Pos.compare_cont fmap option_fmap
         option_map].
    eexists. split; [reflexivity|]. unfold commit. cbn [settle].
    set (cur := set_cooldownInterval false (set_restartCooldown 0 a)).
    assert (Hgv : gestureOf cur = Some Gesture.Victory) by exact Hv.
    destruct (effects_start a cur Hgv) as (Hg & Ht & Hs).
    { right. right. unfold cur. app_simpl. lia. }
    { right. split; [exact Hr | reflexivity]. }
    destruct (settle_playing 2 cur (effects a cur) Hg) as (Hg' & Ht' & Hs').
    cbn [settle] in Hg', Ht', Hs'. rewrite Hg', Ht', Hs'. auto.
Qed.

(** X10.  The result screen entered while a Victory gesture is held: the
    gesture effect of that render still reads the cooldown of the
    previous result screen. *)
Remark result_entered_with_victory_held (a : t) :
  gameState a = PLAYING -> timerInterval a = true ->
  (timeLeft a <= 1)%Z -> restartCooldown a = 0%Z ->
  gestureOf a = Some Gesture.Victory ->
  exists a', step TimerTick a = Some a' /\ gameState a' = PLAYING /\
             timeLeft a' = 30%Z.
Proof.
  intros Hp Hon Ht Hc Hv. unfold step. cbn [handle]. rewrite Hon.
  destruct (Z.leb_spec (timeLeft a) 1); [|lia].
  eexists. split; [reflexivity|]. unfold commit. cbn [settle].
  set (cur := set_gameState RESULT (set_timeLeft 0 a)).
  assert (Hgv : gestureOf cur = Some Gesture.Victory) by exact Hv.
  destruct (effects_start a cur Hgv) as (Hg & Ht' & _).
  { right. left. unfold cur. app_simpl. congruence. }
  { right. split; [reflexivity | exact Hc]. }
  destruct (settle_playing 2 cur (effects a cur) Hg) as (Hg' & Ht'' & _).
  cbn [settle] in Hg', Ht''. rewrite Hg', Ht''. auto.
Qed.

End Session.

(** ** Starting a session *)

Section Start.

(** The refs that a render of the scene cannot change: all but the
    stats, the hand snapshot and the active flag. *)
Definition kept_by_render (s : Scene) :=
  (sceneRef s, projectiles s, envelopes s, coins s, pool s,
   nextSpawnTime s, statsDirty s, pendingGesture s, stableGesture s,
   gestureFrameCount s, randomCalls s, trace s).

(** The stats ref of an active scene is the one of the reset. *)
Definition fresh_when_active (s : Scene) : Prop :=
  isGameActiveRef s = true -> gameState s = GameStats.mk 0 0 0.

Lemma renderProps_spec hand active s :
  let s' := renderProps hand active s in
  kept_by_render s' = kept_by_render s /\
  handDataRef s' = hand /\ isGameActiveRef s' = active /\
  (fresh_when_active s -> fresh_when_active s').
Proof.
  cbn zeta. unfold fresh_when_active.
  unfold renderProps, syncIsGameActive, syncHandData.
  cbn zeta. cbn [isGameActiveRef set_handDataRef].
  destruct (isGameActiveRef s) eqn:Ea; destruct active; cbn [Bool.eqb];
    cbn; rewrite ?Ea; repeat split; auto; discriminate.
Qed.

Lemma settlePage_spec rounds : forall prev cur sc,
  let p' := settlePage rounds prev cur sc in
  app p' = App.settle rounds prev cur /\
  kept_by_render (scene p') = kept_by_render sc /\
  handDataRef (scene p') = App.handData (app p') /\
  isGameActiveRef (scene p') = App.isGameActive (app p') /\
  (fresh_when_active sc -> fresh_when_active (scene p')).
Proof.
  induction rounds as [|n IH]; intros prev cur sc; cbn zeta;
    cbn [settlePage App.settle];
    destruct (renderProps_spec (App.handData cur) (App.isGameActive cur) sc)
      as (Hk0 & Hh0 & Ha0 & Hf0); cbn zeta in Hk0, Hh0, Ha0, Hf0.
  - cbn [app scene]. auto.
  - specialize (IH cur (App.effects prev cur)
                  (renderProps (App.handData cur) (App.isGameActive cur) sc)).
    cbn zeta in IH. destruct IH as (Hap & Hk & Hh & Ha & Hf).
    split; [exact Hap|]. split; [congruence|]. auto.
Qed.

(** A session in play began with the full countdown and no stats. *)
Definition started (a : App.t) : Prop :=
  App.gameState a = App.PLAYING ->
  App.timeLeft a = 30%Z /\ App.stats a = GameStats.mk 0 0 0.

Lemma handle_started e (a cur : App.t) :
  App.gameState a <> App.PLAYING ->
  App.handle e a = Some cur -> started cur.
Proof.
  intros Hnp Hh. unfold started.
  destruct e; cbn [App.handle] in Hh;
    repeat match type of Hh with
           | context [if ?b then _ else _] => destruct b
           end;
    simplify_eq; cbn; auto; try (intros; congruence).
Qed.

Lemma effects_started (prev cur : App.t) :
  started cur -> started (App.effects prev cur).
Proof.
  unfold started. intros Hs Hp.
  destruct (effects_cases prev cur)
    as [(Hg & Ht & Hst & _)|(_ & Ht & Hst & _)]; [|auto].
  rewrite Ht, Hst. apply Hs. congruence.
Qed.

Lemma settle_started rounds : forall prev cur,
  started cur -> started (App.settle rounds prev cur).
Proof.
  induction rounds as [|n IH]; intros prev cur Hs; cbn [App.settle];
    [exact Hs|].
  apply IH, effects_started, Hs.
Qed.

(** C10.  An event that takes the page from outside play into play
    (a first start or a replay) sets the countdown to 30 and the stats
    of the session and of the scene to zero.  In the scene it changes
    nothing else but the copies of the props: the projectiles, the
    envelopes, the coins and the particle pool (hence its active
    particles) are those of before the event. *)
Theorem C10_session_start (p p' : Page) (e : App.Event) :
  isGameActiveRef (scene p) = App.isGameActive (app p) ->
  App.gameState (app p) <> App.PLAYING ->
  pageStep e p = Some p' ->
  App.gameState (app p') = App.PLAYING ->
  App.timeLeft (app p') = 30%Z /\
  App.stats (app p') = GameStats.mk 0 0 0 /\
  gameState (scene p') = GameStats.mk 0 0 0 /\
  isGameActiveRef (scene p') = true /\
  projectiles (scene p') = projectiles (scene p) /\
  envelopes (scene p') = envelopes (scene p) /\
  coins (scene p') = coins (scene p) /\
  pool (scene p') = pool (scene p) /\
  kept_by_render (scene p') = kept_by_render (scene p).
Proof.
  intros Hsync Hnp Hstep Hplay. unfold pageStep in Hstep.
  destruct (App.handle e (app p)) as [cur|] eqn:Hh; [|discriminate].
  cbn in Hstep. simplify_eq.
  destruct (settlePage_spec 3 (app p) cur (scene p))
    as (Hap & Hk & _ & Ha & Hf).
  cbn zeta in Hap, Hk, Ha, Hf.
  set (p' := settlePage 3 (app p) cur (scene p)) in *.
  assert (Hstarted : started (app p')).
  { rewrite Hap. apply settle_started. eapply handle_started; eauto. }
  destruct (Hstarted Hplay) as [Ht Hs].
  assert (Hactive : isGameActiveRef (scene p') = true).
  { rewrite Ha. unfold App.isGameActive.
    apply bool_decide_eq_true_2. exact Hplay. }
  assert (Hfresh : fresh_when_active (scene p)).
  { unfold fresh_when_active. rewrite Hsync. unfold App.isGameActive.
    intros Hb. apply bool_decide_eq_true in Hb. contradiction. }
  split; [exact Ht|]. split; [exact Hs|].
  split; [exact (Hf Hfresh Hactive)|]. split; [exact Hactive|].
  assert (Hfields : projectiles (scene p') = projectiles (scene p) /\
                    envelopes (scene p') = envelopes (scene p) /\
                    coins (scene p') = coins (scene p) /\
                    pool (scene p') = pool (scene p))
    by (unfold kept_by_render in Hk; simplify_eq; repeat split; congruence).
  destruct Hfields as (H1 & H2 & H3 & H4).
  repeat split; assumption.
Qed.

End Start.


(** ** The hand tracker *)

Section Vision.

Import VisionService.
Local Open Scope R_scope.

Lemma wristVelocity_nonneg last wrist now :
  0 <= wristVelocity last wrist now.
Proof.
  unfold wristVelocity. destruct last as [l|]; [|lra]. cbn zeta.
  unfold Rgtb. destruct (Rlt_dec 0 (now - wrist_time l)) as [Hdt|_]; [|lra].
  apply Rmult_le_pos; [|lra].
  apply Rmult_le_pos; [apply sqrt_pos|].
  left. apply Rinv_0_lt_compat. exact Hdt.
Qed.

Lemma usedLandmarks_total (hand : list Landmark) :
  (21 <= length hand)%nat -> exists ls, usedLandmarks hand = Some ls.
Proof.
  intros Hlen. unfold usedLandmarks.
  repeat match goal with
         | |- context [hand !! ?i] =>
             let l := fresh "l" in
             destruct (lookup_lt_is_Some_2 hand i ltac:(lia)) as [l ->]
         end.
  eexists. reflexivity.
Qed.

Lemma usedLandmarks_short (hand : list Landmark) :
  (length hand < 21)%nat -> usedLandmarks hand = None.
Proof.
  intros Hlen. unfold usedLandmarks.
  rewrite (lookup_ge_None_2 hand 20) by lia.
  repeat match goal with
         | |- context [match ?o with Some _ => _ | None => _ end] =>
             destruct o
         end; reflexivity.
Qed.

(** X1.  The speed that [detect] publishes lies between 0 and 5, whatever the
    wrist did. *)
Theorem detect_velocity_capped (svc svc' : t) (result : Result) (now : R)
  (h : HandData.t) :
  detect svc result now = Some (Some h, svc') ->
  0 <= HandData.velocity h <= 5.
Proof.
  unfold detect. destruct (negb (handLandmarker svc)); [discriminate|].
  destruct (landmarks result) as [|hand rest]; [discriminate|].
  destruct (usedLandmarks hand) as [[[[[[[[[l0 l5] l8] l9] l12] l13] l16] l17] l20]|];
    [|discriminate].
  cbn zeta. destruct (wristDepth _); [|discriminate].
  intros H. simplify_eq. cbn [HandData.velocity].
  pose proof (wristVelocity_nonneg (lastWristPos svc) l0 now) as Hv.
  unfold Rmin. destruct (Rle_dec _ _); lra.
Qed.

(** X2.  [detect] publishes one of four labels: no pointing, thumb or shaka
    label ever leaves it.  A closed fist is four closed fingers, Victory
    is index and middle open with ring and pinky closed, an open palm is
    four open fingers. *)
Theorem detect_gesture_labels :
  (forall (svc svc' : t) (result : Result) (now : R) (h : HandData.t),
      detect svc result now = Some (Some h, svc') ->
      HandData.gesture h = Gesture.None \/
      HandData.gesture h = Gesture.Closed_Fist \/
      HandData.gesture h = Gesture.Victory \/
      HandData.gesture h = Gesture.Open_Palm)
  /\
  (forall i m r p : bool,
      (classify i m r p = Gesture.Closed_Fist <->
       i = false /\ m = false /\ r = false /\ p = false) /\
      (classify i m r p = Gesture.Victory <->
       i = true /\ m = true /\ r = false /\ p = false) /\
      (classify i m r p = Gesture.Open_Palm <->
       i = true /\ m = true /\ r = true /\ p = true)).
Proof.
  split.
  - intros svc svc' result now h. unfold detect.
    destruct (negb (handLandmarker svc)); [discriminate|].
    destruct (landmarks result) as [|hand rest]; [discriminate|].
    destruct (usedLandmarks hand)
      as [[[[[[[[[l0 l5] l8] l9] l12] l13] l16] l17] l20]|]; [|discriminate].
    cbn zeta. destruct (wristDepth _); [|discriminate].
    intros H. simplify_eq. cbn [HandData.gesture]. unfold classify.
    repeat match goal with
           | |- context [isFingerOpen ?a ?b ?c ?d] =>
               destruct (isFingerOpen a b c d)
           end; cbn; auto.
  - intros [] [] [] []; cbn; repeat split; intros; intuition congruence.
Qed.

(** X3.  After a frame without a hand the tracking starts afresh: the call
    returns [null] and the next hand is published with speed 0. *)
Theorem detect_after_lost_hand (svc svc1 svc2 : t) (r1 r2 : Result)
  (now1 now2 : R) (o : option HandData.t) (h : HandData.t) :
  landmarks r1 = [] ->
  detect svc r1 now1 = Some (o, svc1) ->
  detect svc1 r2 now2 = Some (Some h, svc2) ->
  o = None /\ lastWristPos svc1 = None /\ HandData.velocity h = 0.
Proof.
  intros Hlost H1 H2. unfold detect in H1. rewrite Hlost in H1.
  destruct (handLandmarker svc) eqn:Hinit; cbn [negb] in H1; simplify_eq.
  - split; [reflexivity|]. split; [reflexivity|].
    unfold detect in H2. cbn [handLandmarker lastWristPos] in H2.
    rewrite ?Hinit in H2. cbn [negb] in H2.
    destruct (landmarks r2) as [|hand rest]; [discriminate|].
    destruct (usedLandmarks hand)
      as [[[[[[[[[l0 l5] l8] l9] l12] l13] l16] l17] l20]|]; [|discriminate].
    cbn zeta in H2. destruct (wristDepth _); [|discriminate].
    simplify_eq. cbn [HandData.velocity wristVelocity].
    unfold Rmin. destruct (Rle_dec _ _); lra.
  - exfalso. unfold detect in H2. rewrite Hinit in H2. discriminate.
Qed.

(** X4.  A hand with its 21 landmarks (and, when world landmarks are given,
    a first world landmark) is published at the wrist's position and
    becomes the last wrist position; a hand with fewer landmarks makes
    the call fail; before [initialize] the call returns [null]. *)
Theorem detect_landmark_bounds (svc : t) (hand : list Landmark)
  (rest world : list (list Landmark)) (now : R) :
  let result := mkResult (hand :: rest) world in
  (handLandmarker svc = false -> detect svc result now = Some (None, svc))
  /\
  (handLandmarker svc = true -> (length hand < 21)%nat ->
   detect svc result now = None)
  /\
  (handLandmarker svc = true -> (21 <= length hand)%nat ->
   (forall w, world !! 0%nat = Some w -> w <> []) ->
   exists (h : HandData.t) (wrist : Landmark),
     hand !! 0%nat = Some wrist /\
     detect svc result now
       = Some (Some h, mk true (Some (mkWristPos (x wrist) (y wrist) now))) /\
     vx (HandData.position h) = x wrist /\
     vy (HandData.position h) = y wrist).
Proof.
  cbn zeta. split; [|split].
  - intros Hinit. unfold detect. rewrite Hinit. reflexivity.
  - intros Hinit Hshort. unfold detect. rewrite Hinit.
    cbn [negb landmarks]. rewrite usedLandmarks_short by exact Hshort.
    reflexivity.
  - intros Hinit Hlen Hworld. unfold detect. rewrite Hinit.
    cbn [negb landmarks worldLandmarks].
    destruct (usedLandmarks_total hand Hlen) as (ls & Hls).
    assert (H0 : exists wrist, hand !! 0%nat = Some wrist /\
                               fst (fst (fst (fst (fst (fst (fst (fst ls)))))))
                               = wrist).
    { unfold usedLandmarks in Hls.
      repeat match type of Hls with
             | context [hand !! ?i] => destruct (hand !! i)
             end; try discriminate.
      simplify_eq. eexists. split; reflexivity. }
    destruct H0 as (wrist & Hw & Hfst). rewrite Hls.
    destruct ls as [[[[[[[[l0 l5] l8] l9] l12] l13] l16] l17] l20].
    cbn [fst] in Hfst. subst l0. cbn zeta.
    assert (Hd : exists depth, wristDepth (world !! 0%nat) = Some depth).
    { unfold wristDepth. destruct (world !! 0%nat) as [w|] eqn:Ew;
        [|eexists; reflexivity].
      specialize (Hworld w eq_refl). destruct w as [|l w]; [congruence|].
      eexists. reflexivity. }
    destruct Hd as (depth & ->).
    eexists. exists wrist. split; [exact Hw|]. split; [reflexivity|].
    split; reflexivity.
Qed.

End Vision.

(** ** More of the session *)

Section SessionMore.

Import App.

Ltac app_simpl :=
  cbn beta iota delta
    [handData stats gameState timeLeft restartCooldown timerInterval
     cooldownInterval set_handData set_stats set_gameState set_timeLeft
     set_restartCooldown set_timerInterval set_cooldownInterval startGame]
    in *.

(** The same event [n] times in a row. *)
Fixpoint repeatEvent (e : Event) (n : nat) (a : t) : option t :=
  match n with
  | O => Some a
  | S k =>
      match step e a with
      | Some a' => repeatEvent e k a'
      | None => None
      end
  end.

Lemma repeatEvent_last (e : Event) (m : nat) : forall a,
  repeatEvent e (S m) a
  = match repeatEvent e m a with
    | Some a1 => step e a1
    | None => None
    end.
Proof.
  induction m as [|m IHm]; intros a.
  - cbn [repeatEvent]. destruct (step e a); reflexivity.
  - change (repeatEvent e (S (S m)) a)
      with (match step e a with
            | Some a' => repeatEvent e (S m) a'
            | None => None
            end).
    change (repeatEvent e (S m) a)
      with (match step e a with
            | Some a' => repeatEvent e m a'
            | None => None
            end).
    destruct (step e a); [apply IHm | reflexivity].
Qed.

(** Without a Victory gesture and without a change of screen the
    effects do nothing. *)
Lemma effects_quiet (prev cur : t) :
  gameState prev = gameState cur ->
  gestureOf cur <> Some Gesture.Victory \/ gameState cur = PLAYING ->
  effects prev cur = cur.
Proof.
  intros Hg Hq. unfold effects. rewrite Hg.
  rewrite (bool_decide_eq_true_2 (gameState cur = gameState cur) eq_refl).
  cbn [negb orb]. destruct Hq as [Hq|Hq].
  - rewrite (bool_decide_eq_false_2 _ Hq), andb_false_r. reflexivity.
  - rewrite Hq. destruct (_ && _); reflexivity.
Qed.

Lemma commit_quiet (prev cur : t) :
  gameState prev = gameState cur ->
  gestureOf cur <> Some Gesture.Victory \/ gameState cur = PLAYING ->
  commit prev cur = cur.
Proof.
  intros Hg Hq. unfold commit. cbn [settle].
  rewrite (effects_quiet prev cur Hg Hq).
  rewrite (effects_quiet cur cur eq_refl Hq).
  apply (effects_quiet cur cur eq_refl Hq).
Qed.

(** The commit of the render that enters the result screen, when no
    Victory gesture is held. *)
Lemma commit_game_over (a : t) :
  gameState a = PLAYING ->
  gestureOf a <> Some Gesture.Victory ->
  commit a (set_gameState RESULT (set_timeLeft 0 a))
  = set_restartCooldown 3
      (set_cooldownInterval true
         (set_timerInterval false (set_gameState RESULT (set_timeLeft 0 a)))).
Proof.
  intros Hp Hv. unfold commit. cbn [settle].
  set (cur := set_gameState RESULT (set_timeLeft 0 a)).
  assert (E1 : effects a cur
               = set_restartCooldown 3
                   (set_cooldownInterval true (set_timerInterval false cur))).
  { unfold effects. change (gameState cur) with RESULT. rewrite Hp.
    change (gestureOf cur) with (gestureOf a).
    rewrite (bool_decide_eq_false_2 (gestureOf a = Some Gesture.Victory) Hv).
    rewrite andb_false_r. reflexivity. }
  rewrite E1.
  set (e1 := set_restartCooldown 3
               (set_cooldownInterval true (set_timerInterval false cur))).
  assert (Hq : gestureOf e1 <> Some Gesture.Victory \/ gameState e1 = PLAYING)
    by (left; exact Hv).
  rewrite (effects_quiet cur e1 eq_refl Hq).
  apply (effects_quiet e1 e1 eq_refl Hq).
Qed.

Lemma countdown_running (n : nat) : forall (a : t) (k : nat),
  gameState a = PLAYING -> timerInterval a = true ->
  timeLeft a = Z.of_nat n -> (k < n)%nat ->
  repeatEvent TimerTick k a = Some (set_timeLeft (Z.of_nat (n - k)) a).
Proof.
  induction n as [|n IH]; intros a k Hp Hon Ht Hk; [lia|].
  destruct k as [|k].
  - cbn [repeatEvent]. rewrite Nat.sub_0_r, <- Ht. destruct a; reflexivity.
  - cbn [repeatEvent]. unfold step. cbn [handle]. rewrite Hon.
    destruct (Z.leb_spec (timeLeft a) 1); [lia|].
    cbn [fmap option_fmap option_map].
    rewrite commit_quiet; [|reflexivity | right; exact Hp].
    rewrite (IH (set_timeLeft (timeLeft a - 1) a) k); app_simpl;
      try assumption; try lia.
    replace (S n - S k)%nat with (n - k)%nat by lia. reflexivity.
Qed.

(** X5.  A game of [n] seconds: it is in play with the time counting down for
    [n - 1] ticks of the timer, and the [n]-th tick shows the result
    with the time at 0, the stats as they were, the timer cleared and a
    cooldown of 3 seconds running (no Victory gesture being held). *)
Theorem countdown_to_result (n : nat) (a : t) :
  gameState a = PLAYING -> timerInterval a = true ->
  timeLeft a = Z.of_nat n -> (1 <= n)%nat ->
  gestureOf a <> Some Gesture.Victory ->
  (forall k, (k < n)%nat ->
     exists a', repeatEvent TimerTick k a = Some a' /\
                gameState a' = PLAYING /\
                timeLeft a' = (Z.of_nat n - Z.of_nat k)%Z) /\
  exists a', repeatEvent TimerTick n a = Some a' /\
             gameState a' = RESULT /\ timeLeft a' = 0%Z /\
             stats a' = stats a /\
             restartCooldown a' = 3%Z /\ cooldownInterval a' = true /\
             timerInterval a' = false.
Proof.
  intros Hp Hon Ht Hn Hv. split.
  - intros k Hk. eexists. split; [apply (countdown_running n a k); auto|].
    app_simpl. split; [exact Hp | lia].
  - destruct n as [|n]; [lia|].
    rewrite repeatEvent_last, (countdown_running (S n) a n Hp Hon Ht) by lia.
    replace (S n - n)%nat with 1%nat by lia.
    unfold step. cbn [handle]. app_simpl. rewrite Hon.
    cbn [Z.of_nat Pos.of_succ_nat Z.leb Z.compare Pos.compare
         Pos.compare_cont fmap option_fmap option_map].
    rewrite commit_game_over; [|exact Hp | exact Hv].
    eexists. split; [reflexivity|]. app_simpl. repeat split; reflexivity.
Qed.

Lemma cooldown_running (n : nat) : forall (a : t) (k : nat),
  gameState a = RESULT -> cooldownInterval a = true ->
  restartCooldown a = Z.of_nat n -> (k < n)%nat ->
  gestureOf a <> Some Gesture.Victory ->
  repeatEvent CooldownTick k a
  = Some (set_restartCooldown (Z.of_nat (n - k)) a).
Proof.
  induction n as [|n IH]; intros a k Hr Hon Hc Hk Hv; [lia|].
  destruct k as [|k].
  - cbn [repeatEvent]. rewrite Nat.sub_0_r, <- Hc. destruct a; reflexivity.
  - cbn [repeatEvent]. unfold step. cbn [handle]. rewrite Hon.
    destruct (Z.leb_spec (restartCooldown a) 1); [lia|].
    cbn [fmap option_fmap option_map].
    rewrite commit_quiet; [|reflexivity | left; exact Hv].
    rewrite (IH (set_restartCooldown (restartCooldown a - 1) a) k);
      app_simpl; try assumption; try lia.
    replace (S n - S k)%nat with (n - k)%nat by lia. reflexivity.
Qed.

(** X6.  A cooldown of [n] seconds on the result screen: it is still running
    after fewer than [n] ticks, and the [n]-th tick brings it to 0 and
    clears its interval, so that no further tick can happen (no Victory
    gesture being held). *)
Theorem cooldown_to_zero (n : nat) (a : t) :
  gameState a = RESULT -> cooldownInterval a = true ->
  restartCooldown a = Z.of_nat n -> (1 <= n)%nat ->
  gestureOf a <> Some Gesture.Victory ->
  (forall k, (k < n)%nat ->
     exists a', repeatEvent CooldownTick k a = Some a' /\
                gameState a' = RESULT /\
                restartCooldown a' = (Z.of_nat n - Z.of_nat k)%Z /\
                cooldownInterval a' = true) /\
  exists a', repeatEvent CooldownTick n a = Some a' /\
             gameState a' = RESULT /\ restartCooldown a' = 0%Z /\
             cooldownInterval a' = false /\
             step CooldownTick a' = None.
Proof.
  intros Hr Hon Hc Hn Hv. split.
  - intros k Hk. eexists.
    split; [apply (cooldown_running n a k); auto|].
    app_simpl. split; [exact Hr|]. split; [lia | exact Hon].
  - destruct n as [|n]; [lia|].
    rewrite repeatEvent_last, (cooldown_running (S n) a n Hr Hon Hc) by
      (lia || exact Hv).
    replace (S n - n)%nat with 1%nat by lia.
    unfold step at 1. cbn [handle]. app_simpl. rewrite Hon.
    cbn [Z.of_nat Pos.of_succ_nat Z.leb Z.compare Pos.compare
         Pos.compare_cont fmap option_fmap option_map].
    rewrite commit_quiet; [|reflexivity | left; exact Hv].
    eexists. split; [reflexivity|]. app_simpl.
    split; [exact Hr|]. split; [reflexivity|]. split; [reflexivity|].
    reflexivity.
Qed.

(** A commit that starts a game from the menu or from the result
    screen. *)
Lemma commit_start (prev cur : t) :
  gestureOf cur = Some Gesture.Victory ->
  gestureOf prev <> gestureOf cur \/ gameState prev <> gameState cur \/
    restartCooldown prev <> restartCooldown cur ->
  gameState cur = MENU \/
    gameState cur = RESULT /\ restartCooldown cur = 0%Z ->
  let a' := commit prev cur in
  gameState a' = PLAYING /\ timeLeft a' = 30%Z /\
  stats a' = GameStats.mk 0 0 0 /\ timerInterval a' = true /\
  cooldownInterval a' = false.
Proof.
  intros Hv Hdeps Hstate. cbn zeta. unfold commit. cbn [settle].
  destruct (effects_start prev cur Hv Hdeps Hstate) as (Hg & Ht & Hs).
  set (e1 := effects prev cur) in *.
  assert (Hne : gameState cur <> PLAYING)
    by (destruct Hstate as [->|[-> _]]; discriminate).
  assert (E2 : effects cur e1
               = set_cooldownInterval false (set_timerInterval true e1)).
  { unfold effects. rewrite Hg.
    rewrite (bool_decide_eq_false_2 (gameState cur = PLAYING) Hne).
    cbn [negb orb andb].
    rewrite (bool_decide_eq_true_2 (PLAYING = PLAYING) eq_refl).
    rewrite (bool_decide_eq_false_2 (PLAYING = RESULT)) by discriminate.
    destruct (_ && _); reflexivity. }
  rewrite E2.
  rewrite effects_quiet; [|reflexivity | right; app_simpl; exact Hg].
  app_simpl. auto.
Qed.

(** X7.  From the menu, the start button and a newly seen Victory gesture
    both start a game of 30 seconds with fresh stats and the timer set;
    any other gesture leaves the menu on. *)
Theorem menu_start (a : t) (h : HandData.t) :
  gameState a = MENU ->
  gestureOf a <> Some Gesture.Victory ->
  (exists a', step ClickStart a = Some a' /\
              gameState a' = PLAYING /\ timeLeft a' = 30%Z /\
              stats a' = GameStats.mk 0 0 0 /\ timerInterval a' = true)
  /\
  (HandData.gesture h = Gesture.Victory ->
   exists a', step (Detect (Some h)) a = Some a' /\
              gameState a' = PLAYING /\ timeLeft a' = 30%Z /\
              stats a' = GameStats.mk 0 0 0 /\ timerInterval a' = true)
  /\
  (HandData.gesture h <> Gesture.Victory ->
   step (Detect (Some h)) a = Some (set_handData (Some h) a)).
Proof.
  intros Hm Hnv. split; [|split].
  - unfold step. cbn [handle]. rewrite Hm.
    rewrite (bool_decide_eq_true_2 (MENU = MENU) eq_refl).
    cbn [fmap option_fmap option_map]. eexists. split; [reflexivity|].
    unfold commit. cbn [settle].
    set (cur := startGame a).
    assert (E1 : effects a cur
                 = set_cooldownInterval false (set_timerInterval true cur)).
    { unfold effects. change (gameState cur) with PLAYING. rewrite Hm.
      rewrite (bool_decide_eq_false_2 (MENU = PLAYING)) by discriminate.
      cbn [negb orb andb].
      rewrite (bool_decide_eq_true_2 (PLAYING = PLAYING) eq_refl).
      rewrite (bool_decide_eq_false_2 (PLAYING = RESULT)) by discriminate.
      destruct (_ && _); reflexivity. }
    rewrite E1.
    rewrite (effects_quiet cur); [|reflexivity | right; reflexivity].
    rewrite effects_quiet; [|reflexivity | right; reflexivity].
    app_simpl. auto.
  - intros Hv. unfold step. cbn [handle fmap option_fmap option_map].
    eexists. split; [reflexivity|].
    destruct (commit_start a (set_handData (Some h) a))
      as (Hg & Ht & Hs & Hti & _).
    + unfold gestureOf. cbn. congruence.
    + left. unfold gestureOf at 2. cbn. congruence.
    + left. exact Hm.
    + auto.
  - intros Hv. unfold step. cbn [handle fmap option_fmap option_map].
    rewrite commit_quiet; [reflexivity | reflexivity |].
    left. unfold gestureOf. cbn. congruence.
Qed.

(** X8.  While a game is in play only the timer moves the session: every
    other event that can happen leaves the screen, the time left and the
    cooldown as they are.  In particular no gesture restarts or ends a
    game in play. *)
Theorem play_only_ends_by_timer (a a' : t) (e : Event) :
  gameState a = PLAYING -> e <> TimerTick ->
  step e a = Some a' ->
  gameState a' = PLAYING /\ timeLeft a' = timeLeft a.
Proof.
  intros Hp He Hstep. unfold step in Hstep.
  destruct (handle e a) as [cur|] eqn:Hh; [|discriminate].
  cbn [fmap option_fmap option_map] in Hstep. simplify_eq.
  assert (Hcur : gameState cur = PLAYING /\ timeLeft cur = timeLeft a).
  { destruct e; cbn [handle] in Hh; try congruence.
    - simplify_eq. app_simpl. auto.
    - destruct (cooldownInterval a); [|discriminate].
      destruct (restartCooldown a <=? 1)%Z; simplify_eq; app_simpl; auto.
    - rewrite Hp in Hh. discriminate.
    - rewrite Hp in Hh. discriminate.
    - simplify_eq. app_simpl. auto. }
  destruct Hcur as [Hg Ht]. unfold commit.
  destruct (settle_playing 3 a cur Hg) as (Hg' & Ht' & _).
  split; [exact Hg' | congruence].
Qed.

(** What holds of the session between two events. *)
Definition settled (a : t) : Prop :=
  (timerInterval a = true <-> gameState a = PLAYING) /\
  (cooldownInterval a = true <->
   gameState a = RESULT /\ (1 <= restartCooldown a)%Z) /\
  (0 <= restartCooldown a <= 3)%Z /\
  (0 <= timeLeft a <= 30)%Z /\
  (gameState a = PLAYING -> (1 <= timeLeft a)%Z) /\
  (gestureOf a = Some Gesture.Victory ->
   gameState a = PLAYING \/
   gameState a = RESULT /\ (1 <= restartCooldown a)%Z).

(** The events of a list, one after the other. *)
Fixpoint runEvents (es : list Event) (a : t) : option t :=
  match es with
  | [] => Some a
  | e :: es' =>
      match step e a with
      | Some a' => runEvents es' a'
      | None => None
      end
  end.

Ltac app_eval H :=
  cbv beta iota zeta delta
    [effects gestureOf startGame handData stats gameState timeLeft
     restartCooldown timerInterval cooldownInterval set_handData set_stats
     set_gameState set_timeLeft set_restartCooldown set_timerInterval
     set_cooldownInterval negb orb andb] in H.

Ltac split_test H :=
  match type of H with
  | context [bool_decide (?x = ?x)] =>
      rewrite (bool_decide_eq_true_2 (x = x) eq_refl) in H
  | context [(?x =? ?x)%Z] => rewrite (Z.eqb_refl x) in H
  | context [bool_decide (?x = ?y)] =>
      destruct (bool_decide_reflect (x = y)); try discriminate
  | context [(?x =? ?y)%Z] => destruct (Z.eqb_spec x y); try lia
  | context [(?x <=? ?y)%Z] => destruct (Z.leb_spec x y); try lia
  end; app_eval H.

(** One round of effects on explicit states. *)
Ltac round :=
  match goal with
  | |- context [effects (mk ?a1 ?a2 ?a3 ?a4 ?a5 ?a6 ?a7)
                        (mk ?b1 ?b2 ?b3 ?b4 ?b5 ?b6 ?b7)] =>
      let e := fresh "e" in
      let H := fresh "H" in
      remember (effects (mk a1 a2 a3 a4 a5 a6 a7)
                        (mk b1 b2 b3 b4 b5 b6 b7)) as e eqn:H;
      app_eval H; repeat split_test H; subst e
  end.

Lemma step_settled (e : Event) (a a' : t) :
  settled a -> step e a = Some a' -> settled a'.
Proof.
  intros Hs Hstep. unfold step in Hstep.
  destruct (handle e a) as [cur|] eqn:Hh; [|discriminate].
  cbn [fmap option_fmap option_map] in Hstep. simplify_eq.
  destruct a as [hd st gs tl rc ti ci].
  unfold settled in Hs. unfold gestureOf in Hs. cbn in Hs.
  destruct Hs as (Hti & Hci & Hrc & Htl & Hpl & Hv).
  destruct gs, ti, ci;
    try (exfalso; clear Hh; intuition (discriminate || lia); fail).
  all: destruct e; cbn [handle] in Hh; app_eval Hh.
  all: repeat match type of Hh with
       | context [bool_decide (?x = ?y)] =>
           destruct (bool_decide_reflect (x = y)); try discriminate
       | context [(?x =? ?y)%Z] => destruct (Z.eqb_spec x y)
       | context [(?x <=? ?y)%Z] => destruct (Z.leb_spec x y)
       end.
  all: try discriminate.
  all: injection Hh as <-.
  all: cbv beta iota delta [commit settle].
  all: round; round; round.
  all: cbv beta iota delta [settled gestureOf handData stats gameState
         timeLeft restartCooldown timerInterval cooldownInterval].
  all: try (clear Hv; intuition (discriminate || lia || congruence); fail).
  all: repeat match goal with |- _ /\ _ => split end;
         try (clear Hv; intuition (discriminate || lia); fail).
  all: intros Hg; apply Hv; congruence.
Qed.

(** X9.  The session keeps its intervals, its counters and its screen in
    step: whatever events happen from the first render on, between two
    events the timer is set exactly in [PLAYING]; the cooldown interval
    is set exactly on a result screen whose cooldown has not run out (so
    a disabled replay button is always on its way to being enabled); the
    cooldown is within 0..3 and the time left within 0..30, at least 1
    in play; and a Victory gesture is never left held on the menu or on
    a result screen without cooldown: there it has started a game. *)
Theorem session_invariant (es : list Event) (a : t) :
  runEvents es initial = Some a -> settled a.
Proof.
  assert (Hgen : forall es a0, settled a0 -> runEvents es a0 = Some a ->
                               settled a).
  { clear es. induction es as [|e es IH]; intros a0 H0 Hrun;
      cbn [runEvents] in Hrun.
    - congruence.
    - destruct (step e a0) as [a1|] eqn:Hstep; [|discriminate].
      exact (IH a1 (step_settled e a0 a1 H0 Hstep) Hrun). }
  apply Hgen. unfold settled, initial, gestureOf. cbn.
  intuition (discriminate || lia).
Qed.

End SessionMore.

(** ** More of the page *)

Section PageMore.

(** A render that passes [isGameActive = false] down leaves the stats
    ref of the scene alone. *)
Lemma renderProps_inactive hand s :
  gameState (renderProps hand false s) = gameState s.
Proof.
  unfold renderProps, syncIsGameActive, syncHandData. cbn zeta.
  destruct (Bool.eqb _ false); reflexivity.
Qed.

Lemma settlePage_inactive rounds : forall prev cur sc,
  App.gameState cur <> App.PLAYING ->
  App.gestureOf cur <> Some Gesture.Victory ->
  gameState (scene (settlePage rounds prev cur sc)) = gameState sc.
Proof.
  induction rounds as [|n IH]; intros prev cur sc Hnp Hnv;
    cbn [settlePage];
    assert (Hoff : App.isGameActive cur = false)
      by (apply bool_decide_eq_false_2; exact Hnp);
    rewrite Hoff.
  - cbn [scene]. apply renderProps_inactive.
  - destruct (effects_cases prev cur)
      as [(Hg & _ & _ & Hh & _)|(_ & _ & _ & _ & Hv & _)];
      [|contradiction].
    cbn zeta in Hg, Hh.
    rewrite IH; [apply renderProps_inactive | congruence |].
    unfold App.gestureOf in *. congruence.
Qed.

(** X11.  Game over, seen from the scene: the tick of the timer that ends
    the game (no Victory gesture being held) shows the result screen
    and switches the scene off, and what the scene holds stays: its
    stats ref, its projectiles, envelopes and coins, its pool.  The
    stats that [App] shows are the ones last reported. *)
Theorem page_game_over (p : Page) :
  App.gameState (app p) = App.PLAYING ->
  App.timerInterval (app p) = true ->
  (App.timeLeft (app p) <= 1)%Z ->
  App.gestureOf (app p) <> Some Gesture.Victory ->
  exists p',
    pageStep App.TimerTick p = Some p' /\
    App.gameState (app p') = App.RESULT /\
    App.stats (app p') = App.stats (app p) /\
    isGameActiveRef (scene p') = false /\
    gameState (scene p') = gameState (scene p) /\
    kept_by_render (scene p') = kept_by_render (scene p).
Proof.
  intros Hp Hon Ht Hnv. unfold pageStep. cbn [App.handle].
  rewrite Hon. destruct (Z.leb_spec (App.timeLeft (app p)) 1); [|lia].
  cbn [fmap option_fmap option_map]. eexists. split; [reflexivity|].
  set (cur := App.set_gameState App.RESULT (App.set_timeLeft 0 (app p))).
  destruct (settlePage_spec 3 (app p) cur (scene p))
    as (Happ & Hk & _ & Ha & _). cbn zeta in Happ, Hk, Ha.
  rewrite Ha, Happ. fold (App.commit (app p) cur). unfold cur.
  rewrite (commit_game_over (app p) Hp Hnv).
  split; [reflexivity|]. split; [reflexivity|]. split; [reflexivity|].
  split; [|exact Hk].
  apply settlePage_inactive; [discriminate | exact Hnv].
Qed.

End PageMore.

(** ** More of the scene *)

Section SceneMore.

Local Open Scope R_scope.

Variable env : Collaborators.

Local Abbreviation random := (env_random env).
Local Abbreviation project := (env_project env).
Local Abbreviation hexToRGB := (env_hexToRGB env).

Hypothesis random_range : forall n, (0 <= random n < 1)%R.

Ltac wp_step :=
  lazymatch goal with
  | |- wp (mbind _ _) _ _ => apply (proj2 (wp_bind _ _ _ _))
  | |- wp (gets _) _ _ => apply (proj2 (wp_gets _ _ _))
  | |- wp (modify _) _ _ => apply (proj2 (wp_modify _ _ _))
  | |- wp (log _) _ _ => apply (proj2 (wp_log _ _ _))
  | |- wp (Math_random _) _ _ => apply (proj2 (wp_random _ _ _))
  | |- wp (mret _) _ _ => apply (proj2 (wp_ret _ _ _))
  | |- wp (when true _) _ _ => apply (proj2 (wp_when_true _ _ _))
  | |- wp (when false _) _ _ => apply (proj2 (wp_when_false _ _ _))
  end; cbn beta iota delta [negb andb orb].

Ltac wp_start := cbn beta iota delta [negb andb orb].

Ltac wp_simpl := wp_start; repeat wp_step.

Ltac scene_simpl :=
  cbn beta iota delta
    [sceneRef projectiles envelopes coins pool nextSpawnTime gameState
     statsDirty pendingGesture stableGesture gestureFrameCount handDataRef
     isGameActiveRef randomCalls trace
     set_sceneRef set_projectiles set_envelopes set_coins set_pool
     set_nextSpawnTime set_gameState set_statsDirty set_pendingGesture
     set_stableGesture set_gestureFrameCount set_handDataRef
     set_isGameActiveRef set_randomCalls set_trace
     particlePositions particleColors particleSizes particlesData
     GameStats.exploded GameStats.consumed GameStats.coins
     req_pos req_color req_vel req_life req_decay req_size] in *.

Ltac fields :=
  unfold control_of, frame_of in *; scene_simpl; simplify_eq;
  repeat match goal with |- _ /\ _ => split end;
  try assumption; try congruence.

(** *** The search for a free slot *)

Lemma findInactive_found data start n : forall i r,
  findInactive data start i n = Some r -> r <> (-1)%Z ->
  exists p, lookupZ data r = Some p /\ ParticleData.active p = false.
Proof.
  induction n as [|n IH]; intros i r Hf Hr; cbn [findInactive] in Hf.
  - congruence.
  - cbn zeta in Hf.
    destruct (lookupZ data (Z.rem (start + i) MAX_PARTICLES)) as [p|] eqn:Hp;
      [|discriminate].
    destruct (ParticleData.active p) eqn:Ha.
    + exact (IH _ _ Hf Hr).
    + simplify_eq. eauto.
Qed.

Lemma findInactive_probed data start n : forall i,
  findInactive data start i n = Some (-1)%Z ->
  (0 <= start)%Z -> (0 <= i)%Z ->
  forall k, (i <= k < i + Z.of_nat n)%Z ->
  exists p, lookupZ data (Z.rem (start + k) MAX_PARTICLES) = Some p /\
            ParticleData.active p = true.
Proof.
  induction n as [|n IH]; intros i Hf Hs Hi k Hk; [lia|].
  cbn [findInactive] in Hf. cbn zeta in Hf.
  destruct (lookupZ data (Z.rem (start + i) MAX_PARTICLES)) as [p|] eqn:Hp;
    [|discriminate].
  destruct (ParticleData.active p) eqn:Ha.
  - destruct (Z.eq_dec k i) as [->|Hne]; [eauto|].
    apply (IH (i + 1)%Z Hf Hs); lia.
  - pose proof (probe_in_range start i Hs Hi). simplify_eq. lia.
Qed.

(** The probes of a whole search visit every slot. *)
Lemma findInactive_finds data start (j : nat) p :
  (0 <= start)%Z ->
  (j < Z.to_nat MAX_PARTICLES)%nat ->
  data !! j = Some p -> ParticleData.active p = false ->
  findInactive data start 0 (Z.to_nat MAX_PARTICLES) <> Some (-1)%Z.
Proof.
  intros Hs Hj Hp Ha Hf.
  set (k := ((Z.of_nat j - start) mod MAX_PARTICLES)%Z).
  assert (Hk : (0 <= k < MAX_PARTICLES)%Z)
    by (apply Z.mod_pos_bound; unfold MAX_PARTICLES; lia).
  destruct (findInactive_probed data start _ 0%Z Hf Hs ltac:(lia) k)
    as (q & Hq & Hqa); [unfold MAX_PARTICLES in *; lia|].
  assert (Hidx : Z.rem (start + k) MAX_PARTICLES = Z.of_nat j).
  { rewrite Z.rem_mod_nonneg by (unfold MAX_PARTICLES; lia).
    unfold k. rewrite Zplus_mod_idemp_r.
    replace (start + (Z.of_nat j - start))%Z with (Z.of_nat j) by lia.
    apply Z.mod_small. unfold MAX_PARTICLES in *. lia. }
  rewrite Hidx in Hq. unfold lookupZ in Hq.
  destruct (Z.ltb_spec (Z.of_nat j) 0); [lia|].
  rewrite Nat2Z.id in Hq. congruence.
Qed.

Lemma filter_insert_activates {A} (f : A -> bool) (l : list A) i x y :
  l !! i = Some x -> f x = false -> f y = true ->
  length (List.filter f (<[i := y]> l)) = S (length (List.filter f l)).
Proof.
  intros Hx Hfx Hfy.
  rewrite <- (take_drop_middle l i x Hx) at 2.
  rewrite insert_take_drop by (eapply lookup_lt_Some; exact Hx).
  rewrite !List.filter_app. cbn [List.filter]. rewrite Hfx, Hfy.
  rewrite !length_app. cbn [length]. lia.
Qed.

Lemma spawnParticle_free_spec pos colorHex vel life decay size s :
  wf_pool (pool s) -> ~ all_active (pool s) ->
  wp (spawnParticle env pos colorHex vel life decay size)
     (fun _ s' =>
        exists (i : nat) p,
          (i < Z.to_nat MAX_PARTICLES)%nat /\
          particlesData (pool s) !! i = Some p /\
          ParticleData.active p = false /\
          pool s' =
            activate (hexToRGB colorHex) (Z.of_nat i)
              (mkRequest pos colorHex vel life decay size) (pool s) /\
          particlesData (pool s') !! i =
            Some (ParticleData.mk true life vel decay size) /\
          (forall j, j <> i ->
             particlesData (pool s') !! j = particlesData (pool s) !! j) /\
          active_count (pool s') = S (active_count (pool s))) s.
Proof.
  intros Hwf Hfree. unfold spawnParticle. wp_simpl.
  cbn [pool randomCalls set_randomCalls set_trace].
  set (start := Math_floor (random (randomCalls s) * IZR MAX_PARTICLES)).
  assert (Hstart : (0 <= start)%Z) by apply start_in_range, random_range.
  destruct (findInactive_returns (particlesData (pool s)) start
              (Z.to_nat MAX_PARTICLES) 0%Z) as (r & Hfind & Hr);
    [apply Hwf | exact Hstart | lia |].
  rewrite Hfind.
  assert (Hr1 : r <> (-1)%Z).
  { intros ->. apply Hfree. unfold all_active. apply Forall_lookup.
    intros j q Hq. destruct (ParticleData.active q) eqn:Ha; [reflexivity|].
    exfalso. eapply (findInactive_finds _ start j q); eauto.
    destruct Hwf as [<- _]. eapply lookup_lt_Some; exact Hq. }
  destruct (findInactive_found _ _ _ _ _ Hfind Hr1) as (p & Hp & Ha).
  destruct Hr as [Hr|Hr]; [congruence|].
  destruct (Z.eqb_spec r (-1)); [congruence|]. wp_simpl. scene_simpl.
  unfold lookupZ in Hp. destruct (Z.ltb_spec r 0); [lia|].
  exists (Z.to_nat r), p. rewrite Z2Nat.id by lia.
  split; [unfold MAX_PARTICLES in *; lia|]. split; [exact Hp|].
  split; [exact Ha|]. split; [reflexivity|].
  assert (Hlt : (Z.to_nat r < length (particlesData (pool s)))%nat)
    by (eapply lookup_lt_Some; exact Hp).
  unfold activate. destruct (hexToRGB colorHex) as [[cr cg] cb].
  scene_simpl. split; [apply list_lookup_insert_eq; exact Hlt|].
  split; [intros j Hj; apply list_lookup_insert_ne; congruence|].
  unfold active_count. scene_simpl.
  apply (filter_insert_activates _ _ _ p); auto.
Qed.

(** X12.  With a free slot in the pool, [spawnParticle] takes one: a slot
    that was inactive holds the requested particle afterwards, every
    other slot is as before, and one more slot is active. *)
Theorem spawnParticle_takes_free_slot pos colorHex vel life decay size s :
  wf_pool (pool s) -> ~ all_active (pool s) ->
  wp (spawnParticle env pos colorHex vel life decay size)
     (fun _ s' =>
        exists (i : nat) p,
          (i < Z.to_nat MAX_PARTICLES)%nat /\
          particlesData (pool s) !! i = Some p /\
          ParticleData.active p = false /\
          pool s' =
            activate (hexToRGB colorHex) (Z.of_nat i)
              (mkRequest pos colorHex vel life decay size) (pool s) /\
          particlesData (pool s') !! i =
            Some (ParticleData.mk true life vel decay size) /\
          (forall j, j <> i ->
             particlesData (pool s') !! j = particlesData (pool s) !! j) /\
          active_count (pool s') = S (active_count (pool s))) s.
Proof.
  intros Hwf Hfree. apply spawnParticle_free_spec; assumption.
Qed.
(** *** Invariants of the frame loop

    Partial correctness: what holds of the result when [m] returns. *)

Definition pc {A} (m : M A) (Q : A -> Scene -> Prop) (s : Scene) : Prop :=
  match m s with
  | Some (a, s') => Q a s'
  | None => True
  end.

Lemma pc_bind {A B} (m : M A) (k : A -> M B) Q s :
  pc (m ≫= k) Q s <-> pc m (fun a s' => pc (k a) Q s') s.
Proof.
  unfold pc, mbind, M_bind. destruct (m s) as [[a s']|]; reflexivity.
Qed.

Lemma pc_mono {A} (m : M A) (Q Q' : A -> Scene -> Prop) s :
  pc m Q s -> (forall a s', Q a s' -> Q' a s') -> pc m Q' s.
Proof.
  unfold pc. destruct (m s) as [[a s']|]; [auto | tauto].
Qed.

Lemma wp_pc {A} (m : M A) (Q : A -> Scene -> Prop) s : wp m Q s -> pc m Q s.
Proof.
  unfold wp, pc. destruct (m s) as [[a s']|]; tauto.
Qed.

Lemma wp_pc_conj {A} (m : M A) (Q Q' : A -> Scene -> Prop) s :
  wp m Q s -> pc m Q' s -> wp m (fun a s' => Q a s' /\ Q' a s') s.
Proof.
  unfold wp, pc. destruct (m s) as [[a s']|]; tauto.
Qed.

Lemma pc_for_each {A} (J : Scene -> Prop) (l : list A) body s :
  (forall x s1, J s1 -> pc (body x) (fun _ => J) s1) ->
  J s -> pc (for_each l body) (fun _ => J) s.
Proof.
  revert s. induction l as [|x l IH]; intros s Hbody HJ; cbn [for_each].
  - exact HJ.
  - apply pc_bind. eapply pc_mono; [apply Hbody; exact HJ|].
    intros [] s1 H1. apply IH; assumption.
Qed.

Lemma pc_ret {A} (a : A) Q s : pc (mret a) Q s <-> Q a s.
Proof. reflexivity. Qed.

Lemma pc_gets {A} (f : Scene -> A) Q s : pc (gets f) Q s <-> Q (f s) s.
Proof. reflexivity. Qed.

Lemma pc_modify f Q s : pc (modify f) Q s <-> Q tt (f s).
Proof. reflexivity. Qed.

Lemma pc_log e Q s :
  pc (log e) Q s <-> Q tt (set_trace (trace s ++ [e]) s).
Proof. reflexivity. Qed.

Lemma pc_random Q s :
  pc (Math_random env) Q s <->
  Q (random (randomCalls s)) (set_randomCalls (S (randomCalls s)) s).
Proof. reflexivity. Qed.

Lemma pc_when_true (m : M unit) Q s : pc (when true m) Q s <-> pc m Q s.
Proof. reflexivity. Qed.

Lemma pc_when_false (m : M unit) Q s : pc (when false m) Q s <-> Q tt s.
Proof. reflexivity. Qed.

Lemma pc_throw {A} (Q : A -> Scene -> Prop) s : pc throw Q s.
Proof. exact I. Qed.

Ltac pc_step :=
  lazymatch goal with
  | |- pc (mbind _ _) _ _ => apply (proj2 (pc_bind _ _ _ _))
  | |- pc (gets _) _ _ => apply (proj2 (pc_gets _ _ _))
  | |- pc (modify _) _ _ => apply (proj2 (pc_modify _ _ _))
  | |- pc (log _) _ _ => apply (proj2 (pc_log _ _ _))
  | |- pc (Math_random _) _ _ => apply (proj2 (pc_random _ _))
  | |- pc (mret _) _ _ => apply (proj2 (pc_ret _ _ _))
  | |- pc (when true _) _ _ => apply (proj2 (pc_when_true _ _ _))
  | |- pc (when false _) _ _ => apply (proj2 (pc_when_false _ _ _))
  | |- pc throw _ _ => apply pc_throw
  end; cbn beta iota delta [negb andb orb].

Ltac pc_simpl := cbn beta iota delta [negb andb orb]; repeat pc_step.

(** Every event but the report of the stats. *)
Definition notReport (e : Event) : Prop :=
  match e with
  | StatsUpdate _ => False
  | _ => True
  end.

(** The trace of [s'] is that of [s], but for one event at most, which
    is no report of the stats. *)
Definition quiet (s s' : Scene) : Prop :=
  trace s' = trace s \/
  exists e, trace s' = trace s ++ [e] /\ notReport e.

(** What every particle request of the component satisfies: a life of
    at most 1.5, a decay between 0.01 and 0.03, a positive size. *)
Definition goodRequest (r : ParticleRequest) : Prop :=
  0 < req_life r <= 1.5 /\ 0.01 <= req_decay r <= 0.03 /\ 0 < req_size r.

(** An invariant [J] of the scene that looks at the pool, at the stats
    refs and at the trace only, and that the writes of the loop to them
    keep: an audio cue or a particle request in the trace, the
    activation of an inactive slot for a request of the component, the
    step of an active slot, and the three updates of the stats, each
    followed by the dirty flag. *)
Section Invariant.

Variable J : Scene -> Prop.

Hypothesis J_other : forall s s',
  J s ->
  (pool s', gameState s', statsDirty s')
  = (pool s, gameState s, statsDirty s) ->
  quiet s s' ->
  J s'.

Hypothesis J_activate : forall s rgb i r p,
  J s -> goodRequest r ->
  lookupZ (particlesData (pool s)) i = Some p ->
  ParticleData.active p = false ->
  J (set_pool (activate rgb i r (pool s)) s).

Hypothesis J_step : forall s sec i p,
  J s -> particlesData (pool s) !! i = Some p ->
  ParticleData.active p = true ->
  J (set_pool (stepParticle sec i p (pool s)) s).

Hypothesis J_exploded : forall s, J s -> J (bumpExploded s).

Hypothesis J_consumed : forall s,
  J s -> (1 <= charges (gameState s))%Z -> J (debit s).

Hypothesis J_coins : forall s v,
  J s -> (0 <= v)%Z ->
  J (set_statsDirty true (set_gameState (addCoins v (gameState s)) s)).

Ltac other :=
  eapply J_other;
  [ eassumption
  | reflexivity
  | first [ left; reflexivity
          | right; eexists; split; [reflexivity | exact I] ] ].

Lemma spawnParticle_keeps pos colorHex vel life decay size s :
  goodRequest (mkRequest pos colorHex vel life decay size) ->
  J s ->
  pc (spawnParticle env pos colorHex vel life decay size) (fun _ => J) s.
Proof.
  intros Hgood HJ. unfold spawnParticle. pc_simpl.
  cbn [pool randomCalls set_randomCalls set_trace].
  destruct (findInactive _ _ _ _) as [r|] eqn:Hfind; [|apply pc_throw].
  destruct (Z.eqb_spec r (-1)); pc_simpl; [other|].
  destruct (findInactive_found _ _ _ _ _ Hfind n) as (p & Hp & Ha).
  apply (J_activate _ _ _ _ p); [other | exact Hgood | exact Hp | exact Ha].
Qed.

Lemma createExplosion_keeps position baseColor s :
  J s -> pc (createExplosion env position baseColor) (fun _ => J) s.
Proof.
  intros HJ. unfold createExplosion. pc_simpl.
  apply pc_for_each.
  - intros _ s1 H1. pc_simpl. apply spawnParticle_keeps; [|other].
    unfold goodRequest, burstRequest. scene_simpl.
    pose proof (random_range (S (S (S (S (randomCalls s1)))))).
    pose proof (random_range (S (S (S (S (S (randomCalls s1))))))).
    pose proof (random_range (S (S (S (S (S (S (randomCalls s1)))))))).
    lra.
  - apply (J_exploded (set_trace _ s)). other.
Qed.

Lemma explodeVisibleProjectiles_keeps s :
  J s -> pc (explodeVisibleProjectiles env) (fun _ => J) s.
Proof.
  intros HJ. unfold explodeVisibleProjectiles. pc_simpl.
  destruct (sceneRef s); pc_simpl; [|exact HJ].
  apply pc_for_each; [|exact HJ].
  intros i s1 H1. pc_simpl.
  destruct (projectiles s1 !! i) as [p|]; [|apply pc_throw].
  destruct (visible env p); pc_simpl; [|exact H1].
  eapply pc_mono; [apply createExplosion_keeps; exact H1|].
  intros [] s2 H2. pc_simpl. other.
Qed.

Lemma envelopeBurst_keeps x y isGolden s :
  J s -> pc (envelopeBurst env x y isGolden) (fun _ => J) s.
Proof.
  intros HJ. unfold envelopeBurst. pc_simpl.
  apply spawnParticle_keeps; [|other].
  unfold goodRequest. scene_simpl. destruct isGolden; lra.
Qed.

Lemma spawnEnvelopes3D_keeps s :
  J s -> pc (spawnEnvelopes3D env) (fun _ => J) s.
Proof.
  intros HJ. unfold spawnEnvelopes3D. pc_simpl.
  destruct (sceneRef s); pc_simpl; [|exact HJ].
  destruct (negb (0 <? length (envelopes s))%nat); pc_simpl; [|exact HJ].
  cbn zeta.
  assert (Hbatch : forall startX spacing goldenIndex n s1,
            J s1 ->
            pc (for_each (upto n)
                  (spawnEnvelopeAt env startX spacing goldenIndex))
               (fun _ => J) s1).
  { intros startX spacing goldenIndex n s1 H1.
    apply pc_for_each; [|exact H1].
    intros i s2 H2. unfold spawnEnvelopeAt. cbn zeta. pc_simpl.
    apply pc_for_each; [|other].
    intros _ s3 H3. apply envelopeBurst_keeps. exact H3. }
  match goal with |- context [Rltb ?a ?b] => destruct (Rltb a b) end;
    pc_simpl; apply Hbatch; other.
Qed.

Lemma trySpawnEnvelopes_keeps s :
  J s -> pc (trySpawnEnvelopes env) (fun _ => J) s.
Proof.
  intros HJ. unfold trySpawnEnvelopes. pc_simpl.
  fold (charges (gameState s)).
  destruct (Z.ltb_spec (charges (gameState s)) 1); pc_simpl; [exact HJ|].
  apply spawnEnvelopes3D_keeps. apply (J_consumed s HJ). lia.
Qed.

Lemma spawnCoins_keeps position isGolden s :
  J s -> pc (spawnCoins env position isGolden) (fun _ => J) s.
Proof.
  intros HJ. unfold spawnCoins. pc_simpl.
  destruct (sceneRef s); pc_simpl; [|exact HJ].
  apply pc_for_each.
  - intros _ s1 H1. pc_simpl. apply wp_pc, newCoin_spec. pc_simpl. other.
  - scene_simpl.
    pose proof (coinCount_nonneg 
                  (random (randomCalls s)) isGolden (random_range _)) as Hn.
    eapply J_other.
    + apply (J_coins s (coinCount (random (randomCalls s)) isGolden
                        * coinValue isGolden) HJ).
      unfold coinValue. destruct isGolden; lia.
    + reflexivity.
    + right. eexists. split; [reflexivity | exact I].
Qed.

Lemma explodeEnvelopes_keeps s :
  J s -> pc (explodeEnvelopes env) (fun _ => J) s.
Proof.
  intros HJ. unfold explodeEnvelopes. pc_simpl.
  destruct (sceneRef s); pc_simpl; [|exact HJ].
  destruct (negb (length (envelopes s) =? 0)%nat); pc_simpl; [|exact HJ].
  eapply pc_mono.
  - apply (pc_for_each J); [|exact HJ].
    intros e s1 H1. apply spawnCoins_keeps. exact H1.
  - intros [] s1 H1. pc_simpl. other.
Qed.

Lemma gestureTriggers_keeps active activeGesture s :
  J s -> pc (gestureTriggers env active activeGesture) (fun _ => J) s.
Proof.
  intros HJ. unfold gestureTriggers. pc_simpl.
  destruct (active && negb (Gesture.eqb activeGesture (stableGesture s))).
  - cbn zeta. pc_simpl.
    eapply pc_mono.
    { destruct (_ && _); pc_simpl;
        [apply explodeVisibleProjectiles_keeps; exact HJ | exact HJ]. }
    intros [] s1 H1. pc_simpl.
    eapply pc_mono.
    { destruct (_ && _); pc_simpl;
        [apply trySpawnEnvelopes_keeps; exact H1 | exact H1]. }
    intros [] s2 H2. pc_simpl.
    eapply pc_mono.
    { destruct (_ && _); pc_simpl;
        [apply explodeEnvelopes_keeps; exact H2 | exact H2]. }
    intros [] s3 H3. pc_simpl. other.
  - destruct (negb active); pc_simpl; [other | exact HJ].
Qed.

Lemma updates_keeps sec s :
  J s -> pc (updates env sec) (fun _ => J) s.
Proof.
  intros HJ. unfold updates. pc_simpl.
  eapply pc_mono.
  { unfold updateParticles. apply (pc_for_each J); [|exact HJ].
    intros i s1 H1. pc_simpl.
    destruct (particlesData (pool s1) !! i) as [p|] eqn:Hp;
      [|apply pc_throw].
    destruct (ParticleData.active p) eqn:Ha; pc_simpl; [|exact H1].
    apply (J_step s1 sec i p H1 Hp Ha). }
  intros [] s1 H1. pc_simpl.
  eapply pc_mono.
  { unfold updateProjectiles. pc_simpl.
    apply (pc_for_each J); [|exact H1].
    intros i s2 H2. pc_simpl.
    destruct (projectiles s2 !! i) as [p0|]; [|apply pc_throw].
    pc_simpl. scene_simpl.
    eapply pc_mono.
    { destruct (Rgtb _ 0.4); pc_simpl;
        [apply spawnParticle_keeps; [|other] | other].
      unfold goodRequest. scene_simpl.
      pose proof (random_range (S (randomCalls s2))). lra. }
    intros [] s3 H3. pc_simpl.
    destruct (Rgtb _ 40); pc_simpl; [other | exact H3]. }
  intros [] s2 H2. pc_simpl.
  eapply pc_mono.
  { unfold updateEnvelopes. pc_simpl.
    apply (pc_for_each J); [|exact H2].
    intros i s3 H3. pc_simpl.
    destruct (envelopes s3 !! i) as [e|]; [|apply pc_throw].
    pc_simpl. other. }
  intros [] s3 H3. pc_simpl.
  unfold updateCoins. pc_simpl.
  apply (pc_for_each J); [|exact H3].
  intros i s4 H4. pc_simpl.
  destruct (coins s4 !! i) as [c0|]; [|apply pc_throw].
  pc_simpl. destruct (Rltb _ (-20)); pc_simpl; other.
Qed.

Lemma spawnLogic_keeps time hand active s :
  J s -> pc (spawnLogic env time hand active) (fun _ => J) s.
Proof.
  intros HJ. unfold spawnLogic. pc_simpl.
  destruct (active && Rgtb time (nextSpawnTime s)); pc_simpl; [|exact HJ].
  unfold spawnProjectile. pc_simpl.
  destruct (sceneRef s); pc_simpl; other.
Qed.

(** The refs once the report block has run. *)
Definition reported (s : Scene) : Scene :=
  if statsDirty s
  then set_statsDirty false
         (set_trace (trace s ++ [StatsUpdate (gameState s)]) s)
  else s.

(** A frame keeps [J], once the report of the stats has kept it. *)
Lemma loop_keeps time s :
  sceneRef s = true ->
  J (reported s) -> pc (loop env time) (fun _ => J) s.
Proof.
  intros Hready HJ. unfold loop. cbn zeta. pc_simpl.
  rewrite Hready. pc_simpl.
  unfold beforeTriggers. pc_simpl.
  eapply pc_mono with (Q := fun _ s1 => J s1).
  { unfold reportStats. pc_simpl. unfold reported in HJ.
    destruct (statsDirty s); pc_simpl; exact HJ. }
  intros [] s1 H1. pc_simpl.
  apply wp_pc, wp_gestureDebounce. pc_simpl.
  assert (H2 : J (debounced (handDataRef s) s1)).
  { rewrite debounced_frame. other. }
  eapply pc_mono; [apply spawnLogic_keeps; exact H2|].
  intros [] s3 H3. pc_simpl.
  eapply pc_mono; [apply gestureTriggers_keeps; exact H3|].
  intros [] s4 H4. apply updates_keeps. exact H4.
Qed.

End Invariant.

(** *** Inactive slots *)

(** An inactive slot is out of sight: its size is 0 and it is parked at
    height -1000. *)
Definition parked (pl : Pool) : Prop :=
  forall i p,
    particlesData pl !! i = Some p -> ParticleData.active p = false ->
    particleSizes pl !! i = Some 0 /\
    particlePositions pl !! (i * 3 + 1)%nat = Some (-1000).

Lemma activate_parked rgb i r pl p :
  wf_pool pl -> parked pl ->
  lookupZ (particlesData pl) i = Some p ->
  parked (activate rgb i r pl).
Proof.
  intros Hwf Hpk Hp. unfold lookupZ in Hp.
  destruct (Z.ltb_spec i 0); [discriminate|].
  assert (Hlt : (Z.to_nat i < length (particlesData pl))%nat)
    by (eapply lookup_lt_Some; exact Hp).
  unfold parked, activate. destruct rgb as [[cr cg] cb]. scene_simpl.
  replace (Z.to_nat (i * 3)) with (Z.to_nat i * 3)%nat by lia.
  intros j q Hq Ha.
  destruct (Nat.eq_dec j (Z.to_nat i)) as [->|Hne].
  - rewrite list_lookup_insert_eq in Hq by exact Hlt. simplify_eq.
  - rewrite list_lookup_insert_ne in Hq by congruence.
    destruct (Hpk j q Hq Ha) as [Hsz Hpos].
    rewrite !list_lookup_insert_ne by lia. auto.
Qed.

Lemma stepParticle_parked sec i p pl :
  wf_pool pl -> parked pl ->
  particlesData pl !! i = Some p ->
  parked (stepParticle sec i p pl).
Proof.
  intros (Hd & Hpos & _ & Hsz) Hpk Hp.
  assert (Hlt : (i < length (particlesData pl))%nat)
    by (eapply lookup_lt_Some; exact Hp).
  assert (Hmax : (length (particlesData pl) * 3
                  = length (particlePositions pl))%nat)
    by (rewrite Hd, Hpos; unfold MAX_PARTICLES; lia).
  unfold parked, stepParticle. cbn zeta.
  match goal with |- context [Rleb ?a 0 || ?b] =>
    destruct (Rleb a 0 || b) eqn:Hdead end;
    scene_simpl; intros j q Hq Ha;
    (destruct (Nat.eq_dec j i) as [->|Hne];
     [ rewrite list_lookup_insert_eq in Hq by exact Hlt; simplify_eq
     | rewrite list_lookup_insert_ne in Hq by congruence;
       destruct (Hpk j q Hq Ha) as [Hs0 Hp0] ]).
  - split; apply list_lookup_insert_eq;
      rewrite ?length_insert, ?length_alter; lia.
  - rewrite !list_lookup_insert_ne, !list_lookup_alter_ne by lia. auto.
  - rewrite !list_lookup_insert_ne, !list_lookup_alter_ne by lia. auto.
Qed.

Lemma lookup_concat_replicate {A} (a b c : A) n i :
  (i < n)%nat ->
  concat (replicate n [a; b; c]) !! (i * 3 + 1)%nat = Some b.
Proof.
  revert i. induction n as [|n IH]; intros i Hi; [lia|].
  cbn [replicate concat app]. destruct i as [|i]; [reflexivity|].
  cbn [Nat.mul Nat.add lookup list_lookup]. apply IH. lia.
Qed.

Lemma mounted_parked draws hand active :
  parked (pool (mounted draws hand active)).
Proof.
  unfold parked, mounted. cbn zeta. scene_simpl. intros i p Hp _.
  apply lookup_replicate in Hp as [_ Hi].
  split; [apply lookup_replicate_2; exact Hi|].
  apply lookup_concat_replicate. exact Hi.
Qed.

(** A frame keeps the pool well formed and its inactive slots parked. *)
Lemma loop_parked time s :
  running s -> parked (pool s) ->
  wp (loop env time) (fun _ s' => running s' /\ parked (pool s')) s.
Proof.
  intros Hrun Hpk.
  eapply wp_mono.
  - apply wp_pc_conj.
    + apply (loop_spec env random_range time s Hrun).
    + apply (loop_keeps (fun s1 => wf_pool (pool s1) /\ parked (pool s1))).
      * intros s1 s2 H1 Heq _. simplify_eq. congruence.
      * intros s1 rgb i r p [Hwf1 Hpk1] _ Hp _. scene_simpl.
        split; [apply activate_wf; exact Hwf1|].
        apply (activate_parked _ _ _ _ p); assumption.
      * intros s1 sec i p [Hwf1 Hpk1] Hp _. scene_simpl.
        split; [apply stepParticle_wf; exact Hwf1|].
        apply stepParticle_parked; assumption.
      * intros s1 H1. exact H1.
      * intros s1 H1 _. exact H1.
      * intros s1 v H1 _. exact H1.
      * apply Hrun.
      * unfold reported. destruct (statsDirty s); scene_simpl;
          (split; [apply Hrun | exact Hpk]).
  - cbn beta. intros [] s' [(Hrun' & _) [_ Hpk']]. auto.
Qed.

(** X13.  From the mounted scene on, after any frames, every inactive slot of
    the pool has size 0 and is parked at height -1000: a particle that
    died, or a slot never used, is never drawn in view. *)
Theorem inactive_slots_parked draws hand active (fs : list Frame) :
  wp (runFrames env fs)
     (fun _ s' =>
        forall i p,
          particlesData (pool s') !! i = Some p ->
          ParticleData.active p = false ->
          particleSizes (pool s') !! i = Some 0 /\
          particlePositions (pool s') !! (i * 3 + 1)%nat = Some (-1000))
     (mounted draws hand active).
Proof.
  assert (Hgen : forall fs s, running s -> parked (pool s) ->
            wp (runFrames env fs)
               (fun _ s' => running s' /\ parked (pool s')) s).
  { clear fs. induction fs as [|f fs IH]; intros s Hrun Hpk.
    - split; assumption.
    - apply wp_runFrames_cons. unfold runFrame at 1.
      pose proof (renderProps_spec (frame_hand f) (frame_active f) s)
        as (Hk & _).
      cbn zeta in Hk. unfold kept_by_render in Hk.
      set (s1 := renderProps (frame_hand f) (frame_active f) s) in *.
      assert (Hp1 : pool s1 = pool s) by congruence.
      eapply wp_mono.
      + apply (loop_parked (frame_time f) s1).
        * apply renderProps_running. exact Hrun.
        * rewrite Hp1. exact Hpk.
      + intros [] s2 [Hrun2 Hpk2]. apply IH; assumption. }
  eapply wp_mono.
  - apply Hgen; [apply mounted_running | apply mounted_parked].
  - intros [] s' [_ Hpk]. exact Hpk.
Qed.

(** *** The report of the stats *)

(** X14.  In a frame the stats are reported at most once: when the dirty flag
    is set, first of all and with the stats the frame starts with; the
    rest of the frame reports nothing.  And no change of the stats goes
    unreported: when the frame has changed them, it leaves the dirty
    flag set for the next frame. *)
Theorem stats_reported_once time s :
  running s ->
  wp (loop env time)
     (fun _ s' =>
        exists l,
          trace s' =
            trace s
            ++ (if statsDirty s then [StatsUpdate (gameState s)] else [])
            ++ l /\
          Forall notReport l /\
          (statsDirty s' = true \/ gameState s' = gameState s)) s.
Proof.
  intros Hrun.
  set (t0 := trace s
             ++ (if statsDirty s then [StatsUpdate (gameState s)] else [])).
  eapply wp_mono.
  - apply wp_pc_conj.
    + apply (loop_spec env random_range time s Hrun).
    + apply (loop_keeps (fun s1 =>
        (exists l, trace s1 = t0 ++ l /\ Forall notReport l) /\
        (statsDirty s1 = true \/ gameState s1 = gameState s))).
      * intros s1 s2 [(l & Hl & Hq) Hst] Heq Htr. simplify_eq. split.
        -- destruct Htr as [Htr|(e & Htr & He)].
           ++ exists l. split; [congruence | exact Hq].
           ++ exists (l ++ [e]). split.
              ** rewrite Htr, Hl, app_assoc. reflexivity.
              ** apply Forall_app. split; [exact Hq|].
                 constructor; [exact He | constructor].
        -- destruct Hst as [Hst|Hst]; [left | right]; congruence.
      * intros s1 rgb i r p H1 _ _ _. exact H1.
      * intros s1 sec i p H1 _ _. exact H1.
      * intros s1 [H1 _]. split; [exact H1 | left; reflexivity].
      * intros s1 [H1 _] _. split; [exact H1 | left; reflexivity].
      * intros s1 v [H1 _] _. split; [exact H1 | left; reflexivity].
      * apply Hrun.
      * unfold reported, t0. destruct (statsDirty s) eqn:Hd; scene_simpl.
        -- split; [|right; reflexivity].
           exists []. rewrite app_nil_r. split; [reflexivity | constructor].
        -- split; [|right; reflexivity].
           exists []. rewrite !app_nil_r. split; [reflexivity | constructor].
  - cbn beta. intros [] s' [_ [(l & Hl & Hq) Hst]].
    exists l. unfold t0 in Hl. rewrite <- app_assoc in Hl. auto.
Qed.

(** *** The stats within a frame *)

(** X15.  A frame never lowers a counter of the stats, and it keeps
    [consumed <= exploded]: envelopes are paid for with detonations made
    before. *)
Theorem stats_grow_in_frame time s :
  running s ->
  wp (loop env time)
     (fun _ s' =>
        let g := gameState s in
        let g' := gameState s' in
        (GameStats.exploded g <= GameStats.exploded g')%Z /\
        (GameStats.consumed g <= GameStats.consumed g')%Z /\
        (GameStats.coins g <= GameStats.coins g')%Z /\
        ((GameStats.consumed g <= GameStats.exploded g)%Z ->
         (GameStats.consumed g' <= GameStats.exploded g')%Z)) s.
Proof.
  intros Hrun.
  set (J := fun s1 : Scene =>
        let g := gameState s in
        let g' := gameState s1 in
        (GameStats.exploded g <= GameStats.exploded g')%Z /\
        (GameStats.consumed g <= GameStats.consumed g')%Z /\
        (GameStats.coins g <= GameStats.coins g')%Z /\
        ((GameStats.consumed g <= GameStats.exploded g)%Z ->
         (GameStats.consumed g' <= GameStats.exploded g')%Z)).
  eapply wp_mono.
  - apply wp_pc_conj.
    + apply (loop_spec env random_range time s Hrun).
    + apply (loop_keeps J).
      * intros s1 s2 H1 Heq _. unfold J in *. cbn zeta in *.
        replace (gameState s2) with (gameState s1) by congruence. exact H1.
      * intros s1 rgb i r p H1 _ _ _. exact H1.
      * intros s1 sec i p H1 _ _. exact H1.
      * intros s1 H1. unfold J, bumpExploded in *. cbn zeta in *.
        scene_simpl. lia.
      * intros s1 H1 Hc. unfold J, debit, charges in *. cbn zeta in *.
        scene_simpl.
        pose proof (Z.mul_div_le (GameStats.exploded (gameState s1)
                                  - GameStats.consumed (gameState s1)) 5).
        lia.
      * intros s1 v H1 Hv. unfold J, addCoins in *. cbn zeta in *.
        scene_simpl. lia.
      * apply Hrun.
      * unfold reported, J. cbn zeta.
        destruct (statsDirty s); scene_simpl; lia.
  - cbn beta. intros [] s' [_ HJ]. exact HJ.
Qed.

(** *** The update blocks, entity by entity *)

Lemma insert_at_length {A} (l1 l2 : list A) i x y :
  length l1 = i -> <[i := x]> (l1 ++ y :: l2) = l1 ++ x :: l2.
Proof.
  intros <-. induction l1 as [|a l1 IH]; cbn; [reflexivity|].
  f_equal. exact IH.
Qed.

Lemma delete_at_length {A} (l1 l2 : list A) i y :
  length l1 = i -> delete i (l1 ++ y :: l2) = l1 ++ l2.
Proof. intros <-. apply delete_middle. Qed.

(** A projectile is kept while it is not above height 40. *)
Definition inFlight (p : Projectile.t) : bool :=
  negb (Rgtb (vy (Projectile.position p)) 40).

Lemma updateProjectiles_exact sec s :
  wf_pool (pool s) ->
  wp (updateProjectiles env sec)
     (fun _ s' =>
        projectiles s' =
          List.filter inFlight (map (moveProjectile sec) (projectiles s)) /\
        wf_pool (pool s') /\ stats_of s' = stats_of s /\
        envelopes s' = envelopes s /\ coins s' = coins s) s.
Proof.
  intros Hwf. unfold updateProjectiles. wp_simpl.
  set (ps := projectiles s).
  eapply wp_mono.
  - apply (wp_downfrom (fun k s1 =>
      projectiles s1 =
        take k ps
        ++ List.filter inFlight (map (moveProjectile sec) (drop k ps)) /\
      wf_pool (pool s1) /\ stats_of s1 = stats_of s /\
      envelopes s1 = envelopes s /\ coins s1 = coins s)).
    + intros i s1 Hi (Hps & Hwf1 & Hst & He & Hco). wp_simpl.
      destruct (lookup_lt_is_Some_2 ps i Hi) as [p0 Hp0].
      assert (Hlen : length (take i ps) = i) by (rewrite length_take; lia).
      assert (Hlook : projectiles s1 !! i = Some p0).
      { rewrite Hps, lookup_app_l by (rewrite length_take; lia).
        rewrite lookup_take_lt by lia. exact Hp0. }
      rewrite Hlook. wp_simpl. scene_simpl.
      set (p := moveProjectile sec p0).
      set (rest := List.filter inFlight
                     (map (moveProjectile sec) (drop (S i) ps))).
      assert (Hins : <[i := p]> (projectiles s1) = take i ps ++ p :: rest).
      { rewrite Hps, (take_S_r ps i p0 Hp0), <- app_assoc. cbn [app].
        apply insert_at_length. exact Hlen. }
      assert (Hend : forall s2,
                projectiles s2 = take i ps ++ p :: rest ->
                wf_pool (pool s2) -> stats_of s2 = stats_of s ->
                envelopes s2 = envelopes s -> coins s2 = coins s ->
                wp (when (Rgtb (vy (Projectile.position p)) 40)
                      (modify (fun s =>
                         set_projectiles (delete i (projectiles s)) s)))
                   (fun _ s3 =>
                      projectiles s3 =
                        take i ps
                        ++ List.filter inFlight
                             (map (moveProjectile sec) (drop i ps)) /\
                      wf_pool (pool s3) /\ stats_of s3 = stats_of s /\
                      envelopes s3 = envelopes s /\ coins s3 = coins s) s2).
      { intros s2 Hps2 Hwf2 Hst2 He2 Hco2.
        rewrite (drop_S ps p0 i Hp0). cbn [map List.filter]. fold p rest.
        unfold inFlight at 1.
        destruct (Rgtb (vy (Projectile.position p)) 40); wp_simpl;
          scene_simpl; cbn [negb].
        - split; [|auto]. rewrite Hps2.
          apply delete_at_length. exact Hlen.
        - auto. }
      destruct (Rgtb (random (randomCalls s1)) 0.4); wp_simpl.
      * eapply wp_mono; [apply (spawnParticle_spec env random_range);
                         exact Hwf1|].
        intros [] s2 (Hwf2 & Hfr & _ & _). apply Hend.
        -- unfold frame_of in Hfr. scene_simpl.
           replace (projectiles s2) with (<[i := p]> (projectiles s1))
             by congruence.
           exact Hins.
        -- exact Hwf2.
        -- rewrite <- Hst. unfold stats_of. fields.
        -- rewrite <- He. fields.
        -- rewrite <- Hco. fields.
      * apply Hend; scene_simpl; auto.
    + rewrite take_ge, drop_ge by (unfold ps; lia). cbn [map List.filter].
      rewrite app_nil_r. auto.
  - intros [] s' H. rewrite take_0, drop_0 in H. exact H.
Qed.

(** X16.  The update of the projectiles moves each of them once and drops
    those that have left the top of the scene, in their order: none is
    left above height 40 and none appears; it keeps the pool well formed
    and touches neither the stats, the envelopes nor the coins. *)
Theorem updateProjectiles_moves_each sec s :
  wf_pool (pool s) ->
  wp (updateProjectiles env sec)
     (fun _ s' =>
        projectiles s' =
          List.filter inFlight (map (moveProjectile sec) (projectiles s)) /\
        Forall (fun p => vy (Projectile.position p) <= 40) (projectiles s') /\
        (length (projectiles s') <= length (projectiles s))%nat /\
        wf_pool (pool s') /\ stats_of s' = stats_of s /\
        envelopes s' = envelopes s /\ coins s' = coins s) s.
Proof.
  intros Hwf.
  eapply wp_mono; [apply updateProjectiles_exact; exact Hwf|].
  cbn beta. intros [] s' (Hps & Hrest). split; [exact Hps|].
  split; [|split; [|exact Hrest]].
  - rewrite Hps. apply List.Forall_forall. intros p Hin.
    apply List.filter_In in Hin as [_ Hin]. unfold inFlight, Rgtb in Hin.
    destruct (Rlt_dec 40 (vy (Projectile.position p))); [discriminate|].
    lra.
  - rewrite Hps.
    etransitivity; [apply List.filter_length_le|].
    rewrite length_map. reflexivity.
Qed.

(** An envelope with the scale that the frame at [sec] seconds gives
    it. *)
Definition pulse (sec : R) (e : Envelope.t) : Envelope.t :=
  Envelope.mk (Envelope.id e) (Envelope.position e)
    (1 + sin (sec * 3 + Envelope.id e) * 0.05) (Envelope.isGolden e).

Lemma insert_map_take_drop {A} (f : A -> A) (l : list A) i x :
  l !! i = Some x ->
  <[i := f x]> (take (S i) l ++ map f (drop (S i) l))
  = take i l ++ map f (drop i l).
Proof.
  intros Hx.
  assert (Hlen : length (take i l) = i).
  { rewrite length_take. apply lookup_lt_Some in Hx. lia. }
  rewrite (take_S_r l i x Hx), <- app_assoc. cbn [app].
  rewrite (drop_S l x i Hx). apply insert_at_length. exact Hlen.
Qed.

Lemma updateEnvelopes_eq sec s :
  updateEnvelopes sec s
  = Some (tt, set_envelopes (map (pulse sec) (envelopes s)) s).
Proof.
  assert (H : wp (updateEnvelopes sec)
                (fun _ s' =>
                   s' = set_envelopes (map (pulse sec) (envelopes s)) s) s).
  { unfold updateEnvelopes. wp_simpl.
      set (es := envelopes s).
      eapply wp_mono.
      - apply (wp_downfrom (fun k s1 =>
          s1 = set_envelopes (take k es ++ map (pulse sec) (drop k es)) s)).
        + intros i s1 Hi ->. wp_simpl. scene_simpl.
          destruct (lookup_lt_is_Some_2 es i Hi) as [e He].
          assert (Hlook : (take (S i) es ++ map (pulse sec) (drop (S i) es))
                          !! i = Some e).
          { rewrite lookup_app_l by (rewrite length_take; lia).
            rewrite lookup_take_lt by lia. exact He. }
          rewrite Hlook. wp_simpl. scene_simpl.
          fold (pulse sec e). rewrite (insert_map_take_drop _ _ _ _ He).
          reflexivity.
        + rewrite take_ge, drop_ge by (unfold es; lia). cbn [map].
          rewrite app_nil_r. unfold es. destruct s; reflexivity.
      - intros [] s' ->. rewrite take_0, drop_0. reflexivity. }
  unfold wp in H. destruct (updateEnvelopes sec s) as [[[] s']|];
    [rewrite H; reflexivity | contradiction].
Qed.

(** X17.  The update of the envelopes writes the scale of each and nothing
    else: it always returns, every envelope stays where and what it is,
    and its scale is within 5 % of 1. *)
Theorem updateEnvelopes_pulses sec s :
  updateEnvelopes sec s
  = Some (tt, set_envelopes (map (pulse sec) (envelopes s)) s) /\
  Forall (fun e => 0.95 <= Envelope.scale e <= 1.05)
    (map (pulse sec) (envelopes s)) /\
  map Envelope.position (map (pulse sec) (envelopes s))
  = map Envelope.position (envelopes s) /\
  map Envelope.isGolden (map (pulse sec) (envelopes s))
  = map Envelope.isGolden (envelopes s).
Proof.
  split; [apply updateEnvelopes_eq|]. split; [|split].
  - apply List.Forall_forall. intros e' Hin. apply List.in_map_iff in Hin.
    destruct Hin as (e & <- & _). unfold pulse. cbn.
    pose proof (SIN_bound (sec * 3 + Envelope.id e)). lra.
  - rewrite List.map_map. reflexivity.
  - rewrite List.map_map. reflexivity.
Qed.

(** A coin is kept while it is not below height -20. *)
Definition inView (c : Coin.t) : bool :=
  negb (Rltb (vy (Coin.position c)) (-20)).

Lemma updateCoins_eq s :
  updateCoins s
  = Some (tt, set_coins (List.filter inView (map moveCoin (coins s))) s).
Proof.
  assert (H : wp updateCoins
                (fun _ s' =>
                   s' = set_coins
                          (List.filter inView (map moveCoin (coins s))) s) s).
  { unfold updateCoins. wp_simpl.
    set (cs := coins s).
    eapply wp_mono.
    - apply (wp_downfrom (fun k s1 =>
        s1 = set_coins
               (take k cs
                ++ List.filter inView (map moveCoin (drop k cs))) s)).
      + intros i s1 Hi ->. wp_simpl. scene_simpl.
        destruct (lookup_lt_is_Some_2 cs i Hi) as [c0 Hc0].
        assert (Hlen : length (take i cs) = i)
          by (rewrite length_take; lia).
        set (rest := List.filter inView (map moveCoin (drop (S i) cs))).
        assert (Hlook : (take (S i) cs ++ rest) !! i = Some c0).
        { rewrite lookup_app_l by (rewrite length_take; lia).
          rewrite lookup_take_lt by lia. exact Hc0. }
        rewrite Hlook. wp_simpl. scene_simpl.
        assert (Hins : <[i := moveCoin c0]> (take (S i) cs ++ rest)
                       = take i cs ++ moveCoin c0 :: rest).
        { rewrite (take_S_r cs i c0 Hc0), <- app_assoc. cbn [app].
          apply insert_at_length. exact Hlen. }
        rewrite Hins. rewrite (drop_S cs c0 i Hc0).
        cbn [map List.filter]. fold rest. unfold inView at 1.
        destruct (Rltb (vy (Coin.position (moveCoin c0))) (-20));
          wp_simpl; scene_simpl; cbn [negb]; [|reflexivity].
        rewrite (delete_at_length _ _ _ _ Hlen). reflexivity.
      + rewrite take_ge, drop_ge by (unfold cs; lia).
        cbn [map List.filter]. rewrite app_nil_r. unfold cs.
        destruct s; reflexivity.
    - intros [] s' ->. rewrite take_0, drop_0. reflexivity. }
  unfold wp in H. destruct (updateCoins s) as [[[] s']|];
    [rewrite H; reflexivity | contradiction].
Qed.

(** X18.  The update of the coins always returns; it moves each coin once,
    drops those that fell out of the scene, keeps the order of the
    others, and writes nothing else: no draw, no stat, no sound.  No
    coin is left below height -20, and none appears. *)
Theorem updateCoins_moves_each s :
  let coins' := List.filter inView (map moveCoin (coins s)) in
  updateCoins s = Some (tt, set_coins coins' s) /\
  Forall (fun c => -20 <= vy (Coin.position c)) coins' /\
  (length coins' <= length (coins s))%nat.
Proof.
  cbn zeta. split; [apply updateCoins_eq|]. split.
  - apply List.Forall_forall. intros c Hin.
    apply List.filter_In in Hin as [_ Hin]. unfold inView, Rltb in Hin.
    destruct (Rlt_dec (vy (Coin.position c)) (-20)); [discriminate|].
    lra.
  - etransitivity; [apply List.filter_length_le|].
    rewrite length_map. reflexivity.
Qed.

(** *** Launches *)

Lemma floor_scaled (r : R) (n : Z) :
  0 <= r < 1 -> (0 < n)%Z -> (0 <= Math_floor (r * IZR n) < n)%Z.
Proof.
  intros Hr Hn. unfold Math_floor.
  assert (0 < IZR n) by (apply IZR_lt; exact Hn).
  split.
  - apply Zfloor_lub. simpl. nra.
  - apply lt_IZR. pose proof (Zfloor_bound (r * IZR n)). nra.
Qed.


(** *** A fresh batch of envelopes *)

Lemma spawnEnvelopes3D_batch s :
  running s -> envelopes s = [] ->
  wp (spawnEnvelopes3D env)
     (fun _ s' =>
        exists (count goldenIndex : Z),
          (1 <= count <= 4)%Z /\
          (goldenIndex = (-1)%Z \/ (0 <= goldenIndex < count)%Z) /\
          length (envelopes s') = Z.to_nat count /\
          forall (i : nat) e,
            envelopes s' !! i = Some e ->
            Envelope.position e =
              mkVector3 (- (IZR (count - 1) * 3.5) / 2 + INR i * 3.5) 10 12 /\
            Envelope.scale e = 1 /\
            Envelope.isGolden e = (Z.of_nat i =? goldenIndex)%Z) s.
Proof.
  intros [Hready Hwf] Hnone. unfold spawnEnvelopes3D. wp_simpl.
  rewrite Hready. wp_simpl. rewrite Hnone. cbn [length Nat.ltb Nat.leb].
  wp_simpl. cbn zeta. scene_simpl.
  set (count := (Math_floor (random (randomCalls s) * 4) + 1)%Z).
  assert (Hcount : (1 <= count <= 4)%Z).
  { pose proof (floor_scaled (random (randomCalls s)) 4
                  (random_range _) ltac:(lia)). unfold count. lia. }
  set (startX := - (IZR (count - 1) * 3.5) / 2).
  assert (Hbatch : forall goldenIndex s0,
            wf_pool (pool s0) -> envelopes s0 = [] ->
            wp (for_each (upto (Z.to_nat count))
                  (spawnEnvelopeAt env startX 3.5 goldenIndex))
               (fun _ s' =>
                  length (envelopes s') = Z.to_nat count /\
                  forall (i : nat) e,
                    envelopes s' !! i = Some e ->
                    Envelope.position e =
                      mkVector3 (startX + INR i * 3.5) 10 12 /\
                    Envelope.scale e = 1 /\
                    Envelope.isGolden e = (Z.of_nat i =? goldenIndex)%Z) s0).
  { intros goldenIndex s0 Hwf0 Hnone0.
    eapply wp_mono.
    - apply (wp_upto (fun k s1 =>
        wf_pool (pool s1) /\ length (envelopes s1) = k /\
        forall (i : nat) e,
          envelopes s1 !! i = Some e ->
          Envelope.position e = mkVector3 (startX + INR i * 3.5) 10 12 /\
          Envelope.scale e = 1 /\
          Envelope.isGolden e = (Z.of_nat i =? goldenIndex)%Z)).
      + intros k s1 _ (Hwf1 & Hlen & Hall). unfold spawnEnvelopeAt.
        cbn zeta. wp_simpl. scene_simpl.
        set (e0 := Envelope.mk (random (randomCalls s1))
                     (mkVector3 (startX + INR k * 3.5) 10 12) 1
                     (Z.of_nat k =? goldenIndex)%Z).
        eapply wp_mono.
        * apply (wp_for_each (fun s2 =>
            wf_pool (pool s2) /\ envelopes s2 = envelopes s1 ++ [e0])).
          -- intros _ s2 _ [Hwf2 He2].
             eapply wp_mono;
               [apply (envelopeBurst_spec env random_range); exact Hwf2|].
             intros [] s3 [Hwf3 Hfr]. split; [exact Hwf3|].
             rewrite <- He2. fields.
          -- scene_simpl. split; [exact Hwf1 | reflexivity].
        * intros [] s2 [Hwf2 He2]. split; [exact Hwf2|].
          rewrite He2. split; [rewrite length_app; cbn [length]; lia|].
          intros i e Hi.
          destruct (lookup_app_Some (envelopes s1) [e0] i e) as [Hcase _].
          destruct (Hcase Hi) as [Hold|[Hge Hnew]]; [apply Hall; exact Hold|].
          rewrite Hlen in Hge, Hnew.
          destruct (i - k)%nat as [|d] eqn:Hd; [|discriminate].
          cbn in Hnew. injection Hnew as <-.
          assert (i = k) as -> by lia. auto.
      + split; [exact Hwf0|]. rewrite Hnone0. split; [reflexivity|].
        intros i e Hi. discriminate.
    - intros [] s' (_ & Hlen & Hall). auto. }
  match goal with |- context [Rltb ?a ?b] => destruct (Rltb a b) end;
    wp_simpl; scene_simpl.
  - set (g := Math_floor (random (S (S (randomCalls s))) * IZR count)).
    eapply wp_mono; [apply (Hbatch g); scene_simpl; assumption|].
    intros [] s' [Hlen Hall]. exists count, g.
    split; [exact Hcount|]. split; [|auto].
    right. apply floor_scaled; [apply random_range | lia].
  - eapply wp_mono; [apply (Hbatch (-1)%Z); scene_simpl; assumption|].
    intros [] s' [Hlen Hall]. exists count, (-1)%Z. auto.
Qed.

(** X20.  With no envelope alive, [spawnEnvelopes3D] makes a batch of one to
    four envelopes: they hang in a row at height 10 and depth 12, 3.5
    apart and centred on x = 0, each with scale 1, and at most one of
    them is golden.  The stats, the projectiles and the coins are not
    touched. *)
Theorem spawnEnvelopes3D_fresh_batch s :
  running s -> envelopes s = [] ->
  wp (spawnEnvelopes3D env)
     (fun _ s' =>
        (exists (count goldenIndex : Z),
           (1 <= count <= 4)%Z /\
           (goldenIndex = (-1)%Z \/ (0 <= goldenIndex < count)%Z) /\
           length (envelopes s') = Z.to_nat count /\
           forall (i : nat) e,
             envelopes s' !! i = Some e ->
             Envelope.position e =
               mkVector3 (- (IZR (count - 1) * 3.5) / 2 + INR i * 3.5)
                 10 12 /\
             Envelope.scale e = 1 /\
             Envelope.isGolden e = (Z.of_nat i =? goldenIndex)%Z) /\
        gameState s' = gameState s /\ projectiles s' = projectiles s /\
        coins s' = coins s) s.
Proof.
  intros Hrun Hnone.
  eapply wp_mono.
  - apply wp_conj.
    + apply spawnEnvelopes3D_batch; assumption.
    + apply (spawnEnvelopes3D_spec env random_range). apply Hrun.
  - cbn beta. intros [] s' [Hbatch [_ Hk]]. split; [exact Hbatch|].
    unfold keep_of in Hk. simplify_eq. auto.
Qed.

(** *** A frame outside a game *)

(** X21.  While no game is active a frame launches nothing and no gesture
    acts: the projectiles, the coins and the envelopes that are there
    move on as in any frame (those that leave the scene are dropped),
    the stats and the time of the next launch stay as they are, and the
    stabilised gesture is recorded all the same. *)
Theorem inactive_frame time s :
  running s -> isGameActiveRef s = false ->
  wp (loop env time)
     (fun _ s' =>
        let sec := time * 0.001 in
        projectiles s' =
          List.filter inFlight (map (moveProjectile sec) (projectiles s)) /\
        envelopes s' = map (pulse sec) (envelopes s) /\
        coins s' = List.filter inView (map moveCoin (coins s)) /\
        gameState s' = gameState s /\
        nextSpawnTime s' = nextSpawnTime s /\
        stableGesture s' = activeGestureOf (handDataRef s) s) s.
Proof.
  intros [Hready Hwf] Hoff. unfold loop. cbn zeta. wp_simpl.
  rewrite Hready. wp_simpl. rewrite Hoff. unfold beforeTriggers. wp_simpl.
  eapply wp_mono; [apply reportStats_spec|].
  intros [] s1 (Hp1 & Hc1 & Hg1 & Hpr1 & He1 & Hco1 & Hrc1). wp_simpl.
  apply wp_gestureDebounce. wp_simpl.
  set (hand := handDataRef s).
  set (s2 := debounced hand s1).
  assert (Hs2 : s2 = set_gestureFrameCount (gestureFrameCount s2)
                       (set_pendingGesture (pendingGesture s2) s1))
    by apply debounced_frame.
  assert (Hact : activeGestureOf hand s1 = activeGestureOf hand s).
  { unfold control_of in Hc1. unfold activeGestureOf, debounced. cbn zeta.
    replace (pendingGesture s1) with (pendingGesture s) by congruence.
    destruct (Gesture.eqb (rawGestureOf hand) (pendingGesture s));
      scene_simpl;
      replace (gestureFrameCount s1) with (gestureFrameCount s)
        by congruence;
      replace (stableGesture s1) with (stableGesture s) by congruence;
      replace (pendingGesture s1) with (pendingGesture s) by congruence;
      reflexivity. }
  rewrite Hact. clear Hact.
  unfold spawnLogic. wp_simpl. unfold gestureTriggers. wp_simpl.
  unfold updates. wp_simpl.
  set (s3 := set_stableGesture (activeGestureOf hand s) s2).
  assert (H3 : wf_pool (pool s3) /\ projectiles s3 = projectiles s /\
               envelopes s3 = envelopes s /\ coins s3 = coins s /\
               gameState s3 = gameState s /\
               nextSpawnTime s3 = nextSpawnTime s /\
               stableGesture s3 = activeGestureOf hand s).
  { unfold s3. rewrite Hs2. scene_simpl. unfold control_of in Hc1.
    rewrite Hp1. split; [exact Hwf|]. repeat split; congruence. }
  clearbody s3. clear Hs2. clearbody s2.
  destruct H3 as (Hwf3 & Hpr3 & He3 & Hco3 & Hg3 & Hn3 & Hst3).
  eapply wp_mono; [apply updateParticles_spec; exact Hwf3|].
  intros [] s4 [Hwf4 Hfr4]. wp_simpl.
  eapply wp_mono;
    [apply (updateProjectiles_exact (time * 0.001)); exact Hwf4|].
  intros [] s5 (Hpr5 & Hwf5 & Hst5 & He5 & Hco5). wp_simpl.
  unfold wp at 1.
  rewrite (updateEnvelopes_eq (time * 0.001) s5).
  wp_simpl. unfold wp. rewrite updateCoins_eq. scene_simpl.
  unfold frame_of in Hfr4. unfold stats_of, control_of in Hst5.
  simplify_eq. repeat split; congruence.
Qed.

(** *** Gestures that do not act *)

(** The triggers act on a change to Open Palm or to Victory only:
    with any other stabilised gesture, or with the one already recorded,
    they record the gesture and do nothing else. *)
Lemma gestureTriggers_idle active g s :
  g = stableGesture s \/ (g <> Gesture.Open_Palm /\ g <> Gesture.Victory) ->
  gestureTriggers env active g s = Some (tt, set_stableGesture g s).
Proof.
  intros Hidle. unfold gestureTriggers.
  unfold mbind, M_bind, gets, modify, when, mret, M_ret. cbn beta iota.
  destruct active; cbn [andb negb]; [|reflexivity].
  unfold Gesture.eqb.
  destruct (bool_decide_reflect (g = stableGesture s)) as [->|Hne];
    cbn [negb].
  - destruct s; reflexivity.
  - destruct Hidle as [?|[Hop Hv]]; [contradiction|].
    rewrite (bool_decide_eq_false_2 (g = Gesture.Open_Palm) Hop).
    rewrite (bool_decide_eq_false_2 (g = Gesture.Victory) Hv).
    rewrite andb_false_r. cbn [andb]. reflexivity.
Qed.

(** X22.  A frame of a game in which the stabilised gesture does not change,
    or changes to a gesture other than Open Palm and Victory, detonates
    nothing and converts nothing: the stats stay as they are, the
    envelopes stay (with the scale of the frame), and the coins only
    move on. *)
Theorem idle_gesture_frame time s :
  running s ->
  (let g := activeGestureOf (handDataRef s) s in
   g = stableGesture s \/ (g <> Gesture.Open_Palm /\ g <> Gesture.Victory)) ->
  wp (loop env time)
     (fun _ s' =>
        let sec := time * 0.001 in
        gameState s' = gameState s /\
        envelopes s' = map (pulse sec) (envelopes s) /\
        coins s' = List.filter inView (map moveCoin (coins s)) /\
        stableGesture s' = activeGestureOf (handDataRef s) s) s.
Proof.
  intros [Hready Hwf] Hidle. cbn zeta in Hidle.
  unfold loop. cbn zeta. wp_simpl.
  rewrite Hready. wp_simpl. unfold beforeTriggers. wp_simpl.
  eapply wp_mono; [apply reportStats_spec|].
  intros [] s1 (Hp1 & Hc1 & Hg1 & Hpr1 & He1 & Hco1 & Hrc1). wp_simpl.
  apply wp_gestureDebounce. wp_simpl.
  set (hand := handDataRef s) in *.
  set (s2 := debounced hand s1).
  assert (Hs2 : s2 = set_gestureFrameCount (gestureFrameCount s2)
                       (set_pendingGesture (pendingGesture s2) s1))
    by apply debounced_frame.
  assert (Hact : activeGestureOf hand s1 = activeGestureOf hand s).
  { unfold control_of in Hc1. unfold activeGestureOf, debounced. cbn zeta.
    replace (pendingGesture s1) with (pendingGesture s) by congruence.
    destruct (Gesture.eqb (rawGestureOf hand) (pendingGesture s));
      scene_simpl;
      replace (gestureFrameCount s1) with (gestureFrameCount s)
        by congruence;
      replace (stableGesture s1) with (stableGesture s) by congruence;
      replace (pendingGesture s1) with (pendingGesture s) by congruence;
      reflexivity. }
  rewrite Hact. clear Hact.
  assert (H2 : sceneRef s2 = true /\ pool s2 = pool s /\
               envelopes s2 = envelopes s /\ coins s2 = coins s /\
               gameState s2 = gameState s /\
               stableGesture s2 = stableGesture s).
  { rewrite Hs2. scene_simpl. unfold control_of in Hc1.
    repeat split; congruence. }
  clear Hs2. clearbody s2.
  destruct H2 as (Hready2 & Hp2 & He2 & Hco2 & Hg2 & Hst2).
  eapply wp_mono;
    [apply (spawnLogic_spec env); exact Hready2|].
  intros [] s3 (Hp3 & Hst3 & He3 & Hco3). wp_simpl.
  unfold stats_of, control_of in Hst3. scene_simpl.
  assert (Hidle3 : activeGestureOf hand s = stableGesture s3 \/
                   (activeGestureOf hand s <> Gesture.Open_Palm /\
                    activeGestureOf hand s <> Gesture.Victory)).
  { destruct Hidle as [Hsame|Hother]; [left | right; exact Hother].
    rewrite Hsame. simplify_eq. congruence. }
  unfold wp at 1. rewrite (gestureTriggers_idle _ _ _ Hidle3).
  unfold updates. wp_simpl.
  set (s4 := set_stableGesture (activeGestureOf hand s) s3).
  assert (H4 : wf_pool (pool s4) /\ envelopes s4 = envelopes s /\
               coins s4 = coins s /\ gameState s4 = gameState s /\
               stableGesture s4 = activeGestureOf hand s).
  { unfold s4. scene_simpl. rewrite Hp3, Hp2.
    split; [exact Hwf|]. simplify_eq. repeat split; congruence. }
  clearbody s4. destruct H4 as (Hwf4 & He4 & Hco4 & Hg4 & Hst4).
  eapply wp_mono; [apply updateParticles_spec; exact Hwf4|].
  intros [] s5 [Hwf5 Hfr5]. wp_simpl.
  eapply wp_mono;
    [apply (updateProjectiles_exact (time * 0.001)); exact Hwf5|].
  intros [] s6 (_ & Hwf6 & Hst6 & He6 & Hco6). wp_simpl.
  unfold wp at 1.
  rewrite (updateEnvelopes_eq (time * 0.001) s6).
  wp_simpl. unfold wp. rewrite updateCoins_eq. scene_simpl.
  unfold frame_of in Hfr5. unfold stats_of, control_of in Hst6.
  clear Hst3 Hidle Hidle3.
  simplify_eq. repeat split; congruence.
Qed.

(** *** Open Palm on the projectiles *)

(** X23.  [explodeVisibleProjectiles] detonates exactly the projectiles that
    are in view of the camera: they leave the collection, the others
    stay in their order, [exploded] grows by their number, and neither
    the envelopes nor the coins are touched.  With nothing in view the
    stats stay as they are. *)
Theorem explodeVisibleProjectiles_exact s :
  running s ->
  wp (explodeVisibleProjectiles env)
     (fun _ s' =>
        let hit := List.filter (visible env) (projectiles s) in
        projectiles s' =
          List.filter (fun p => negb (visible env p)) (projectiles s) /\
        GameStats.exploded (gameState s') =
          (GameStats.exploded (gameState s) + Z.of_nat (length hit))%Z /\
        GameStats.consumed (gameState s') =
          GameStats.consumed (gameState s) /\
        GameStats.coins (gameState s') = GameStats.coins (gameState s) /\
        (hit = [] -> gameState s' = gameState s) /\
        envelopes s' = envelopes s /\ coins s' = coins s /\
        running s') s.
Proof.
  intros [Hready Hwf].
  eapply wp_mono;
    [apply (explodeVisibleProjectiles_spec env random_range);
     assumption|].
  cbn beta. intros [] s' (Hwf' & Hc & He & Hco & Hps & Hg). cbn zeta.
  split; [exact Hps|]. rewrite Hg. unfold addExploded. scene_simpl.
  repeat match goal with |- _ /\ _ => split end;
    try assumption; try reflexivity.
  - intros ->. cbn [length Z.of_nat]. destruct (gameState s). cbn.
    f_equal. lia.
  - split; [|exact Hwf']. unfold control_of in Hc. congruence.
Qed.

(** *** The life of a particle *)






(** *** A detonation and the capacity of the pool *)

Lemma filter_all_length {A} (f : A -> bool) (l : list A) :
  length (List.filter f l) = length l <->
  Forall (fun x => f x = true) l.
Proof.
  induction l as [|x l IH]; cbn [List.filter length].
  - split; [constructor | reflexivity].
  - pose proof (List.filter_length_le f l) as Hle.
    destruct (f x) eqn:Hx; cbn [length].
    + split.
      * intros H. constructor; [exact Hx|]. apply IH. lia.
      * intros H. apply Forall_cons in H as [_ H]. apply IH in H. lia.
    + split; [lia|]. intros H. apply Forall_cons in H as [H _].
      congruence.
Qed.

(** A call of [spawnParticle] adds one active slot, unless the pool is
    full. *)
Lemma spawnParticle_count pos colorHex vel life decay size s :
  wf_pool (pool s) ->
  wp (spawnParticle env pos colorHex vel life decay size)
     (fun _ s' =>
        wf_pool (pool s') /\ frame_of s' = frame_of s /\
        active_count (pool s') =
          Nat.min (S (active_count (pool s))) (Z.to_nat MAX_PARTICLES)) s.
Proof.
  intros Hwf.
  pose proof (active_count_le (pool s)) as Hle.
  assert (Hlen : length (particlesData (pool s)) = Z.to_nat MAX_PARTICLES)
    by apply Hwf.
  assert (Hcount : wp (spawnParticle env pos colorHex vel life decay size)
                     (fun _ s' =>
                        active_count (pool s') =
                          Nat.min (S (active_count (pool s)))
                            (Z.to_nat MAX_PARTICLES)) s).
  { destruct (Nat.eq_dec (active_count (pool s))
                (length (particlesData (pool s)))) as [Hfull|Hroom].
    - eapply wp_mono.
      + apply (spawnParticle_saturated env random_range); [exact Hwf|].
        apply filter_all_length. exact Hfull.
      + cbn beta. intros [] s' Hp. rewrite Hp, Hfull, Hlen. symmetry.
        apply Nat.min_r. lia.
    - eapply wp_mono.
      + apply spawnParticle_free_spec; [exact Hwf|].
        intros Hall. apply Hroom. apply filter_all_length. exact Hall.
      + cbn beta. intros [] s' (i & p & _ & _ & _ & _ & _ & _ & Hc).
        rewrite Hc. symmetry. apply Nat.min_l. lia. }
  eapply wp_mono.
  - apply wp_conj;
      [apply (spawnParticle_spec env random_range); exact Hwf
      | exact Hcount].
  - cbn beta. intros [] s' [(Hwf' & Hfr & _) Hc]. auto.
Qed.

(** X25.  A detonation fills the pool with its 60 particles as far as there
    is room: afterwards the number of active slots is the number before
    plus 60, capped at the 4000 slots of the pool. *)
Theorem createExplosion_fills_pool position baseColor s :
  wf_pool (pool s) ->
  wp (createExplosion env position baseColor)
     (fun _ s' =>
        active_count (pool s') =
          Nat.min (active_count (pool s) + 60) 4000) s.
Proof.
  intros Hwf. unfold createExplosion. wp_simpl.
  eapply wp_mono.
  - apply (wp_upto (fun k s1 =>
      wf_pool (pool s1) /\
      active_count (pool s1) =
        Nat.min (active_count (pool s) + k) (Z.to_nat MAX_PARTICLES))).
    + intros i s1 _ [Hwf1 Hc]. wp_simpl.
      eapply wp_mono; [apply spawnParticle_count; exact Hwf1|].
      intros [] s2 (Hwf2 & _ & Hc2). split; [exact Hwf2|].
      rewrite Hc2. scene_simpl. rewrite Hc. lia.
    + scene_simpl. split; [exact Hwf|].
      pose proof (active_count_le (pool s)) as Hle.
      destruct Hwf as [Hlen _]. rewrite Hlen in Hle. lia.
  - cbn beta. intros [] s' [_ Hc]. rewrite Hc.
    unfold MAX_PARTICLES. reflexivity.
Qed.

(** *** Converting envelopes *)

Lemma coinCount_range (r : R) (isGolden : bool) :
  0 <= r < 1 ->
  (3 <= coinCount r isGolden <= 20)%Z /\
  (3 <= coinCount r isGolden * coinValue isGolden <= 40)%Z.
Proof.
  intros Hr. pose proof (coinCount_base r Hr) as Hb.
  unfold coinCount, coinValue. cbn zeta. destruct isGolden; lia.
Qed.

Lemma converted_bounds (es : list Envelope.t) : forall c,
  (3 * length es <= convertedCoins env c es <= 20 * length es)%nat /\
  (3 * Z.of_nat (length es) <= convertedValue env c es
   <= 40 * Z.of_nat (length es))%Z.
Proof.
  induction es as [|e es IH]; intros c;
    cbn [convertedCoins convertedValue length]; [lia|].
  cbn zeta.
  destruct (coinCount_range (random c) (Envelope.isGolden e)
              (random_range c)) as [Hn Hv].
  destruct (IH (1 + 10 * Z.to_nat (coinCount (random c) (Envelope.isGolden e))
                + c)%nat) as [Hc' Hv'].
  lia.
Qed.

(** X26.  [explodeEnvelopes] converts every envelope alive into coins: no
    envelope is left, each one gives 3 to 20 coins worth 3 to 40 in the
    stats, and nothing else changes: not [exploded], not [consumed],
    not the projectiles, not the pool. *)
Theorem explodeEnvelopes_converts s :
  running s ->
  wp (explodeEnvelopes env)
     (fun _ s' =>
        let n := length (envelopes s) in
        envelopes s' = [] /\
        (length (coins s) + 3 * n <= length (coins s')
         <= length (coins s) + 20 * n)%nat /\
        (GameStats.coins (gameState s) + 3 * Z.of_nat n
         <= GameStats.coins (gameState s')
         <= GameStats.coins (gameState s) + 40 * Z.of_nat n)%Z /\
        GameStats.exploded (gameState s') = GameStats.exploded (gameState s) /\
        GameStats.consumed (gameState s') = GameStats.consumed (gameState s) /\
        projectiles s' = projectiles s /\ pool s' = pool s) s.
Proof.
  intros [Hready Hwf].
  eapply wp_mono; [apply (explodeEnvelopes_spec env); exact Hready|].
  cbn beta. intros [] s' (Hp & _ & Hpr & He & Hco & Hg). cbn zeta.
  destruct (converted_bounds (envelopes s) (randomCalls s)) as [Hc Hv].
  rewrite Hg. unfold addCoins. scene_simpl.
  split; [exact He|]. split; [lia|]. split; [lia|]. auto.
Qed.

(** *** Spending a charge *)

(** X27.  A Victory with no envelope alive: without a charge
    [trySpawnEnvelopes] changes nothing at all; with one it spends
    exactly one charge ([consumed] grows by 5) for a batch of one to four
    envelopes, and flags the stats for the next report. *)
Theorem trySpawnEnvelopes_spends_one_charge s :
  running s -> envelopes s = [] ->
  ((charges (gameState s) < 1)%Z ->
   trySpawnEnvelopes env s = Some (tt, s)) /\
  ((1 <= charges (gameState s))%Z ->
   wp (trySpawnEnvelopes env)
      (fun _ s' =>
         charges (gameState s') = (charges (gameState s) - 1)%Z /\
         GameStats.consumed (gameState s') =
           (GameStats.consumed (gameState s) + 5)%Z /\
         GameStats.exploded (gameState s') =
           GameStats.exploded (gameState s) /\
         GameStats.coins (gameState s') = GameStats.coins (gameState s) /\
         (1 <= length (envelopes s') <= 4)%nat /\
         statsDirty s' = true) s).
Proof.
  intros Hrun Hnone. split.
  - intros Hc. unfold trySpawnEnvelopes.
    unfold mbind, M_bind, gets, when. cbn beta iota.
    fold (charges (gameState s)).
    destruct (Z.ltb_spec (charges (gameState s)) 1); [reflexivity | lia].
  - intros Hc. unfold trySpawnEnvelopes. wp_simpl.
    fold (charges (gameState s)).
    destruct (Z.ltb_spec (charges (gameState s)) 1); [lia|]. wp_simpl.
    fold (debit s).
    assert (Hrun' : running (debit s)) by exact Hrun.
    eapply wp_mono.
    + apply wp_conj.
      * apply (spawnEnvelopes3D_batch (debit s) Hrun' Hnone).
      * apply (spawnEnvelopes3D_spec env random_range). apply Hrun'.
    + cbn beta. intros [] s' [(count & g & Hcount & _ & Hlen & _) [_ Hk]].
      unfold keep_of, debit in Hk. scene_simpl.
      assert (Hg : gameState s' =
                   GameStats.mk (GameStats.exploded (gameState s))
                     (GameStats.consumed (gameState s) + 5)
                     (GameStats.coins (gameState s))) by congruence.
      assert (Hd : statsDirty s' = true) by congruence.
      rewrite Hg. unfold charges. scene_simpl.
      split.
      { replace (GameStats.exploded (gameState s)
                 - (GameStats.consumed (gameState s) + 5))%Z
          with (GameStats.exploded (gameState s)
                - GameStats.consumed (gameState s) + (-1) * 5)%Z by lia.
        rewrite Z.div_add by lia. lia. }
      repeat split; try reflexivity; try exact Hd; lia.
Qed.

End SceneMore.

(** ** Worked instances

    A random source that always returns 0, a camera that projects every
    point to itself and colour conversions that return black. *)

Definition env0 : Collaborators :=
  mkCollaborators (fun _ => 0%R) (fun v => v)
    (fun _ => (0%R, 0%R, 0%R)) (fun _ => (0%R, 0%R, 0%R)) (fun _ _ _ => 0%Z).

Lemma env0_range : forall n, (0 <= env_random env0 n < 1)%R.
Proof. intros n. cbn. lra. Qed.

Definition origin : Vector3 := mkVector3 0 0 0.

Definition handWith (g : Gesture.t) (velocity : R) : option HandData.t :=
  Some (HandData.mk g velocity origin).

Definition frameWith (g : Gesture.t) : Frame :=
  mkFrame (handWith g 0) true 0.

(** The mounted scene of an active game. *)
Definition scene0 : Scene := mounted 0 None true.

Lemma scene0_running : running scene0.
Proof. apply mounted_running. Qed.

Lemma C1_witness :
  (running scene0 /\
   rawGestureOf (frame_hand (frameWith Gesture.Victory)) = Gesture.Victory /\
   Gesture.Victory <> pendingGesture scene0 /\
   length (replicate 6 (frameWith Gesture.Victory)) = 6%nat /\
   Forall (fun f => rawGestureOf (frame_hand f) = Gesture.Victory)
     (replicate 6 (frameWith Gesture.Victory)) /\
   (6 <= 6)%nat /\
   wp (runFrames env0
         (frameWith Gesture.Victory
          :: take 6 (replicate 6 (frameWith Gesture.Victory))))
      (fun _ s' => stableGesture s' = Gesture.Victory) scene0)
  /\
  (running scene0 /\ Gesture.Victory <> Gesture.Open_Palm /\
   (pendingGesture scene0 <> Gesture.Victory \/
    (gestureFrameCount scene0 < 5)%nat) /\
   alternates Gesture.Victory Gesture.Open_Palm
     [frameWith Gesture.Victory; frameWith Gesture.Open_Palm;
      frameWith Gesture.Victory] /\
   wp (runFrames env0
         [frameWith Gesture.Victory; frameWith Gesture.Open_Palm;
          frameWith Gesture.Victory])
      (fun _ s' => stableGesture s' = stableGesture scene0) scene0).
Proof.
  assert (Hne : Gesture.Victory <> pendingGesture scene0)
    by (cbn; discriminate).
  assert (Hall : Forall (fun f => rawGestureOf (frame_hand f) = Gesture.Victory)
                   (replicate 6 (frameWith Gesture.Victory)))
    by (apply Forall_replicate; reflexivity).
  assert (Hstart : pendingGesture scene0 <> Gesture.Victory \/
                   (gestureFrameCount scene0 < 5)%nat)
    by (left; cbn; discriminate).
  assert (Halt : alternates Gesture.Victory Gesture.Open_Palm
                   [frameWith Gesture.Victory; frameWith Gesture.Open_Palm;
                    frameWith Gesture.Victory])
    by (cbn; auto).
  split.
  - split; [exact scene0_running|]. split; [reflexivity|].
    split; [exact Hne|]. split; [reflexivity|]. split; [exact Hall|].
    split; [lia|].
    exact (proj1 (C1_gesture_stabilizer env0 env0_range)
             scene0 Gesture.Victory (frameWith Gesture.Victory)
             (replicate 6 (frameWith Gesture.Victory))
             scene0_running eq_refl Hne eq_refl Hall 6%nat (le_n 6)).
  - split; [exact scene0_running|]. split; [discriminate|].
    split; [exact Hstart|]. split; [exact Halt|].
    exact (proj2 (C1_gesture_stabilizer env0 env0_range)
             scene0 Gesture.Victory Gesture.Open_Palm _
             scene0_running ltac:(discriminate) Hstart Halt).
Defined.

Lemma C2_witness :
  wf_pool (pool scene0) /\
  wp (for_each [Detonate origin 0; TrySpawn; Detonate origin 0] (perform env0))
     (fun _ s' =>
        (0 <= charges (gameState s'))%Z /\
        (GameStats.consumed (gameState s')
         <= GameStats.exploded (gameState s'))%Z)
     (syncIsGameActive true scene0).
Proof.
  split; [exact (proj2 scene0_running)|].
  eapply wp_mono.
  - exact (C2_charges_nonneg env0 env0_range scene0
             [Detonate origin 0; TrySpawn; Detonate origin 0]
             (proj2 scene0_running)).
  - cbn zeta. intros [] s' (_ & H1 & H2 & _). split; assumption.
Defined.

(** A scene of an active game with ten detonations, five of them spent
    on the red envelope that is still alive. *)
Definition scene_with_envelope : Scene :=
  set_envelopes [Envelope.mk 0 (mkVector3 0 10 12) 1 false]
    (set_gameState (GameStats.mk 10 5 0) scene0).

(** C3 as stated fails: with an envelope alive and one charge left, the
    call leaves the envelopes alone but raises [consumed] from 5 to 10. *)
Lemma C3_counterexample :
  envelopes scene_with_envelope <> [] /\
  exists s',
    trySpawnEnvelopes env0 scene_with_envelope = Some (tt, s') /\
    envelopes s' = envelopes scene_with_envelope /\
    GameStats.consumed (gameState scene_with_envelope) = 5%Z /\
    GameStats.consumed (gameState s') = 10%Z /\
    gameState s' <> gameState scene_with_envelope.
Proof.
  split; [discriminate|].
  exists (debit scene_with_envelope). split; [reflexivity|].
  split; [reflexivity|]. split; [reflexivity|]. split; [reflexivity|].
  discriminate.
Defined.

Lemma C3_witness :
  envelopes scene_with_envelope <> [] /\
  exists s',
    trySpawnEnvelopes env0 scene_with_envelope = Some (tt, s') /\
    envelopes s' = envelopes scene_with_envelope /\
    pool s' = pool scene_with_envelope /\
    GameStats.exploded (gameState s') = 10%Z /\
    GameStats.consumed (gameState s') = 10%Z.
Proof.
  assert (Hne : envelopes scene_with_envelope <> []) by discriminate.
  split; [exact Hne|].
  destruct (C3_spawn_while_alive env0 scene_with_envelope Hne)
    as (s' & Hrun & He & _ & _ & Hp & _ & _ & Hex & _ & Hco & _).
  exists s'. split; [exact Hrun|]. split; [exact He|]. split; [exact Hp|].
  split; [exact Hex | exact Hco].
Defined.

(** A scene whose 4000 slots are all active. *)
Definition saturated : Scene :=
  let n := Z.to_nat MAX_PARTICLES in
  set_pool
    (mkPool (replicate (Z.to_nat (MAX_PARTICLES * 3)) 0%R)
       (replicate (Z.to_nat (MAX_PARTICLES * 3)) 1%R)
       (replicate n 1%R)
       (replicate n (ParticleData.mk true 1 origin 0.01 1)))
    scene0.

Lemma saturated_wf : wf_pool (pool saturated).
Proof.
  unfold wf_pool, saturated. cbn zeta. cbn [pool set_pool
    particlesData particlePositions particleColors particleSizes].
  rewrite !length_replicate. auto.
Qed.

Lemma saturated_all_active : all_active (pool saturated).
Proof.
  unfold all_active, saturated. cbn zeta. cbn [pool set_pool particlesData].
  apply Forall_replicate. reflexivity.
Qed.

Lemma C4_witness :
  wf_pool (pool saturated) /\ all_active (pool saturated) /\
  wp (spawnParticle env0 origin 0 origin 1 0.01 1)
     (fun _ s' => pool s' = pool saturated) saturated.
Proof.
  split; [exact saturated_wf|]. split; [exact saturated_all_active|].
  exact (proj2 (C4_pool_capacity env0 env0_range)
           saturated origin 0%Z origin 1%R 0.01%R 1%R
           saturated_wf saturated_all_active).
Defined.

(** The mounted scene of an active game whose hand snapshot shows a
    closed fist moving at speed 4. *)
Definition scene_fist : Scene :=
  mounted 0 (handWith Gesture.Closed_Fist 4) true.

Lemma scene_fist_running : running scene_fist.
Proof. apply mounted_running. Qed.

(** C5 as stated fails: the stable gesture is [None] before and after the
    frame, not the speed gesture, and yet the delay is 333, half of the
    base value 666, because the raw gesture of the snapshot is a closed
    fist. *)
Lemma C5_counterexample :
  stableGesture scene_fist = Gesture.None /\
  isGameActiveRef scene_fist = true /\
  (nextSpawnTime scene_fist < 1)%R /\
  baseDelayOf (env_random env0 (4 + randomCalls scene_fist)) = 666%R /\
  exists s',
    loop env0 1 scene_fist = Some (tt, s') /\
    stableGesture s' = Gesture.None /\
    nextSpawnTime s' = (1 + 333)%R /\
    nextSpawnTime s' <> (1 + 666)%R.
Proof.
  split; [reflexivity|]. split; [reflexivity|].
  split; [cbn; lra|]. split; [unfold baseDelayOf; cbn; lra|].
  pose proof (loop_spec env0 env0_range 1 scene_fist scene_fist_running) as H.
  apply wp_returns in H as ([] & s' & Hloop & _ & _ & _ & Hsg & Hnext & _).
  exists s'. split; [exact Hloop|]. split; [exact Hsg|].
  assert (Hval : nextSpawnTime s' = (1 + 333)%R).
  { rewrite Hnext. unfold nextSpawnAfter, Rgtb.
    cbn [isGameActiveRef scene_fist mounted nextSpawnTime handDataRef andb].
    destruct (Rlt_dec 0 1) as [_|Hn]; [|exfalso; apply Hn; lra].
    unfold finalDelayOf, handWith, baseDelayOf.
    cbn [HandData.gesture HandData.velocity env_random env0].
    change (Gesture.eqb Gesture.Closed_Fist Gesture.Closed_Fist) with true.
    cbn iota.
    rewrite (Rmax_left 4 0) by lra.
    rewrite (Rmin_left (4 / 4.0) 1.0) by lra. lra. }
  split; [exact Hval|]. rewrite Hval. lra.
Defined.

Lemma C5_witness :
  running scene_fist /\ isGameActiveRef scene_fist = true /\
  (nextSpawnTime scene_fist < 1)%R /\
  wp (loop env0 1)
     (fun _ s' =>
        exists delay : R,
          nextSpawnTime s' = (1 + delay)%R /\
          (666 / 2 <= delay <= 2000)%R)
     scene_fist.
Proof.
  assert (Hlate : (nextSpawnTime scene_fist < 1)%R) by (cbn; lra).
  split; [exact scene_fist_running|]. split; [reflexivity|].
  split; [exact Hlate|].
  eapply wp_mono.
  - exact (C5_spawn_delay env0 env0_range scene_fist 1%R
             scene_fist_running eq_refl Hlate).
  - cbn zeta. intros [] s' (_ & Hb & delay & Hnext & Hd).
    exists delay. split; [exact Hnext|].
    change (handDataRef scene_fist) with (handWith Gesture.Closed_Fist 4) in Hd.
    unfold handWith in Hd. cbn [HandData.gesture] in Hd.
    change (Gesture.eqb Gesture.Closed_Fist Gesture.Closed_Fist) with true
      in Hd.
    cbn iota zeta in Hd. lra.
Defined.

Lemma C6_witness :
  wf_pool (pool scene0) /\
  wp (createExplosion env0 origin 0)
     (fun _ s' =>
        GameStats.exploded (gameState s') = 1%Z /\
        exists reqs : list ParticleRequest,
          length reqs = 60%nat /\
          trace s' = Audio playExplosion :: map SpawnParticle reqs)
     scene0.
Proof.
  split; [exact (proj2 scene0_running)|].
  eapply wp_mono.
  - exact (C6_createExplosion env0 env0_range scene0 origin 0%Z
             (proj2 scene0_running)).
  - intros [] s' (Hex & reqs & Hlen & Htr & _).
    split; [exact Hex|]. exists reqs. split; [exact Hlen | exact Htr].
Defined.





(** The result screen with the given cooldown and raw gesture. *)
Definition result_screen (cooldown : Z) (g : Gesture.t) : App.t :=
  App.mk (handWith g 0) (GameStats.mk 7 5 9) App.RESULT 0 cooldown false
    (0 <? cooldown)%Z.

Lemma C8_witness :
  (App.gameState (result_screen 2 Gesture.None) = App.RESULT /\
   (0 < App.restartCooldown (result_screen 2 Gesture.None))%Z /\
   exists a',
     App.step (App.Detect (handWith Gesture.Victory 0))
       (result_screen 2 Gesture.None) = Some a' /\
     App.gameState a' = App.RESULT /\ (0 < App.restartCooldown a')%Z)
  /\
  (App.gameState (result_screen 0 Gesture.None) = App.RESULT /\
   App.restartCooldown (result_screen 0 Gesture.None) = 0%Z /\
   App.gestureOf (result_screen 0 Gesture.None) <> Some Gesture.Victory /\
   exists a',
     App.step (App.Detect (handWith Gesture.Victory 0))
       (result_screen 0 Gesture.None) = Some a' /\
     App.gameState a' = App.PLAYING /\ App.timeLeft a' = 30%Z)
  /\
  (App.gameState (result_screen 1 Gesture.Victory) = App.RESULT /\
   App.restartCooldown (result_screen 1 Gesture.Victory) = 1%Z /\
   App.cooldownInterval (result_screen 1 Gesture.Victory) = true /\
   App.gestureOf (result_screen 1 Gesture.Victory) = Some Gesture.Victory /\
   exists a',
     App.step App.CooldownTick (result_screen 1 Gesture.Victory) = Some a' /\
     App.gameState a' = App.PLAYING /\ App.timeLeft a' = 30%Z).
Proof.
  destruct C8_replay_cooldown as (Hkeep & Hsuppress & Hdetect & Htick).
  split; [|split].
  - split; [reflexivity|]. split; [reflexivity|].
    destruct (Hsuppress (result_screen 2 Gesture.None)
                (HandData.mk Gesture.Victory 0 origin)
                eq_refl eq_refl eq_refl) as (a' & Hstep & Hr & Hc).
    exists a'. split; [exact Hstep|].
    exact (Hkeep (result_screen 2 Gesture.None) a'
             (App.Detect (handWith Gesture.Victory 0))
             eq_refl eq_refl ltac:(discriminate) Hstep).
  - split; [reflexivity|]. split; [reflexivity|].
    split; [discriminate|].
    destruct (Hdetect (result_screen 0 Gesture.None)
                (HandData.mk Gesture.Victory 0 origin)
                eq_refl eq_refl eq_refl ltac:(discriminate))
      as (a' & Hstep & Hp & Ht & _).
    exists a'. auto.
  - split; [reflexivity|]. split; [reflexivity|]. split; [reflexivity|].
    split; [reflexivity|].
    destruct (Htick (result_screen 1 Gesture.Victory)
                eq_refl eq_refl eq_refl eq_refl)
      as (a' & Hstep & Hp & Ht & _).
    exists a'. auto.
Defined.

(** The page on the menu, with a projectile in flight, an envelope alive
    and stale stats in the scene. *)
Definition page_menu : Page :=
  mkPage App.initial
    (set_projectiles [Projectile.mk 0 origin (mkVector3 0 0.7 0) 0xff0040]
       (set_gameState (GameStats.mk 10 5 0)
          (set_isGameActiveRef false scene_with_envelope))).

Definition page_started : Page :=
  settlePage 3 (app page_menu) (App.startGame (app page_menu))
    (scene page_menu).

Lemma C10_witness :
  isGameActiveRef (scene page_menu) = App.isGameActive (app page_menu) /\
  App.gameState (app page_menu) <> App.PLAYING /\
  pageStep App.ClickStart page_menu = Some page_started /\
  App.gameState (app page_started) = App.PLAYING /\
  App.timeLeft (app page_started) = 30%Z /\
  gameState (scene page_started) = GameStats.mk 0 0 0 /\
  projectiles (scene page_started) = projectiles (scene page_menu) /\
  envelopes (scene page_started) = envelopes (scene page_menu) /\
  pool (scene page_started) = pool (scene page_menu).
Proof.
  assert (Hplay : App.gameState (app page_started) = App.PLAYING)
    by reflexivity.
  split; [reflexivity|]. split; [discriminate|]. split; [reflexivity|].
  split; [exact Hplay|].
  destruct (C10_session_start page_menu page_started App.ClickStart
              eq_refl ltac:(discriminate) eq_refl Hplay)
    as (Ht & _ & Hg & _ & Hpr & He & _ & Hp & _).
  auto 10.
Defined.

(** ** Worked instances of the further properties *)

(** A hand of 21 landmarks at the origin of the image, seen by an
    initialised tracker. *)
Definition hand0 : list VisionService.Landmark :=
  replicate 21 (VisionService.mkLandmark 0 0 0).

Definition result0 : VisionService.Result :=
  VisionService.mkResult [hand0] [].

Definition tracker0 : VisionService.t := VisionService.mk true None.

Lemma detect_velocity_capped_witness :
  exists h svc',
    VisionService.detect tracker0 result0 0 = Some (Some h, svc') /\
    (0 <= HandData.velocity h <= 5)%R.
Proof.
  eexists. eexists. split; [reflexivity|].
  exact (detect_velocity_capped tracker0 _ result0 0%R _ eq_refl).
Defined.

Lemma detect_gesture_labels_witness :
  exists h svc',
    VisionService.detect tracker0 result0 0 = Some (Some h, svc') /\
    (HandData.gesture h = Gesture.None \/
     HandData.gesture h = Gesture.Closed_Fist \/
     HandData.gesture h = Gesture.Victory \/
     HandData.gesture h = Gesture.Open_Palm).
Proof.
  eexists. eexists. split; [reflexivity|].
  exact (proj1 detect_gesture_labels tracker0 _ result0 0%R _ eq_refl).
Defined.

(** A tracker that saw the wrist at (1, 1) at time 0. *)
Definition tracker1 : VisionService.t :=
  VisionService.mk true (Some (VisionService.mkWristPos 1 1 0)).

Lemma detect_after_lost_hand_witness :
  exists o svc1 h svc2,
    VisionService.landmarks (VisionService.mkResult [] []) = [] /\
    VisionService.detect tracker1 (VisionService.mkResult [] []) 1
    = Some (o, svc1) /\
    VisionService.detect svc1 result0 2 = Some (Some h, svc2) /\
    o = None /\ VisionService.lastWristPos svc1 = None /\
    HandData.velocity h = 0%R.
Proof.
  eexists. eexists. eexists. eexists. split; [reflexivity|].
  split; [reflexivity|]. split; [reflexivity|].
  exact (detect_after_lost_hand tracker1 _ _
           (VisionService.mkResult [] []) result0 1%R 2%R _ _
           eq_refl eq_refl eq_refl).
Defined.

Lemma detect_landmark_bounds_witness :
  VisionService.handLandmarker tracker0 = true /\
  (21 <= length hand0)%nat /\
  (length (take 20 hand0) < 21)%nat /\
  VisionService.detect tracker0
    (VisionService.mkResult [take 20 hand0] []) 0 = None /\
  exists h wrist,
    hand0 !! 0%nat = Some wrist /\
    VisionService.detect tracker0 result0 0
    = Some (Some h,
            VisionService.mk true
              (Some (VisionService.mkWristPos (VisionService.x wrist)
                       (VisionService.y wrist) 0))) /\
    vx (HandData.position h) = VisionService.x wrist /\
    vy (HandData.position h) = VisionService.y wrist.
Proof.
  assert (Hlong : (21 <= length hand0)%nat) by (cbn; lia).
  assert (Hshort : (length (take 20 hand0) < 21)%nat) by (cbn; lia).
  split; [reflexivity|]. split; [exact Hlong|]. split; [exact Hshort|].
  split.
  - exact (proj1 (proj2 (detect_landmark_bounds tracker0 (take 20 hand0)
                           [] [] 0%R)) eq_refl Hshort).
  - exact (proj2 (proj2 (detect_landmark_bounds tracker0 hand0 [] [] 0%R))
             eq_refl Hlong ltac:(intros w Hw; discriminate Hw)).
Defined.

(** A game in play with three seconds left. *)
Definition playing3 : App.t :=
  App.mk None (GameStats.mk 4 0 0) App.PLAYING 3 0 true false.

Lemma countdown_to_result_witness :
  App.gameState playing3 = App.PLAYING /\
  App.timerInterval playing3 = true /\
  App.timeLeft playing3 = Z.of_nat 3 /\
  App.gestureOf playing3 <> Some Gesture.Victory /\
  exists a',
    repeatEvent App.TimerTick 3 playing3 = Some a' /\
    App.gameState a' = App.RESULT /\ App.timeLeft a' = 0%Z /\
    App.stats a' = App.stats playing3 /\
    App.restartCooldown a' = 3%Z.
Proof.
  assert (Hnv : App.gestureOf playing3 <> Some Gesture.Victory)
    by discriminate.
  split; [reflexivity|]. split; [reflexivity|]. split; [reflexivity|].
  split; [exact Hnv|].
  destruct (proj2 (countdown_to_result 3 playing3 eq_refl eq_refl eq_refl
                     ltac:(lia) Hnv))
    as (a' & Hrun & Hg & Ht & Hs & Hc & _).
  exists a'. auto.
Defined.

Lemma cooldown_to_zero_witness :
  App.gameState (result_screen 3 Gesture.None) = App.RESULT /\
  App.cooldownInterval (result_screen 3 Gesture.None) = true /\
  App.restartCooldown (result_screen 3 Gesture.None) = Z.of_nat 3 /\
  exists a',
    repeatEvent App.CooldownTick 3 (result_screen 3 Gesture.None)
    = Some a' /\
    App.restartCooldown a' = 0%Z /\ App.cooldownInterval a' = false /\
    App.step App.CooldownTick a' = None.
Proof.
  split; [reflexivity|]. split; [reflexivity|]. split; [reflexivity|].
  destruct (proj2 (cooldown_to_zero 3 (result_screen 3 Gesture.None)
                     eq_refl eq_refl eq_refl ltac:(lia)
                     ltac:(discriminate)))
    as (a' & Hrun & _ & Hc & Hi & Hstop).
  exists a'. auto.
Defined.

Lemma menu_start_witness :
  App.gameState App.initial = App.MENU /\
  App.gestureOf App.initial <> Some Gesture.Victory /\
  (exists a',
     App.step App.ClickStart App.initial = Some a' /\
     App.gameState a' = App.PLAYING /\ App.timeLeft a' = 30%Z) /\
  (exists a',
     App.step (App.Detect (handWith Gesture.Victory 0)) App.initial
     = Some a' /\
     App.gameState a' = App.PLAYING /\ App.timeLeft a' = 30%Z).
Proof.
  assert (Hnv : App.gestureOf App.initial <> Some Gesture.Victory)
    by discriminate.
  split; [reflexivity|]. split; [exact Hnv|].
  destruct (menu_start App.initial (HandData.mk Gesture.Victory 0 origin)
              eq_refl Hnv) as (Hclick & Hvictory & _).
  split.
  - destruct Hclick as (a' & Hstep & Hg & Ht & _). exists a'. auto.
  - destruct (Hvictory eq_refl) as (a' & Hstep & Hg & Ht & _).
    exists a'. auto.
Defined.

Lemma play_only_ends_by_timer_witness :
  App.gameState playing3 = App.PLAYING /\
  exists a',
    App.step (App.Detect (handWith Gesture.Victory 0)) playing3 = Some a' /\
    App.gameState a' = App.PLAYING /\
    App.timeLeft a' = App.timeLeft playing3.
Proof.
  split; [reflexivity|]. eexists. split; [reflexivity|].
  exact (play_only_ends_by_timer playing3 _
           (App.Detect (handWith Gesture.Victory 0))
           eq_refl ltac:(discriminate) eq_refl).
Defined.

Lemma session_invariant_witness :
  exists a,
    runEvents
      [App.Detect (handWith Gesture.Victory 0); App.TimerTick;
       App.StatsUpdate (GameStats.mk 1 0 0)]
      App.initial = Some a /\
    settled a.
Proof.
  eexists. split; [reflexivity|].
  exact (session_invariant
           [App.Detect (handWith Gesture.Victory 0); App.TimerTick;
            App.StatsUpdate (GameStats.mk 1 0 0)] _ eq_refl).
Defined.

(** The last second of a game during which a Victory gesture is held,
    on a page that has not shown a result yet. *)
Definition last_second_victory : App.t :=
  App.mk (handWith Gesture.Victory 0) (GameStats.mk 4 0 0) App.PLAYING 1 0
    true false.

Lemma result_entered_with_victory_held_witness :
  App.gameState last_second_victory = App.PLAYING /\
  App.timerInterval last_second_victory = true /\
  (App.timeLeft last_second_victory <= 1)%Z /\
  App.restartCooldown last_second_victory = 0%Z /\
  App.gestureOf last_second_victory = Some Gesture.Victory /\
  exists a',
    App.step App.TimerTick last_second_victory = Some a' /\
    App.gameState a' = App.PLAYING /\ App.timeLeft a' = 30%Z.
Proof.
  split; [reflexivity|]. split; [reflexivity|]. split; [cbn; lia|].
  split; [reflexivity|]. split; [reflexivity|].
  exact (result_entered_with_victory_held last_second_victory
           eq_refl eq_refl ltac:(cbn; lia) eq_refl eq_refl).
Defined.

(** The page in the last second of a game, with an envelope alive in
    the scene. *)
Definition page_last_second : Page :=
  mkPage (App.mk None (GameStats.mk 10 5 0) App.PLAYING 1 0 true false)
    scene_with_envelope.

Lemma page_game_over_witness :
  App.gameState (app page_last_second) = App.PLAYING /\
  App.timerInterval (app page_last_second) = true /\
  (App.timeLeft (app page_last_second) <= 1)%Z /\
  App.gestureOf (app page_last_second) <> Some Gesture.Victory /\
  exists p',
    pageStep App.TimerTick page_last_second = Some p' /\
    App.gameState (app p') = App.RESULT /\
    isGameActiveRef (scene p') = false /\
    gameState (scene p') = gameState (scene page_last_second) /\
    envelopes (scene p') = envelopes (scene page_last_second).
Proof.
  assert (Ht : (App.timeLeft (app page_last_second) <= 1)%Z) by (cbn; lia).
  assert (Hnv : App.gestureOf (app page_last_second)
                <> Some Gesture.Victory) by discriminate.
  split; [reflexivity|]. split; [reflexivity|]. split; [exact Ht|].
  split; [exact Hnv|].
  destruct (page_game_over page_last_second eq_refl eq_refl Ht Hnv)
    as (p' & Hstep & Hg & _ & Hoff & Hst & Hk).
  exists p'. split; [exact Hstep|]. split; [exact Hg|].
  split; [exact Hoff|]. split; [exact Hst|].
  unfold kept_by_render in Hk. congruence.
Defined.

Lemma scene0_free : ~ all_active (pool scene0).
Proof.
  unfold all_active. intros Hall.
  assert (H0 : particlesData (pool scene0) !! 0%nat
               = Some (ParticleData.mk false 0 (mkVector3 0 0 0) 0 0))
    by reflexivity.
  pose proof (proj1 (Forall_lookup _ _) Hall _ _ H0) as Ha.
  discriminate Ha.
Qed.

Lemma spawnParticle_takes_free_slot_witness :
  wf_pool (pool scene0) /\ ~ all_active (pool scene0) /\
  wp (spawnParticle env0 origin 0 origin 1 0.01 1)
     (fun _ s' => active_count (pool s') = S (active_count (pool scene0)))
     scene0.
Proof.
  split; [exact (proj2 scene0_running)|]. split; [exact scene0_free|].
  eapply wp_mono.
  - exact (spawnParticle_takes_free_slot env0 env0_range origin 0%Z origin
             1%R 0.01%R 1%R scene0 (proj2 scene0_running) scene0_free).
  - cbn beta. intros [] s' (i & p & _ & _ & _ & _ & _ & _ & Hc). exact Hc.
Defined.

Lemma inactive_slots_parked_witness :
  wp (runFrames env0 [frameWith Gesture.Victory; frameWith Gesture.Open_Palm])
     (fun _ s' =>
        forall i p,
          particlesData (pool s') !! i = Some p ->
          ParticleData.active p = false ->
          particleSizes (pool s') !! i = Some 0%R /\
          particlePositions (pool s') !! (i * 3 + 1)%nat = Some (-1000)%R)
     (mounted 0 None true).
Proof.
  exact (inactive_slots_parked env0 env0_range 0%nat None true
           [frameWith Gesture.Victory; frameWith Gesture.Open_Palm]).
Defined.

(** A mounted scene whose stats were changed in the last frame. *)
Definition scene_dirty : Scene :=
  set_statsDirty true (set_gameState (GameStats.mk 1 0 0) scene0).

Lemma scene_dirty_running : running scene_dirty.
Proof. exact scene0_running. Qed.

Lemma stats_reported_once_witness :
  running scene_dirty /\
  wp (loop env0 0)
     (fun _ s' =>
        exists l,
          trace s' = StatsUpdate (GameStats.mk 1 0 0) :: l /\
          Forall notReport l)
     scene_dirty.
Proof.
  split; [exact scene_dirty_running|].
  eapply wp_mono.
  - exact (stats_reported_once env0 env0_range 0%R scene_dirty
             scene_dirty_running).
  - cbn beta. intros [] s' (l & Htr & Hq & _). exists l.
    split; [exact Htr | exact Hq].
Defined.

Lemma stats_grow_in_frame_witness :
  running scene_dirty /\
  wp (loop env0 0)
     (fun _ s' =>
        (1 <= GameStats.exploded (gameState s'))%Z /\
        (GameStats.consumed (gameState s')
         <= GameStats.exploded (gameState s'))%Z)
     scene_dirty.
Proof.
  split; [exact scene_dirty_running|].
  eapply wp_mono.
  - exact (stats_grow_in_frame env0 env0_range 0%R scene_dirty
             scene_dirty_running).
  - cbn beta zeta. intros [] s' (He & _ & _ & Hc).
    split; [exact He|]. apply Hc. cbn. lia.
Defined.

(** The mounted scene with one projectile about to leave the top of the
    scene and one on its way up. *)
Definition scene_two_projectiles : Scene :=
  set_projectiles
    [Projectile.mk 0 (mkVector3 0 39.9 0) (mkVector3 0 0.5 0) 0xff0040;
     Projectile.mk 0 (mkVector3 0 0 0) (mkVector3 0 0.5 0) 0x00ff40]
    scene0.

Lemma updateProjectiles_moves_each_witness :
  wf_pool (pool scene_two_projectiles) /\
  wp (updateProjectiles env0 0)
     (fun _ s' =>
        Forall (fun p => (vy (Projectile.position p) <= 40)%R)
          (projectiles s') /\
        (length (projectiles s') <= 2)%nat)
     scene_two_projectiles.
Proof.
  split; [exact (proj2 scene0_running)|].
  eapply wp_mono.
  - exact (updateProjectiles_moves_each env0 env0_range 0%R
             scene_two_projectiles (proj2 scene0_running)).
  - cbn beta. intros [] s' (_ & Hall & Hlen & _).
    split; [exact Hall | exact Hlen].
Defined.


Lemma spawnEnvelopes3D_fresh_batch_witness :
  running scene0 /\ envelopes scene0 = [] /\
  wp (spawnEnvelopes3D env0)
     (fun _ s' => (1 <= length (envelopes s') <= 4)%nat) scene0.
Proof.
  split; [exact scene0_running|]. split; [reflexivity|].
  eapply wp_mono.
  - exact (spawnEnvelopes3D_fresh_batch env0 env0_range scene0
             scene0_running eq_refl).
  - cbn beta. intros [] s' ((count & g & Hc & _ & Hlen & _) & _). lia.
Defined.

(** The mounted scene of a page on which no game is active, with a
    coin in it. *)
Definition scene_idle : Scene :=
  set_coins [Coin.mk origin origin origin (0, 0)%R] (mounted 0 None false).

Lemma scene_idle_running : running scene_idle.
Proof. exact (mounted_running 0 None false). Qed.

Lemma inactive_frame_witness :
  running scene_idle /\ isGameActiveRef scene_idle = false /\
  wp (loop env0 0)
     (fun _ s' =>
        projectiles s' = [] /\ envelopes s' = [] /\
        gameState s' = gameState scene_idle /\
        nextSpawnTime s' = nextSpawnTime scene_idle)
     scene_idle.
Proof.
  split; [exact scene_idle_running|]. split; [reflexivity|].
  eapply wp_mono.
  - exact (inactive_frame env0 env0_range 0%R scene_idle
             scene_idle_running eq_refl).
  - cbn beta zeta. intros [] s' (Hps & He & _ & Hg & Hn & _). auto.
Defined.

Lemma idle_gesture_frame_witness :
  running scene_with_envelope /\
  activeGestureOf (handDataRef scene_with_envelope) scene_with_envelope
  = stableGesture scene_with_envelope /\
  wp (loop env0 0)
     (fun _ s' =>
        gameState s' = gameState scene_with_envelope /\
        length (envelopes s') = 1%nat)
     scene_with_envelope.
Proof.
  assert (Hrun : running scene_with_envelope) by exact scene0_running.
  split; [exact Hrun|]. split; [reflexivity|].
  eapply wp_mono.
  - exact (idle_gesture_frame env0 env0_range 0%R scene_with_envelope Hrun
             (or_introl eq_refl)).
  - cbn beta zeta. intros [] s' (Hg & He & _). split; [exact Hg|].
    rewrite He. reflexivity.
Defined.

Lemma explodeVisibleProjectiles_exact_witness :
  running scene_two_projectiles /\
  wp (explodeVisibleProjectiles env0)
     (fun _ s' =>
        projectiles s' =
          List.filter (fun p => negb (visible env0 p))
            (projectiles scene_two_projectiles) /\
        envelopes s' = envelopes scene_two_projectiles)
     scene_two_projectiles.
Proof.
  assert (Hrun : running scene_two_projectiles) by exact scene0_running.
  split; [exact Hrun|].
  eapply wp_mono.
  - exact (explodeVisibleProjectiles_exact env0 env0_range
             scene_two_projectiles Hrun).
  - cbn beta zeta. intros [] s' (Hps & _ & _ & _ & _ & He & _).
    split; [exact Hps | exact He].
Defined.


Lemma createExplosion_fills_pool_witness :
  wf_pool (pool saturated) /\
  wp (createExplosion env0 origin 0)
     (fun _ s' =>
        active_count (pool s') =
          Nat.min (active_count (pool saturated) + 60) 4000)
     saturated.
Proof.
  split; [exact saturated_wf|].
  exact (createExplosion_fills_pool env0 env0_range origin 0%Z saturated
           saturated_wf).
Defined.

Lemma explodeEnvelopes_converts_witness :
  running scene_with_envelope /\
  wp (explodeEnvelopes env0)
     (fun _ s' =>
        envelopes s' = [] /\
        (3 <= length (coins s') <= 20)%nat /\
        (3 <= GameStats.coins (gameState s') <= 40)%Z)
     scene_with_envelope.
Proof.
  assert (Hrun : running scene_with_envelope) by exact scene0_running.
  split; [exact Hrun|].
  eapply wp_mono.
  - exact (explodeEnvelopes_converts env0 env0_range scene_with_envelope
             Hrun).
  - cbn beta zeta. intros [] s' (He & Hco & Hg & _).
    split; [exact He|]. split; [exact Hco | exact Hg].
Defined.

(** The mounted scene of a game with five detonations, none of them
    spent. *)
Definition scene_one_charge : Scene :=
  set_gameState (GameStats.mk 5 0 0) scene0.

Lemma trySpawnEnvelopes_spends_one_charge_witness :
  running scene_one_charge /\ envelopes scene_one_charge = [] /\
  (1 <= charges (gameState scene_one_charge))%Z /\
  wp (trySpawnEnvelopes env0)
     (fun _ s' =>
        charges (gameState s') = 0%Z /\
        (1 <= length (envelopes s') <= 4)%nat)
     scene_one_charge.
Proof.
  assert (Hrun : running scene_one_charge) by exact scene0_running.
  assert (Hc : (1 <= charges (gameState scene_one_charge))%Z)
    by (vm_compute; discriminate).
  split; [exact Hrun|]. split; [reflexivity|]. split; [exact Hc|].
  eapply wp_mono.
  - exact (proj2 (trySpawnEnvelopes_spends_one_charge env0 env0_range
                    scene_one_charge Hrun eq_refl) Hc).
  - cbn beta. intros [] s' (Hch & _ & _ & _ & Hlen & _).
    split; [exact Hch | exact Hlen].
Defined.
